(** * Orchestration core of the note-assistant plugin: a shallow embedding

    The development follows the TypeScript sources:

    - [JS]         the fragment of JavaScript values and operators the
                   adapters rely on (decoded JSON, property reads that may
                   throw, truthiness, [||], [?.]);
    - [Events]     the normalized [StandardEvent] (core/backends/types.ts);
    - [OpenCode]   core/backends/opencode-backend.ts;
    - [Claude]     core/backends/claude-backend.ts;
    - [Types]      core/types.ts and core/settings.ts;
    - [NoteContextManager]  managers/note-context-manager.ts, over a file
                   system of context files;
    - [SessionManager]      the rolling conversation history of
                   core/session-manager.ts;
    - [ProcessSpawner]      core/process-spawner.ts, over a record of host
                   functions;
    - [View]       the run, cancel and approve handlers of ui/view.ts and
                   the turns of the event loop that drive them.

    Definitions come first, the statements about them afterwards. *)

From Stdlib Require Import String Ascii List ZArith QArith Bool Lia.
From stdpp Require Import base option list gmap strings.

#[local] Set Warnings "-register-all".

(* ===================================================================== *)
(** ** JavaScript values *)
(* ===================================================================== *)

Module JS.

(** A decoded JSON document, extended with [undefined] (the result of
    reading an absent property).  Numbers are the rationals their JSON
    literals denote; IEEE rounding plays no part in the code modelled
    here.  An object is the list of its own properties, in order; a
    decoded object has no repeated key. *)
Inductive value : Type :=
| JUndefined
| JNull
| JBool (b : bool)
| JNum (q : Q)
| JStr (s : string)
| JArr (xs : list value)
| JObj (fields : list (string * value)).

(** The exceptions of the modelled code: a property read on [undefined]
    or [null] (or a call of something that is no function), and
    [JSON.parse] on text that is not JSON. *)
Inductive exn : Type :=
| TypeError
| SyntaxError.

Inductive result (A : Type) : Type :=
| Ok (a : A)
| Throw (e : exn).
Arguments Ok {A} a.
Arguments Throw {A} e.

#[global] Instance result_ret : MRet result := fun _ a => Ok a.
#[global] Instance result_bind : MBind result := fun _ _ f r =>
  match r with
  | Ok a => f a
  | Throw e => Throw e
  end.

#[global] Instance result_fmap : FMap result := fun _ _ f r =>
  match r with
  | Ok a => Ok (f a)
  | Throw e => Throw e
  end.

(** Own-property lookup. *)
Fixpoint assoc (k : string) (fields : list (string * value)) : value :=
  match fields with
  | [] => JUndefined
  | (k', v) :: rest => if String.eqb k k' then v else assoc k rest
  end.

(** [v.k].  Reading a property of [undefined] or [null] throws.  None of
    the property names read by the adapters is defined on the prototypes
    of strings, numbers, booleans, arrays or plain objects, so on those
    the read is an own-property lookup. *)
Definition get (v : value) (k : string) : result value :=
  match v with
  | JUndefined | JNull => Throw TypeError
  | JObj fields => Ok (assoc k fields)
  | JBool _ | JNum _ | JStr _ | JArr _ => Ok JUndefined
  end.

(** [v?.k]. *)
Definition get_opt (v : value) (k : string) : value :=
  match v with
  | JObj fields => assoc k fields
  | _ => JUndefined
  end.

(** Truthiness, as tested by [if (v)], [!v], [a || b] and [a && b]. *)
Definition truthy (v : value) : bool :=
  match v with
  | JUndefined | JNull => false
  | JBool b => b
  | JNum q => negb (Qeq_bool q 0)
  | JStr s => negb (String.eqb s "")
  | JArr _ | JObj _ => true
  end.

(** [a || b]. *)
Definition or_else (a b : value) : value :=
  if truthy a then a else b.

(** [v === 'lit']. *)
Definition is_str (v : value) (lit : string) : bool :=
  match v with
  | JStr s => String.eqb s lit
  | _ => false
  end.

(** [typeof v === 'string']. *)
Definition typeof_string (v : value) : bool :=
  match v with
  | JStr _ => true
  | _ => false
  end.

(** The sequence a [for (const x of v)] loop visits.  Arrays yield their
    elements and strings their characters; numbers, booleans and plain
    objects are not iterable. *)
Definition iterate (v : value) : result (list value) :=
  match v with
  | JArr xs => Ok xs
  | JStr s => Ok (map (fun c => JStr (String c EmptyString)) (list_ascii_of_string s))
  | JUndefined | JNull | JBool _ | JNum _ | JObj _ => Throw TypeError
  end.

End JS.
Export JS.

(* ===================================================================== *)
(** ** Normalized events (core/backends/types.ts) *)
(* ===================================================================== *)

Module Events.

Inductive event_type : Type :=
| init | text_ | thinking | tool_start | tool_result
| step_complete | error | block_start | block_end.

Record Tokens : Type := mkTokens {
  input : value;
  output : value;
  cached : value
}.

(** An optional field that an object literal leaves out reads as
    [JUndefined]; [tokens] is [None] when it is [undefined]. *)
Record StandardEvent : Type := mkStandardEvent {
  type : event_type;
  blockType : value;
  sessionId : value;
  text : value;
  toolName : value;
  toolInput : value;
  toolOutput : value;
  tokens : option Tokens;
  cost : value;
  durationMs : value;
  isStreaming : value;
  model : value;
  tools : value;
  errorMessage : value
}.

(** [{ type: t }]. *)
Definition event (t : event_type) : StandardEvent :=
  mkStandardEvent t JUndefined JUndefined JUndefined JUndefined JUndefined
    JUndefined None JUndefined JUndefined JUndefined JUndefined JUndefined
    JUndefined.

Definition with_blockType (v : value) (e : StandardEvent) : StandardEvent :=
  let '(mkStandardEvent t _ sid tx tn ti to tk c d st m tl em) := e in
  mkStandardEvent t v sid tx tn ti to tk c d st m tl em.
Definition with_sessionId (v : value) (e : StandardEvent) : StandardEvent :=
  let '(mkStandardEvent t bt _ tx tn ti to tk c d st m tl em) := e in
  mkStandardEvent t bt v tx tn ti to tk c d st m tl em.
Definition with_text (v : value) (e : StandardEvent) : StandardEvent :=
  let '(mkStandardEvent t bt sid _ tn ti to tk c d st m tl em) := e in
  mkStandardEvent t bt sid v tn ti to tk c d st m tl em.
Definition with_toolName (v : value) (e : StandardEvent) : StandardEvent :=
  let '(mkStandardEvent t bt sid tx _ ti to tk c d st m tl em) := e in
  mkStandardEvent t bt sid tx v ti to tk c d st m tl em.
Definition with_toolInput (v : value) (e : StandardEvent) : StandardEvent :=
  let '(mkStandardEvent t bt sid tx tn _ to tk c d st m tl em) := e in
  mkStandardEvent t bt sid tx tn v to tk c d st m tl em.
Definition with_toolOutput (v : value) (e : StandardEvent) : StandardEvent :=
  let '(mkStandardEvent t bt sid tx tn ti _ tk c d st m tl em) := e in
  mkStandardEvent t bt sid tx tn ti v tk c d st m tl em.
Definition with_tokens (v : option Tokens) (e : StandardEvent) : StandardEvent :=
  let '(mkStandardEvent t bt sid tx tn ti to _ c d st m tl em) := e in
  mkStandardEvent t bt sid tx tn ti to v c d st m tl em.
Definition with_cost (v : value) (e : StandardEvent) : StandardEvent :=
  let '(mkStandardEvent t bt sid tx tn ti to tk _ d st m tl em) := e in
  mkStandardEvent t bt sid tx tn ti to tk v d st m tl em.
Definition with_durationMs (v : value) (e : StandardEvent) : StandardEvent :=
  let '(mkStandardEvent t bt sid tx tn ti to tk c _ st m tl em) := e in
  mkStandardEvent t bt sid tx tn ti to tk c v st m tl em.
Definition with_isStreaming (v : value) (e : StandardEvent) : StandardEvent :=
  let '(mkStandardEvent t bt sid tx tn ti to tk c d _ m tl em) := e in
  mkStandardEvent t bt sid tx tn ti to tk c d v m tl em.
Definition with_model (v : value) (e : StandardEvent) : StandardEvent :=
  let '(mkStandardEvent t bt sid tx tn ti to tk c d st _ tl em) := e in
  mkStandardEvent t bt sid tx tn ti to tk c d st v tl em.
Definition with_tools (v : value) (e : StandardEvent) : StandardEvent :=
  let '(mkStandardEvent t bt sid tx tn ti to tk c d st m _ em) := e in
  mkStandardEvent t bt sid tx tn ti to tk c d st m v em.

End Events.
Export Events.

(* ===================================================================== *)
(** ** OpenCode adapter (core/backends/opencode-backend.ts) *)
(* ===================================================================== *)

Module OpenCode.

(** The adapter object: its one mutable field. *)
Record OpenCodeBackend : Type := mkOpenCodeBackend {
  hasSeenInit : bool
}.

(** [new OpenCodeBackend()]. *)
Definition create : OpenCodeBackend := mkOpenCodeBackend false.

(** A method call returns its outcome and the adapter afterwards. *)
Definition call (A : Type) : Type := (result A * OpenCodeBackend)%type.

Definition parseStepStartEvent (this : OpenCodeBackend) (event : value)
  : call (option StandardEvent) :=
  if negb (hasSeenInit this) then
    let this' := mkOpenCodeBackend true in
    (sid ← get event "sessionID";
     mret (Some (with_sessionId sid (Events.event init))), this')
  else (Ok None, this).

Definition parseTextEvent (event : value) : result (option StandardEvent) :=
  part ← get event "part";
  let text := get_opt part "text" in
  if negb (truthy text) then mret None
  else
    sid ← get event "sessionID";
    mret (Some (with_isStreaming (JBool true)
                 (with_sessionId sid
                   (with_text text (Events.event text_))))).

Definition parseToolUseEvent (event : value) : result (option StandardEvent) :=
  part ← get event "part";
  if negb (truthy part) then mret None
  else
    tool ← get part "tool";
    let toolName := or_else tool (JStr "unknown") in
    state ← get part "state";
    if negb (truthy state) then
      sid ← get event "sessionID";
      mret (Some (with_sessionId sid
                   (with_toolName toolName (Events.event tool_start))))
    else
      status ← get state "status";
      if is_str status "completed" then
        inp ← get state "input";
        out ← get state "output";
        sid ← get event "sessionID";
        mret (Some (with_sessionId sid
                     (with_toolOutput out
                       (with_toolInput inp
                         (with_toolName toolName (Events.event tool_result))))))
      else
        inp ← get state "input";
        sid ← get event "sessionID";
        mret (Some (with_sessionId sid
                     (with_toolInput inp
                       (with_toolName toolName (Events.event tool_start))))).

Definition parseStepFinishEvent (event : value) : result StandardEvent :=
  part ← get event "part";
  let tokens := get_opt part "tokens" in
  let cost := or_else (get_opt part "cost") (JNum 0) in
  tk ← (if truthy tokens then
          i ← get tokens "input";
          o ← get tokens "output";
          c ← get tokens "cache";
          mret (Some (mkTokens (or_else i (JNum 0))
                               (or_else o (JNum 0))
                               (or_else (get_opt c "read") (JNum 0))))
        else mret None);
  sid ← get event "sessionID";
  mret (with_sessionId sid (with_tokens tk (with_cost cost (Events.event step_complete)))).

Definition parseEvent (this : OpenCodeBackend) (rawEvent : value)
  : call (option StandardEvent) :=
  match get rawEvent "type" with
  | Throw e => (Throw e, this)
  | Ok ty =>
      if is_str ty "step_start" then parseStepStartEvent this rawEvent
      else if is_str ty "text" then (parseTextEvent rawEvent, this)
      else if is_str ty "tool_use" then (parseToolUseEvent rawEvent, this)
      else if is_str ty "step_finish" then
        (Some <$> parseStepFinishEvent rawEvent, this)
      else (Ok None, this)
  end.

Definition extractSessionId (rawEvent : value) : result value :=
  sid ← get rawEvent "sessionID";
  mret (or_else sid JNull).

Definition reset (this : OpenCodeBackend) : OpenCodeBackend :=
  mkOpenCodeBackend false.

(** The stream processor hands the decoded lines of one run to the
    adapter in the order they arrive; a throwing call does not stop the
    stream. *)
Fixpoint parseAll (this : OpenCodeBackend) (rawEvents : list value)
  : list (result (option StandardEvent)) * OpenCodeBackend :=
  match rawEvents with
  | [] => ([], this)
  | ev :: rest =>
      let '(r, this') := parseEvent this ev in
      let '(rs, this'') := parseAll this' rest in
      (r :: rs, this'')
  end.

(** The event types the adapter's [switch] names. *)
Definition recognized (ty : value) : bool :=
  is_str ty "step_start" || is_str ty "text" || is_str ty "tool_use"
  || is_str ty "step_finish".

(** The three decoded lines of the step-oriented scenario. *)
Definition line_step_start : value :=
  JObj [("type", JStr "step_start"); ("sessionID", JStr "abc")].
Definition line_text : value :=
  JObj [("type", JStr "text");
        ("part", JObj [("text", JStr "hi"); ("sessionID", JStr "abc")])].
Definition line_step_finish : value :=
  JObj [("type", JStr "step_finish");
        ("part", JObj [("tokens",
                        JObj [("input", JNum 5); ("output", JNum 2)])])].

End OpenCode.

(* ===================================================================== *)
(** ** Claude adapter (core/backends/claude-backend.ts) *)
(* ===================================================================== *)

Module Claude.

Section Adapter.

(** The host's [JSON.stringify], used on non-string tool results. *)
Variable JSON_stringify : value -> value.

Definition parseSystemEvent (event : value) : result (option StandardEvent) :=
  subtype ← get event "subtype";
  if is_str subtype "init" then
    sid ← get event "session_id";
    m ← get event "model";
    tl ← get event "tools";
    mret (Some (with_tools tl (with_model m
                 (with_sessionId sid (Events.event init)))))
  else mret None.

(** The body of the [for (const block of event.message.content)] loop,
    run over the blocks still to visit: every branch that matches
    returns from the method. *)
Fixpoint parseContentBlocks (blocks : list value)
  : result (option StandardEvent) :=
  match blocks with
  | [] => mret None
  | block :: rest =>
      ty ← get block "type";
      txt ← get block "text";
      if is_str ty "thinking" && truthy txt then
        mret (Some (with_text txt (Events.event thinking)))
      else if is_str ty "text" && truthy txt then
        mret (Some (with_text txt (Events.event text_)))
      else
        name ← get block "name";
        if is_str ty "tool_use" && truthy name then
          inp ← get block "input";
          mret (Some (with_toolInput inp
                       (with_toolName name (Events.event tool_start))))
        else parseContentBlocks rest
  end.

Definition parseAssistantEvent (event : value)
  : result (option StandardEvent) :=
  message ← get event "message";
  let content := get_opt message "content" in
  if negb (truthy content) then mret None
  else
    blocks ← iterate content;
    parseContentBlocks blocks.

Definition parseToolUseEvent (event : value)
  : result (option StandardEvent) :=
  tn ← get event "tool_name";
  let toolName := or_else tn (JStr "unknown") in
  subtype ← get event "subtype";
  inp ← get event "input";
  if is_str subtype "input" && truthy inp then
    mret (Some (with_toolInput inp
                 (with_toolName toolName (Events.event tool_start))))
  else if is_str subtype "result" then
    res ← get event "result";
    let output := if typeof_string res then res else JSON_stringify res in
    mret (Some (with_toolOutput output
                 (with_toolName toolName (Events.event tool_result))))
  else mret None.

Definition parseResultEvent (event : value) : result StandardEvent :=
  d ← get event "duration_ms";
  c ← get event "total_cost_usd";
  usage ← get event "usage";
  tk ← (if truthy usage then
          i ← get usage "input_tokens";
          o ← get usage "output_tokens";
          mret (Some (mkTokens i o JUndefined))
        else mret None);
  mret (with_tokens tk (with_cost c
         (with_durationMs d (Events.event step_complete)))).

Definition parseStreamEvent (event : value)
  : result (option StandardEvent) :=
  streamEvent ← get event "event";
  if negb (truthy streamEvent) then mret None
  else
    sty ← get streamEvent "type";
    if is_str sty "content_block_delta" then
      delta ← get streamEvent "delta";
      let dty := get_opt delta "type" in
      let dtxt := get_opt delta "text" in
      if is_str dty "text_delta" && truthy dtxt then
        mret (Some (with_isStreaming (JBool true)
                     (with_text dtxt (Events.event text_))))
      else if is_str dty "thinking_delta" && truthy dtxt then
        mret (Some (with_isStreaming (JBool true)
                     (with_text dtxt (Events.event thinking))))
      else mret None
    else if is_str sty "content_block_start" then
      cb ← get streamEvent "content_block";
      let blockType := get_opt cb "type" in
      if is_str blockType "text" || is_str blockType "thinking" then
        mret (Some (with_blockType blockType (Events.event block_start)))
      else mret None
    else if is_str sty "content_block_stop" then
      mret (Some (Events.event block_end))
    else mret None.

Definition parseEvent (rawEvent : value) : result (option StandardEvent) :=
  ty ← get rawEvent "type";
  if is_str ty "system" then parseSystemEvent rawEvent
  else if is_str ty "assistant" then parseAssistantEvent rawEvent
  else if is_str ty "tool_use" then parseToolUseEvent rawEvent
  else if is_str ty "result" then Some <$> parseResultEvent rawEvent
  else if is_str ty "stream_event" then parseStreamEvent rawEvent
  else mret None.

Definition extractSessionId (rawEvent : value) : result value :=
  ty ← get rawEvent "type";
  subtype ← get rawEvent "subtype";
  if is_str ty "system" && is_str subtype "init" then
    sid ← get rawEvent "session_id";
    mret (or_else sid JNull)
  else mret JNull.

End Adapter.

(** The event types the adapter's [switch] names. *)
Definition recognized (ty : value) : bool :=
  is_str ty "system" || is_str ty "assistant" || is_str ty "tool_use"
  || is_str ty "result" || is_str ty "stream_event".

(** The normalized event one content block stands for by itself: what the
    loop body returns when the block is the one it stops at. *)
Definition blockEvent (block : value) : option StandardEvent :=
  let ty := get_opt block "type" in
  let txt := get_opt block "text" in
  let name := get_opt block "name" in
  if is_str ty "thinking" && truthy txt then
    Some (with_text txt (Events.event thinking))
  else if is_str ty "text" && truthy txt then
    Some (with_text txt (Events.event text_))
  else if is_str ty "tool_use" && truthy name then
    Some (with_toolInput (get_opt block "input")
           (with_toolName name (Events.event tool_start)))
  else None.

(** An assistant line with a thinking block followed by a text block. *)
Definition line_two_blocks : list (string * value) :=
  [("type", JStr "assistant");
   ("message",
    JObj [("content",
           JArr [JObj [("type", JStr "thinking"); ("text", JStr "t")];
                 JObj [("type", JStr "text"); ("text", JStr "a")]])])].

(** The reading of the block-by-block sentence under test: whenever an
    assistant line carries a block that stands for an event, the
    adapter's answer for the line is that event. *)
Definition every_block_has_its_event (JSON_stringify : value -> value) : Prop :=
  forall (fields msg : list (string * value)) (blocks : list value)
         (block : value) (e : StandardEvent),
    assoc "type" fields = JStr "assistant" ->
    assoc "message" fields = JObj msg ->
    assoc "content" msg = JArr blocks ->
    block ∈ blocks ->
    blockEvent block = Some e ->
    parseEvent JSON_stringify (JObj fields) = Ok (Some e).

End Claude.

(* ===================================================================== *)
(** ** Conversation contexts (core/types.ts, core/settings.ts) *)
(* ===================================================================== *)

Module Types.

Inductive BackendType : Type :=
| claude
| opencode.

Record ClaudeCodeSettings : Type := mkSettings {
  backend : BackendType;
  claudeCodePath : string;
  autoDetectPath : bool;
  modelAlias : string;
  opencodePath : string;
  opencodeAutoDetect : bool;
  opencodeModel : string;
  customSystemPrompt : string;
  preserveCursorPosition : bool;
  timeoutSeconds : Z;
  autoAcceptChanges : bool;
  allowVaultAccess : bool;
  enablePermissionlessMode : bool;
  anthropicBaseUrl : string;
  anthropicAuthToken : string;
  anthropicModel : string;
  anthropicSmallFastModel : string;
  language : string
}.

Record TokenUsage : Type := mkTokenUsage {
  inputTokens : option Z;
  outputTokens : option Z;
  totalTokens : option Z
}.

(** The request literal built by the run handler of ui/view.ts.  An
    optional property is [None] when it is [undefined]. *)
Record ClaudeCodeRequest : Type := mkRequest {
  noteContent : option string;
  userPrompt : string;
  req_notePath : option string;
  selectedText : option string;
  req_vaultPath : string;
  configDir : string;
  runtimeModelOverride : option string;
  conversationalMode : bool;
  sessionDir : option string;
  bypassPermissions : option bool
}.

(** Modelled from the spec: the runner module (core/claude-code-runner.ts),
    which declares the response type, is not among the sources; the fields
    are those of the spec's Response and those ui/view.ts reads. *)
Record ClaudeCodeResponse : Type := mkResponse {
  success : bool;
  modifiedContent : option string;
  assistantMessage : option string;
  resp_error : option string;
  isPermissionRequest : option bool;
  resp_output : list string;
  tokenUsage : option TokenUsage
}.

(** Modelled from the spec: the runner class itself is not among the
    sources.  Of a runner the manager only keeps the settings it was built
    with; what [run] does is an effect of the caller (see [View]). *)
Record ClaudeCodeRunner : Type := mkRunner {
  runner_settings : ClaudeCodeSettings
}.

(** [timestamp] is the instant as ISO text, the form in which a [Date] is
    written to and read back from JSON.

    [item_outputLines] is the present content of the array the item holds.
    [sharesLines] is no property of the source's object: it records that
    the array the item holds is the very array the context holds as its
    [outputLines] (the item was pushed with a reference to it, and the
    context has not been given a new array since), so that a line appended
    to the context's array shows in the item as well. *)
Record SessionHistoryItem : Type := mkHistoryItem {
  prompt : string;
  timestamp : string;
  item_success : bool;
  item_notePath : string;
  response : option ClaudeCodeResponse;
  request : option ClaudeCodeRequest;
  item_outputLines : option (list string);
  sharesLines : bool
}.

(** An item whose array is not, or no longer, the context's: after the
    context was given a new array, and after a passage through JSON. *)
Definition unshared (item : SessionHistoryItem) : SessionHistoryItem :=
  mkHistoryItem (prompt item) (timestamp item) (item_success item)
    (item_notePath item) (response item) (request item)
    (item_outputLines item) false.

(** What [array.push(text)] on the context's array does to an item. *)
Definition pushed (text : string) (item : SessionHistoryItem)
  : SessionHistoryItem :=
  if sharesLines item then
    mkHistoryItem (prompt item) (timestamp item) (item_success item)
      (item_notePath item) (response item) (request item)
      ((fun lines => lines ++ [text]) <$> item_outputLines item) true
  else item.

(** What pushing [texts], one after the other, onto the context's array
    does to an item. *)
Definition pushedAll (texts : list string) (item : SessionHistoryItem)
  : SessionHistoryItem :=
  foldl (fun item text => pushed text item) item texts.

Record AgentStep : Type := mkAgentStep {
  icon : string;
  action : string;
  target : string;
  key : string;
  startTime : option Z;
  duration : option Z
}.

(** A DOM button, known by its handle only. *)
Definition HTMLButtonElement : Type := nat.

Record NoteContext : Type := mkNoteContext {
  history : list SessionHistoryItem;
  sessionId : option string;
  currentResponse : option ClaudeCodeResponse;
  currentRequest : option ClaudeCodeRequest;
  outputLines : list string;
  agentSteps : list AgentStep;
  runner : ClaudeCodeRunner;
  isRunning : bool;
  runButton : option HTMLButtonElement;
  cancelButton : option HTMLButtonElement;
  waitingForResponse : option bool;
  selectedModel : option string;
  lastPrompt : option string;
  pendingPreviewContent : option string;
  originalPreviewContent : option string;
  currentResultText : option string;
  executionStartTime : option Z;
  baseStatusMessage : option string
}.

(** [context.field = v], one function per field the view assigns. *)
Definition set_history (v : list SessionHistoryItem) (context : NoteContext) : NoteContext :=
  mkNoteContext v (sessionId context) (currentResponse context)
    (currentRequest context) (outputLines context) (agentSteps context)
    (runner context) (isRunning context) (runButton context)
    (cancelButton context) (waitingForResponse context)
    (selectedModel context) (lastPrompt context)
    (pendingPreviewContent context) (originalPreviewContent context)
    (currentResultText context) (executionStartTime context)
    (baseStatusMessage context).
Definition set_currentResponse (v : option ClaudeCodeResponse) (context : NoteContext) : NoteContext :=
  mkNoteContext (history context) (sessionId context) v
    (currentRequest context) (outputLines context) (agentSteps context)
    (runner context) (isRunning context) (runButton context)
    (cancelButton context) (waitingForResponse context)
    (selectedModel context) (lastPrompt context)
    (pendingPreviewContent context) (originalPreviewContent context)
    (currentResultText context) (executionStartTime context)
    (baseStatusMessage context).
Definition set_currentRequest (v : option ClaudeCodeRequest) (context : NoteContext) : NoteContext :=
  mkNoteContext (history context) (sessionId context)
    (currentResponse context) v (outputLines context) (agentSteps context)
    (runner context) (isRunning context) (runButton context)
    (cancelButton context) (waitingForResponse context)
    (selectedModel context) (lastPrompt context)
    (pendingPreviewContent context) (originalPreviewContent context)
    (currentResultText context) (executionStartTime context)
    (baseStatusMessage context).
Definition set_outputLines (v : list string) (context : NoteContext) : NoteContext :=
  mkNoteContext (history context) (sessionId context)
    (currentResponse context) (currentRequest context) v
    (agentSteps context) (runner context) (isRunning context)
    (runButton context) (cancelButton context) (waitingForResponse context)
    (selectedModel context) (lastPrompt context)
    (pendingPreviewContent context) (originalPreviewContent context)
    (currentResultText context) (executionStartTime context)
    (baseStatusMessage context).
Definition set_agentSteps (v : list AgentStep) (context : NoteContext) : NoteContext :=
  mkNoteContext (history context) (sessionId context)
    (currentResponse context) (currentRequest context)
    (outputLines context) v (runner context) (isRunning context)
    (runButton context) (cancelButton context) (waitingForResponse context)
    (selectedModel context) (lastPrompt context)
    (pendingPreviewContent context) (originalPreviewContent context)
    (currentResultText context) (executionStartTime context)
    (baseStatusMessage context).
Definition set_isRunning (v : bool) (context : NoteContext) : NoteContext :=
  mkNoteContext (history context) (sessionId context)
    (currentResponse context) (currentRequest context)
    (outputLines context) (agentSteps context) (runner context) v
    (runButton context) (cancelButton context) (waitingForResponse context)
    (selectedModel context) (lastPrompt context)
    (pendingPreviewContent context) (originalPreviewContent context)
    (currentResultText context) (executionStartTime context)
    (baseStatusMessage context).
Definition set_lastPrompt (v : option string) (context : NoteContext) : NoteContext :=
  mkNoteContext (history context) (sessionId context)
    (currentResponse context) (currentRequest context)
    (outputLines context) (agentSteps context) (runner context)
    (isRunning context) (runButton context) (cancelButton context)
    (waitingForResponse context) (selectedModel context) v
    (pendingPreviewContent context) (originalPreviewContent context)
    (currentResultText context) (executionStartTime context)
    (baseStatusMessage context).
Definition set_pendingPreviewContent (v : option string) (context : NoteContext) : NoteContext :=
  mkNoteContext (history context) (sessionId context)
    (currentResponse context) (currentRequest context)
    (outputLines context) (agentSteps context) (runner context)
    (isRunning context) (runButton context) (cancelButton context)
    (waitingForResponse context) (selectedModel context)
    (lastPrompt context) v (originalPreviewContent context)
    (currentResultText context) (executionStartTime context)
    (baseStatusMessage context).
Definition set_originalPreviewContent (v : option string) (context : NoteContext) : NoteContext :=
  mkNoteContext (history context) (sessionId context)
    (currentResponse context) (currentRequest context)
    (outputLines context) (agentSteps context) (runner context)
    (isRunning context) (runButton context) (cancelButton context)
    (waitingForResponse context) (selectedModel context)
    (lastPrompt context) (pendingPreviewContent context) v
    (currentResultText context) (executionStartTime context)
    (baseStatusMessage context).
Definition set_currentResultText (v : option string) (context : NoteContext) : NoteContext :=
  mkNoteContext (history context) (sessionId context)
    (currentResponse context) (currentRequest context)
    (outputLines context) (agentSteps context) (runner context)
    (isRunning context) (runButton context) (cancelButton context)
    (waitingForResponse context) (selectedModel context)
    (lastPrompt context) (pendingPreviewContent context)
    (originalPreviewContent context) v (executionStartTime context)
    (baseStatusMessage context).
Definition set_executionStartTime (v : option Z) (context : NoteContext) : NoteContext :=
  mkNoteContext (history context) (sessionId context)
    (currentResponse context) (currentRequest context)
    (outputLines context) (agentSteps context) (runner context)
    (isRunning context) (runButton context) (cancelButton context)
    (waitingForResponse context) (selectedModel context)
    (lastPrompt context) (pendingPreviewContent context)
    (originalPreviewContent context) (currentResultText context) v
    (baseStatusMessage context).
Definition set_baseStatusMessage (v : option string) (context : NoteContext) : NoteContext :=
  mkNoteContext (history context) (sessionId context)
    (currentResponse context) (currentRequest context)
    (outputLines context) (agentSteps context) (runner context)
    (isRunning context) (runButton context) (cancelButton context)
    (waitingForResponse context) (selectedModel context)
    (lastPrompt context) (pendingPreviewContent context)
    (originalPreviewContent context) (currentResultText context)
    (executionStartTime context) v.
Definition set_sessionId (v : option string) (context : NoteContext) : NoteContext :=
  mkNoteContext (history context) v (currentResponse context)
    (currentRequest context) (outputLines context) (agentSteps context)
    (runner context) (isRunning context) (runButton context)
    (cancelButton context) (waitingForResponse context)
    (selectedModel context) (lastPrompt context)
    (pendingPreviewContent context) (originalPreviewContent context)
    (currentResultText context) (executionStartTime context)
    (baseStatusMessage context).

End Types.
Export Types.

(* ===================================================================== *)
(** ** Context manager (managers/note-context-manager.ts) *)
(* ===================================================================== *)

Module NoteContextManager.

(** What [JSON.parse] of a context file is cast to.  [sessionId] is [None]
    for a property that is absent or [null]; [savedAt] is written by
    [saveContext] and never read.  A file that parses is taken to have the
    declared shape (the cast of the source is unchecked). *)
Record SessionData : Type := mkSessionData {
  data_history : option (list SessionHistoryItem);
  data_sessionId : option string;
  data_outputLines : option (list string);
  data_agentSteps : option (list AgentStep);
  data_notePath : option string;
  data_pendingPreviewContent : option string;
  data_originalPreviewContent : option string;
  data_savedAt : option string
}.

(** The state of [<noteHash>/context.json] inside a contexts directory. *)
Inductive contextFile : Type :=
| NoFile
| Unparsable
| Parsed (data : SessionData).

(** The file system below the vaults: each contexts directory that exists,
    with its note-hash subdirectories. *)
Abbreviation disk := (gmap string (gmap string contextFile)).

(** The manager object.  A context object is reached through its key; the
    map holds the object's current fields. *)
Record manager : Type := mkManager {
  contexts : gmap string NoteContext;
  settings : ClaudeCodeSettings;
  dataDir : string
}.

Definition create (settings : ClaudeCodeSettings) (dataDir : string) : manager :=
  mkManager ∅ settings dataDir.

Definition with_contexts (m : gmap string NoteContext) (this : manager) : manager :=
  mkManager m (settings this) (dataDir this).

Definition createNewContext (this : manager) : NoteContext :=
  mkNoteContext [] None None None [] [] (mkRunner (settings this)) false
    None None None None None None None None None None.

Definition getContext (notePath : string) (this : manager)
  : NoteContext * manager :=
  match contexts this !! notePath with
  | Some context => (context, this)
  | None =>
      let context := createNewContext this in
      (context, with_contexts (<[notePath := context]> (contexts this)) this)
  end.

(** [if (data.notePath)]: a recorded path counts when it is a non-empty
    string. *)
Definition usablePath (data : SessionData) : option string :=
  match data_notePath data with
  | Some p => if String.eqb p "" then None else Some p
  | None => None
  end.

(** The context rebuilt from a parsed file.  The arrays are those the
    parser has made: no history item holds the array of the output
    lines. *)
Definition reconstruct (this : manager) (data : SessionData) : NoteContext :=
  mkNoteContext
    (unshared <$> default [] (data_history data))
    (data_sessionId data)
    None None
    (default [] (data_outputLines data))
    (default [] (data_agentSteps data))
    (mkRunner (settings this))
    false
    None None None None None
    (data_pendingPreviewContent data)
    (data_originalPreviewContent data)
    None None None.

(** [context.history = []; context.outputLines = []; context.agentSteps = []]. *)
Definition cleared (context : NoteContext) : NoteContext :=
  mkNoteContext [] (sessionId context) (currentResponse context)
    (currentRequest context) [] [] (runner context) (isRunning context)
    (runButton context) (cancelButton context) (waitingForResponse context)
    (selectedModel context) (lastPrompt context)
    (pendingPreviewContent context) (originalPreviewContent context)
    (currentResultText context) (executionStartTime context)
    (baseStatusMessage context).

Definition clearHistory (notePath : string) (this : manager) : manager :=
  match contexts this !! notePath with
  | Some context =>
      with_contexts (<[notePath := cleared context]> (contexts this)) this
  | None => this
  end.

Definition getRunningCount (this : manager) : nat :=
  size (filter (fun kv => isRunning kv.2 = true) (contexts this)).

Section Host.

(** The host functions the manager calls: [crypto]'s md5 digest in hex,
    [path.join], and the order in which [fs.readdirSync] lists a
    directory. *)
Variable md5 : string -> string.
Variable path_join : string -> string -> string.
Variable readdirSync : gmap string contextFile -> list string.

(** One turn of the loop over the note directories. *)
Definition loadOne (dir : gmap string contextFile) (this : manager)
    (noteHash : string) : manager :=
  match dir !! noteHash with
  | Some (Parsed data) =>
      match usablePath data with
      | Some notePath =>
          with_contexts
            (<[notePath := reconstruct this data]> (contexts this)) this
      | None => this
      end
  | Some Unparsable => this
  | Some NoFile | None => this
  end.

Definition loadContexts (vaultPath : string) (fs : disk) (this : manager)
  : manager :=
  let contextsDir := path_join vaultPath (dataDir this) in
  match fs !! contextsDir with
  | None => this
  | Some dir => foldl (loadOne dir) this (readdirSync dir)
  end.

(** The object [saveContext] serializes; a property whose value is
    [undefined] is left out by [JSON.stringify] and reads as absent.  The
    text holds the content of every array, and what is read back shares
    none with the context. *)
Definition dataToSave (notePath : string) (context : NoteContext)
    (now : string) : SessionData :=
  mkSessionData
    (Some (unshared <$> history context))
    (sessionId context)
    (Some (outputLines context))
    (Some (agentSteps context))
    (Some notePath)
    (pendingPreviewContent context)
    (originalPreviewContent context)
    (Some now).

(** [now] is the clock reading taken for [savedAt]. *)
Definition saveContext (notePath vaultPath now : string) (this : manager)
    (fs : disk) : disk :=
  match contexts this !! notePath with
  | None => fs
  | Some context =>
      let noteHash := md5 notePath in
      let contextsDir := path_join vaultPath (dataDir this) in
      let dir := default ∅ (fs !! contextsDir) in
      <[contextsDir := <[noteHash := Parsed (dataToSave notePath context now)]> dir]> fs
  end.

(** No file outside the key's own note directory records the key: the
    root holds no stale copy of the key's context. *)
Definition recordedUnderHashOnly (notePath : string)
    (dir : gmap string contextFile) : Prop :=
  forall (noteHash : string) (data : SessionData),
    dir !! noteHash = Some (Parsed data) ->
    data_notePath data = Some notePath ->
    noteHash = md5 notePath.

(** The round trip sentence under test, for a manager [this] that saves and
    a manager [that] (the same one, or the one of the next start) that
    loads from the same root. *)
Definition roundTrips : Prop :=
  forall (this that : manager) (fs : disk) (notePath vaultPath now : string)
         (saved : NoteContext),
    dataDir that = dataDir this ->
    contexts this !! notePath = Some saved ->
    exists loaded : NoteContext,
      contexts (loadContexts vaultPath
                  (saveContext notePath vaultPath now this fs) that)
        !! notePath = Some loaded
      /\ length (history loaded) = length (history saved)
      /\ length (outputLines loaded) = length (outputLines saved)
      /\ sessionId loaded = sessionId saved.

End Host.

End NoteContextManager.

(* ===================================================================== *)
(** ** Session store: the rolling conversation history
       (core/session-manager.ts) *)
(* ===================================================================== *)

Module SessionManager.

Record Message : Type := mkMessage {
  role : string;
  content : string;
  msg_timestamp : string
}.

(** What [conversation_history.json] of a session directory holds: text
    that is not JSON, JSON that is not an array, or an array of messages. *)
Inductive historyFile : Type :=
| NotJSON
| NotAnArray
| Stored (history : list Message).

(** The history files that exist, by session directory. *)
Abbreviation store := (gmap string historyFile).

(** [history.slice(-n)]. *)
Definition sliceLast {A : Type} (n : nat) (history : list A) : list A :=
  drop (length history - n) history.

(** [nowUser] and [nowAssistant] are the two clock readings the call takes.
    A failure is logged and thrown again; nothing is written then. *)
Definition saveConversationHistory
    (sessionDir userPrompt assistantResponse nowUser nowAssistant : string)
    (fs : store) : result store :=
  history ← match fs !! sessionDir with
            | None => Ok []
            | Some (Stored history) => Ok history
            | Some NotJSON => Throw SyntaxError
            | Some NotAnArray => Throw TypeError
            end;
  let history := history ++ [mkMessage "user" userPrompt nowUser] in
  let history := history ++ [mkMessage "assistant" assistantResponse nowAssistant] in
  let history := if 20 <? length history then sliceLast 20 history else history in
  Ok (<[sessionDir := Stored history]> fs).

Definition loadConversationHistory (sessionDir : string) (fs : store)
  : list Message :=
  match fs !! sessionDir with
  | Some (Stored history) => history
  | Some NotJSON | Some NotAnArray | None => []
  end.

(** One call of [saveConversationHistory], with its clock readings. *)
Record Exchange : Type := mkExchange {
  x_userPrompt : string;
  x_assistantResponse : string;
  x_nowUser : string;
  x_nowAssistant : string
}.

(** The two messages a call appends. *)
Definition exchangeMessages (x : Exchange) : list Message :=
  [mkMessage "user" (x_userPrompt x) (x_nowUser x);
   mkMessage "assistant" (x_assistantResponse x) (x_nowAssistant x)].

(** A sequence of calls on one session directory; the first failure stops
    it. *)
Fixpoint saveExchanges (sessionDir : string) (calls : list Exchange)
    (fs : store) : result store :=
  match calls with
  | [] => Ok fs
  | x :: rest =>
      fs' ← saveConversationHistory sessionDir (x_userPrompt x)
              (x_assistantResponse x) (x_nowUser x) (x_nowAssistant x) fs;
      saveExchanges sessionDir rest fs'
  end.

(** The history a session directory holds before a call: none when there
    is no file yet. *)
Definition existingHistory (sessionDir : string) (fs : store)
  : option (list Message) :=
  match fs !! sessionDir with
  | None => Some []
  | Some (Stored history) => Some history
  | Some NotJSON | Some NotAnArray => None
  end.

(** The sentence under test: whatever the session directory holds, a
    call appends its two messages to the stored history and keeps the
    last 20. *)
Definition alwaysAppends : Prop :=
  forall (sessionDir userPrompt assistantResponse nowUser nowAssistant : string)
         (fs : store),
    exists fs' : store,
      saveConversationHistory sessionDir userPrompt assistantResponse
        nowUser nowAssistant fs = Ok fs'
      /\ loadConversationHistory sessionDir fs'
         = sliceLast 20
             (loadConversationHistory sessionDir fs
              ++ [mkMessage "user" userPrompt nowUser;
                  mkMessage "assistant" assistantResponse nowAssistant]).

(** Eleven exchanges, told apart by a letter, and a store in which the
    session [s] has one message and the session [u] a file that is not
    JSON. *)
Definition exchange (letter : ascii) : Exchange :=
  mkExchange ("q" +:+ String letter "") ("a" +:+ String letter "") "t1" "t2".

Definition tenMore : list Exchange :=
  exchange <$> list_ascii_of_string "bcdefghijk".

Definition usedStore : store :=
  {[ "s" := Stored [mkMessage "assistant" "hello" "t0"]; "u" := NotJSON ]}.

End SessionManager.

(* ===================================================================== *)
(** ** Process spawner (core/process-spawner.ts) *)
(* ===================================================================== *)

Module ProcessSpawner.

(** How [execSync] ends: with the command's standard output, or by
    throwing (non-zero exit, the 5 second timeout, or more output than
    [maxBuffer]). *)
Inductive execResult : Type :=
| ExecOutput (stdout : string)
| ExecFailure.

(** The host the spawner runs on: platform, [process.env], and the [os],
    [child_process], [fs] and [path] functions it calls. *)
Record Host : Type := mkHost {
  win32 : bool;
  process_env : gmap string string;
  os_homedir : string;
  execSync : string -> gmap string string -> execResult;
  fs_existsSync : string -> bool;
  path_isAbsolute : string -> bool;
  path_join : string -> string -> string;
  path_basename : string -> string
}.

(** The optional [onDebugOutput] callback only reports what the spawner
    does; it is left out. *)
Record SpawnConfig : Type := mkSpawnConfig {
  claudePath : string;
  args : list string;
  workingDir : string;
  customEnvVars : option (list (string * string))
}.

(** What [child_process.spawn] is called with, and the encoding then set
    on the child's standard input. *)
Record ChildProcess : Type := mkChildProcess {
  spawn_command : string;
  spawn_args : list string;
  spawn_cwd : string;
  spawn_env : gmap string string;
  spawn_shell : string;
  stdin_encoding : string
}.

(** [env.KEY || fallback]: an unset or empty variable gives the fallback. *)
Definition envOr (env : gmap string string) (key fallback : string) : string :=
  match env !! key with
  | Some v => if String.eqb v "" then fallback else v
  | None => fallback
  end.

(** [s.split(sep)] for a one-character separator. *)
Fixpoint split (sep : ascii) (s : string) : list string :=
  match s with
  | EmptyString => [EmptyString]
  | String c rest =>
      if Ascii.eqb c sep then EmptyString :: split sep rest
      else match split sep rest with
           | piece :: pieces => String c piece :: pieces
           | [] => [String c EmptyString]
           end
  end.

(** [s.indexOf(c)], [None] standing for -1. *)
Fixpoint indexOf (c : ascii) (s : string) : option nat :=
  match s with
  | EmptyString => None
  | String c' rest =>
      if Ascii.eqb c' c then Some 0 else S <$> indexOf c rest
  end.

Definition isWindows (host : Host) : bool := win32 host.

Definition getDefaultShell (host : Host) : string :=
  if isWindows host then envOr (process_env host) "COMSPEC" "cmd.exe"
  else envOr (process_env host) "SHELL" "/bin/sh".

Definition getPathSeparator (host : Host) : ascii :=
  if isWindows host then ";"%char else ":"%char.

Definition getShellName (host : Host) (shellPath : string) : string :=
  path_basename host shellPath.

(** The command that sources the profile files of the user's shell and
    prints the environment. *)
Definition sourceCommand (host : Host) : string :=
  let shell := envOr (process_env host) "SHELL" "/bin/sh" in
  let shellName := getShellName host shell in
  if String.eqb shellName "zsh" then
    shell +:+ " -c 'source ~/.zshenv 2>/dev/null; source ~/.zprofile 2>/dev/null; source ~/.zshrc 2>/dev/null; env'"
  else if String.eqb shellName "bash" then
    shell +:+ " -c 'source ~/.profile 2>/dev/null; source ~/.bash_profile 2>/dev/null; source ~/.bashrc 2>/dev/null; env'"
  else if String.eqb shellName "fish" then
    shell +:+ " -l -c 'env'"
  else
    shell +:+ " -l -c 'env'".

(** [env[key] = value] on an environment object, which is made by an
    object literal or a spread and so inherits from [Object.prototype]:
    the property is set, except that the key [__proto__], unless the
    object has a property of its own by that name, reaches the inherited
    setter, which ignores a string and sets nothing. *)
Definition assignVar (key value : string) (env : gmap string string)
  : gmap string string :=
  if String.eqb key "__proto__" && negb (bool_decide (is_Some (env !! key)))
  then env
  else <[key := value]> env.

(** One line of [env] output: [KEY=value] with a non-empty key. *)
Definition parseEnvLine (env : gmap string string) (line : string)
  : gmap string string :=
  match indexOf "="%char line with
  | Some (S idx') =>
      let idx := S idx' in
      let key := substring 0 idx line in
      let value := substring (idx + 1) (String.length line - (idx + 1)) line in
      assignVar key value env
  | Some 0 | None => env
  end.

Definition parseEnvOutput (envOutput : string) : gmap string string :=
  foldl parseEnvLine ∅ (split "010"%char envOutput).

Definition getShellEnvironment (host : Host) : gmap string string :=
  if isWindows host then process_env host
  else
    match execSync host (sourceCommand host)
            (<["HOME" := os_homedir host]> (process_env host)) with
    | ExecOutput envOutput => parseEnvOutput envOutput
    | ExecFailure => process_env host
    end.

(** The loop over [Object.entries(config.customEnvVars)]: only non-empty
    values are set. *)
Definition applyCustomEnvVars (custom : option (list (string * string)))
    (shellEnv : gmap string string) : gmap string string :=
  match custom with
  | None => shellEnv
  | Some entries =>
      foldl (fun env kv => if String.eqb kv.2 "" then env
                           else assignVar kv.1 kv.2 env)
            shellEnv entries
  end.

(** The text [String.prototype.replace] puts in place of a match of a
    text pattern, given the replacement text: [$$] gives a dollar sign,
    [$&] the matched text, [$`] the text before the match and [$'] the
    text after it; every other character, a [$] before anything else
    included, stands for itself. *)
Fixpoint getSubstitution (matched before after replacement : string)
  : string :=
  match replacement with
  | EmptyString => EmptyString
  | String c tail =>
      if Ascii.eqb c "$" then
        match tail with
        | EmptyString => String c EmptyString
        | String c' rest =>
            if Ascii.eqb c' "$" then
              String "$" (getSubstitution matched before after rest)
            else if Ascii.eqb c' "&" then
              matched +:+ getSubstitution matched before after rest
            else if Ascii.eqb c' "`" then
              before +:+ getSubstitution matched before after rest
            else if Ascii.eqb c' "'" then
              after +:+ getSubstitution matched before after rest
            else String c (getSubstitution matched before after tail)
        end
      else String c (getSubstitution matched before after tail)
  end.

(** [path.replace('~', homeDir)] on a path that starts with [~]: the
    match is that first character, with nothing before it. *)
Definition expandHome (host : Host) (shellEnv : gmap string string)
    (claudePath : string) : string :=
  match claudePath with
  | String "~"%char rest =>
      let homeDir :=
        envOr shellEnv "HOME" (envOr shellEnv "USERPROFILE" (os_homedir host)) in
      getSubstitution "~" "" rest homeDir +:+ rest
  | _ => claudePath
  end.

Definition extensions (host : Host) : list string :=
  if isWindows host then [""; ".exe"; ".cmd"; ".bat"] else [""].

(** The inner loop: the first extension under which the file exists. *)
Fixpoint firstExisting (host : Host) (dir resolved : string)
    (exts : list string) : option string :=
  match exts with
  | [] => None
  | ext :: rest =>
      let fullPath := path_join host dir (resolved +:+ ext) in
      if fs_existsSync host fullPath then Some fullPath
      else firstExisting host dir resolved rest
  end.

(** The outer loop over the directories of PATH. *)
Fixpoint searchPath (host : Host) (pathDirs : list string)
    (resolved : string) : string :=
  match pathDirs with
  | [] => resolved
  | dir :: rest =>
      let resolved' :=
        default resolved (firstExisting host dir resolved (extensions host)) in
      if path_isAbsolute host resolved' then resolved'
      else searchPath host rest resolved'
  end.

Definition resolveClaudePath (host : Host) (shellEnv : gmap string string)
    (claudePath : string) : string :=
  let resolved := expandHome host shellEnv claudePath in
  if path_isAbsolute host resolved then resolved
  else
    let pathDirs :=
      filter (fun dir => dir <> "")
             (split (getPathSeparator host) (envOr shellEnv "PATH" "")) in
    searchPath host pathDirs resolved.

Definition envWithUtf8 (shellEnv : gmap string string) : gmap string string :=
  <["NODE_OPTIONS" :=
      match shellEnv !! "NODE_OPTIONS" with
      | Some v => if String.eqb v "" then "" else v +:+ " --input-type=module"
      | None => ""
      end]>
  (<["PYTHONIOENCODING" := "utf-8"]>
  (<["LC_CTYPE" := envOr shellEnv "LC_CTYPE" "en_US.UTF-8"]>
  (<["LC_ALL" := envOr shellEnv "LC_ALL" "en_US.UTF-8"]>
  (<["LANG" := envOr shellEnv "LANG" "en_US.UTF-8"]> shellEnv)))).

(** [spawn], from the point where the shell environment is known. *)
Definition spawnIn (config : SpawnConfig) (host : Host)
    (shellEnv : gmap string string) : ChildProcess :=
  let shellEnv := applyCustomEnvVars (customEnvVars config) shellEnv in
  let resolvedClaudePath := resolveClaudePath host shellEnv (claudePath config) in
  let shell := getDefaultShell host in
  mkChildProcess resolvedClaudePath (args config) (workingDir config)
    (envWithUtf8 shellEnv) shell "utf8".

Definition spawn (config : SpawnConfig) (host : Host) : ChildProcess :=
  spawnIn config host (getShellEnvironment host).


(** The variables a non-empty custom override names. *)
Definition overridden (config : SpawnConfig) : list string :=
  match customEnvVars config with
  | None => []
  | Some entries => (filter (fun kv => kv.2 <> "") entries).*1
  end.

(** A Unix host whose login shell cannot be run, with one variable. *)
Definition hostWithBrokenShell : Host :=
  mkHost false {["PATH" := "/usr/bin"]} "/home/u"
    (fun _ _ => ExecFailure) (fun _ => false)
    (fun p => match p with String "/"%char _ => true | _ => false end)
    (fun a b => a +:+ "/" +:+ b) (fun p => p).

(** A Unix host whose login shell cannot be run, with [claude] installed
    in the second directory of its PATH and a home directory whose name
    holds a dollar sign. *)
Definition hostWithClaude : Host :=
  mkHost false {["PATH" := "/usr/bin:/opt/bin"; "HOME" := "/home/a$$b";
                 "LANG" := "C"]} "/home/u"
    (fun _ _ => ExecFailure) (fun p => String.eqb p "/opt/bin/claude")
    (fun p => match p with String "/"%char _ => true | _ => false end)
    (fun a b => a +:+ "/" +:+ b) (fun p => p).

End ProcessSpawner.

(* ===================================================================== *)
(** ** The view's run, cancel and approve handlers (ui/view.ts) *)
(* ===================================================================== *)

Module View.
Import NoteContextManager.

Record Editor : Type := mkEditor {
  getSelection : string;
  getValue : string
}.

(** A markdown leaf of the workspace: the file it shows and its editor. *)
Record MarkdownView : Type := mkMarkdownView {
  view_file : option string;
  view_editor : option Editor
}.

(** What a handler reads of the view and of the host application when it
    is called.  [nextSessionDir] is the directory
    [SessionManager.createStandaloneSession] would hand out,
    [processingStatus] the translated status text, [dateNow] the clock and
    [today] its ISO text. *)
Record UI : Type := mkUI {
  currentNotePath : string;
  activeStandaloneSession : option string;
  promptInput : string;
  basePath : string;
  vaultConfigDir : string;
  activeFile : option string;
  markdownLeaves : list MarkdownView;
  selectedTextOnlyChecked : bool;
  conversationalModeChecked : bool;
  autoAcceptChecked : bool;
  modelSelect : string;
  nextSessionDir : string;
  processingStatus : string;
  dateNow : Z;
  today : string
}.

Definition set_promptInput (v : string) (ui : UI) : UI :=
  mkUI (currentNotePath ui) (activeStandaloneSession ui) v (basePath ui)
    (vaultConfigDir ui) (activeFile ui) (markdownLeaves ui)
    (selectedTextOnlyChecked ui) (conversationalModeChecked ui)
    (autoAcceptChecked ui) (modelSelect ui) (nextSessionDir ui)
    (processingStatus ui) (dateNow ui) (today ui).

(** [this.activeStandaloneSession = dir; this.currentNotePath = path]. *)
Definition enterStandalone (dir path : string) (ui : UI) : UI :=
  mkUI path (Some dir) (promptInput ui) (basePath ui)
    (vaultConfigDir ui) (activeFile ui) (markdownLeaves ui)
    (selectedTextOnlyChecked ui) (conversationalModeChecked ui)
    (autoAcceptChecked ui) (modelSelect ui) (nextSessionDir ui)
    (processingStatus ui) (dateNow ui) (today ui).

(** What a handler does to the world outside the context map: a notice
    (by its translation key), the calls into the session store, the
    runner and the editor.  Changes of the widget tree are left out. *)
Inductive effect : Type :=
| Notice (key : string)
| CreateStandaloneSession (sessionDir : string)
| RunnerRun (contextKey : string) (request : ClaudeCodeRequest)
| RunnerTerminate (contextKey : string)
| SaveContext (notePath vaultPath : string)
| ApplyChangesToEditor (content : string).

Inductive runKind : Type :=
| Regular
| Approval.

(** A handler suspended at [await context.runner.run(...)], with the
    locals its continuation uses.  [run_context] is the key under which the
    context object it holds was obtained. *)
Record PendingRun : Type := mkPendingRun {
  run_kind : runKind;
  run_context : string;
  run_prompt : string;
  run_notePath : string;
  run_file : option string;
  run_vaultPath : string;
  run_request : ClaudeCodeRequest;
  run_hasEditor : bool
}.

Record Outcome : Type := mkOutcome {
  out_ui : UI;
  out_manager : manager;
  out_effects : list effect;
  out_pending : option PendingRun
}.

(** The white space and the line terminators of ECMAScript, which [trim]
    removes at both ends.  A string of the program is held as the bytes of
    its UTF-8 encoding.  In one byte: tab, line feed, vertical tab, form
    feed, carriage return and space. *)
Definition isSpace (c : ascii) : bool :=
  Ascii.eqb c " " || Ascii.eqb c "009" || Ascii.eqb c "010"
  || Ascii.eqb c "011" || Ascii.eqb c "012" || Ascii.eqb c "013".

(** In two bytes: the no-break space U+00A0. *)
Definition isSpace2 (c1 c2 : ascii) : bool :=
  Ascii.eqb c1 "194" && Ascii.eqb c2 "160".

(** In three bytes: U+1680, U+2000 to U+200A, the line and paragraph
    separators U+2028 and U+2029, U+202F, U+205F, U+3000, and the byte
    order mark U+FEFF. *)
Definition isSpace3 (c1 c2 c3 : ascii) : bool :=
  (Ascii.eqb c1 "225" && Ascii.eqb c2 "154" && Ascii.eqb c3 "128")
  || (Ascii.eqb c1 "226" && Ascii.eqb c2 "128"
      && ((128 <=? nat_of_ascii c3) && (nat_of_ascii c3 <=? 138)
          || Ascii.eqb c3 "168" || Ascii.eqb c3 "169" || Ascii.eqb c3 "175"))
  || (Ascii.eqb c1 "226" && Ascii.eqb c2 "129" && Ascii.eqb c3 "159")
  || (Ascii.eqb c1 "227" && Ascii.eqb c2 "128" && Ascii.eqb c3 "128")
  || (Ascii.eqb c1 "239" && Ascii.eqb c2 "187" && Ascii.eqb c3 "191").

(** Whether [s] is one such character and nothing more. *)
Definition isOneSpace (s : string) : bool :=
  match s with
  | String c1 EmptyString => isSpace c1
  | String c1 (String c2 EmptyString) => isSpace2 c1 c2
  | String c1 (String c2 (String c3 EmptyString)) => isSpace3 c1 c2 c3
  | _ => false
  end.

Fixpoint trimStart (s : string) : string :=
  match s with
  | EmptyString => EmptyString
  | String c1 rest1 =>
      if isSpace c1 then trimStart rest1
      else
        match rest1 with
        | EmptyString => s
        | String c2 rest2 =>
            if isSpace2 c1 c2 then trimStart rest2
            else
              match rest2 with
              | EmptyString => s
              | String c3 rest3 =>
                  if isSpace3 c1 c2 c3 then trimStart rest3 else s
              end
        end
  end.

Fixpoint trimEnd (s : string) : string :=
  match s with
  | EmptyString => EmptyString
  | String c rest =>
      let rest' := trimEnd rest in
      if isOneSpace (String c rest') then EmptyString
      else String c rest'
  end.

Definition trim (s : string) : string := trimEnd (trimStart s).

(** Truthiness of a [string | null] or [string | undefined]. *)
Definition nonEmpty (o : option string) : bool :=
  match o with
  | Some s => negb (String.eqb s "")
  | None => false
  end.

(** [a || b] on optional strings. *)
Definition orString (a b : option string) : option string :=
  if nonEmpty a then a else b.

(** Assignments to the fields of the context object held under [key]. *)
Definition assign (key : string) (f : NoteContext -> NoteContext)
    (this : manager) : manager :=
  with_contexts (alter f key (contexts this)) this.

(** [const context = this.contextManager.getContext(notePath)] followed by
    assignments to its fields. *)
Definition update (notePath : string) (f : NoteContext -> NoteContext)
    (this : manager) : manager :=
  let '(context, this) := getContext notePath this in
  with_contexts (<[notePath := f context]> (contexts this)) this.

(** The context reads of [updateCurrentNoteLabel]. *)
Definition updateCurrentNoteLabel (ui : UI) (this : manager) : manager :=
  let isStandalone := String.prefix "standalone:" (currentNotePath ui) in
  if negb (String.eqb (currentNotePath ui) "") && negb isStandalone then
    (getContext (currentNotePath ui) this).2
  else if isStandalone || nonEmpty (activeStandaloneSession ui) then
    (getContext (currentNotePath ui) this).2
  else this.

Definition hidePreview (ui : UI) (this : manager) : manager :=
  update (currentNotePath ui)
    (fun context => set_originalPreviewContent None
                      (set_pendingPreviewContent None context)) this.

Definition showLastPrompt (prompt : string) (ui : UI) (this : manager)
  : manager :=
  update (currentNotePath ui) (set_lastPrompt (Some prompt)) this.

Definition startElapsedTimeTracking (baseMessage : string) (ui : UI)
    (this : manager) : manager :=
  update (currentNotePath ui)
    (fun context =>
       set_baseStatusMessage
         (Some (if String.eqb baseMessage "" then "🤔 Claude is processing"
                else baseMessage))
         (set_executionStartTime (Some (dateNow ui)) context)) this.

Definition showPreview (modifiedContent : string) (forNotePath : string)
    (ui : UI) (this : manager) : manager :=
  let targetNotePath :=
    if String.eqb forNotePath "" then currentNotePath ui else forNotePath in
  update targetNotePath
    (fun context =>
       let originalContent :=
         default ""
           (orString (currentRequest context ≫= selectedText)
              (orString (currentRequest context ≫= noteContent) (Some ""))) in
       set_originalPreviewContent (Some originalContent)
         (set_pendingPreviewContent (Some modifiedContent) context)) this.

(** [context.outputLines = []]: the context is given a new array; the
    history items that hold the old one keep it, with the lines it has. *)
Definition newOutputLines (context : NoteContext) : NoteContext :=
  set_outputLines [] (set_history (unshared <$> history context) context).

(** The leaf showing [path], searched in order. *)
Definition findLeaf (path : string) (leaves : list MarkdownView)
  : option MarkdownView :=
  List.find (fun view => match view_file view with
                         | Some p => String.eqb p path
                         | None => false
                         end) leaves.

(** The text of a template literal for a [string | null]. *)
Definition templateOf (o : option string) : string := default "null" o.

(** The run handler, up to its [await]: every read and write of the
    contexts, of [currentNotePath] and of the standalone session, in the
    order of the source, with the calls that leave the view as effects.
    [held] is the key under which the handler obtained the context object
    it keeps for the whole call; the helpers it calls look the context up
    again under the current note path, which the handler may have changed
    by then.  Button, status and result-area updates, and the bookkeeping
    of files created during the run, are left out. *)
Definition handleRunClaudeCode (ui : UI) (this : manager) : Outcome :=
  let held := currentNotePath ui in
  let '(context, this) := getContext held this in
  if isRunning context then
    mkOutcome ui this [Notice "notice.alreadyProcessing"] None
  else
    let prompt := trim (promptInput ui) in
    if String.eqb prompt "" then
      mkOutcome ui this [Notice "notice.enterPrompt"] None
    else
      let ui := set_promptInput "" ui in
      let vaultPath := basePath ui in
      if String.eqb vaultPath "" then
        mkOutcome ui this [Notice "notice.noVaultPath"] None
      else
        let proceed (ui : UI) (this : manager) (effects : list effect)
                    (isStandaloneSession : bool) (file : option string)
                    (noteContent selectedText : option string)
                    (hasEditor : bool) : Outcome :=
          let request :=
            mkRequest noteContent prompt file selectedText vaultPath
              (vaultConfigDir ui)
              (if String.eqb (modelSelect ui) "" then None
               else Some (modelSelect ui))
              (conversationalModeChecked ui)
              (if isStandaloneSession then activeStandaloneSession ui
               else None)
              None in
          let this := assign held (set_currentRequest (Some request)) this in
          let this := assign held newOutputLines this in
          let this := hidePreview ui this in
          let this := assign held (set_currentResultText None) this in
          let this := showLastPrompt prompt ui this in
          let this := startElapsedTimeTracking (processingStatus ui) ui this in
          let runNotePath :=
            if nonEmpty file then default "" file
            else "standalone:" +:+ templateOf (activeStandaloneSession ui) in
          let this := assign held (set_isRunning true) this in
          let this := updateCurrentNoteLabel ui this in
          mkOutcome ui this (effects ++ [RunnerRun held request])
            (Some (mkPendingRun Regular held prompt runNotePath file
                     vaultPath request hasEditor)) in
        if nonEmpty (activeStandaloneSession ui) then
          proceed ui this [] true None None None false
        else
          match activeFile ui with
          | None =>
              let sessionDir := nextSessionDir ui in
              let ui := enterStandalone sessionDir
                          ("standalone:" +:+ sessionDir) ui in
              let this := updateCurrentNoteLabel ui this in
              proceed ui this [CreateStandaloneSession sessionDir] true
                None None None false
          | Some path =>
              let leaves := markdownLeaves ui in
              let activeView :=
                match findLeaf path leaves with
                | Some view => Some view
                | None => head leaves
                end in
              match activeView ≫= view_editor with
              | None => mkOutcome ui this [Notice "notice.noEditor"] None
              | Some editor =>
                  let selection := getSelection editor in
                  let useSelectedTextOnly :=
                    selectedTextOnlyChecked ui
                    && negb (String.eqb selection "") in
                  proceed ui this [] false (Some path)
                    (Some (getValue editor))
                    (if useSelectedTextOnly then Some selection else None)
                    true
              end
          end.

(** The prompt of the approval retry. *)
Definition approvalPrompt : string :=
  "Yes, I approve. You have permissionless mode enabled - please proceed with the action you were asking about. Don't hesitate to execute it.".

(** The approval handler, up to its [await].  Its only tests are on the
    pending request, the active file and the editor. *)
Definition handleApprovePermission (ui : UI) (this : manager) : Outcome :=
  let held := currentNotePath ui in
  let '(context, this) := getContext held this in
  match currentRequest context with
  | None => mkOutcome ui this [Notice "misc.noPendingRequest"] None
  | Some current =>
      match activeFile ui with
      | None => mkOutcome ui this [Notice "notice.noActiveNote"] None
      | Some path =>
          match findLeaf path (markdownLeaves ui) ≫= view_editor with
          | None => mkOutcome ui this [Notice "notice.noEditor"] None
          | Some editor =>
              let newRequest :=
                mkRequest (noteContent current) approvalPrompt
                  (req_notePath current) (selectedText current)
                  (req_vaultPath current) (vaultConfigDir ui)
                  (runtimeModelOverride current) (conversationalMode current)
                  (sessionDir current) (Some true) in
              let this := hidePreview ui this in
              let this := startElapsedTimeTracking "status.runningAuthorized"
                            ui this in
              let this := assign held (set_isRunning true) this in
              mkOutcome ui this [RunnerRun held newRequest]
                (Some (mkPendingRun Approval held approvalPrompt path
                         (Some path) (basePath ui) newRequest true))
          end
      end
  end.

(** [context.runner.terminate()] is a call into the runner (not among the
    sources), recorded as an effect.  The handler that awaits the cancelled
    run stays suspended while this one runs: its continuation can only run
    in a later turn, when the run has produced its response. *)
Definition handleCancel (ui : UI) (this : manager) : Outcome :=
  let held := currentNotePath ui in
  let '(context, this) := getContext held this in
  let this := assign held
                (fun context =>
                   set_baseStatusMessage None
                     (set_executionStartTime None
                        (set_isRunning false context))) this in
  mkOutcome ui this [RunnerTerminate held; Notice "notice.cancelled"] None.

(** [isStreaming] of the line callback: [false], [true] or ['finish']. *)
Inductive streaming : Type :=
| NotStreaming
| Streaming
| Finish.

(** The context writes of [appendOutputToNote].  [activity] is what the
    activity parser (not among the sources) makes of [text].  The line is
    pushed onto the context's array, which the history items pushed since
    the context was given that array hold as well. *)
Definition appendOutputToNote (notePath text : string)
    (isStreaming : streaming) (isAssistantMessage : bool)
    (activity : option AgentStep) (this : manager) : manager :=
  update notePath
    (fun context =>
       let context :=
         set_outputLines (outputLines context ++ [text])
           (set_history (pushed text <$> history context) context) in
       let context :=
         match isStreaming with
         | Streaming =>
             if isAssistantMessage then
               set_currentResultText
                 (Some (default "" (orString (currentResultText context)
                                      (Some "")) +:+ text)) context
             else context
         | NotStreaming | Finish => context
         end in
       match isStreaming, activity with
       | Streaming, _ => context
       | _, Some agentStep =>
           set_agentSteps (agentSteps context ++ [agentStep]) context
       | _, None => context
       end) this.

(** The handler's continuation once the awaited run has produced its
    response: the writes to the contexts and the calls that leave the
    view.  Notices and rendering are left out, and so is the linking of
    files created during the run. *)
Definition resume (run : PendingRun) (response : ClaudeCodeResponse)
    (ui : UI) (this : manager) : manager * list effect :=
  let held := run_context run in
  let this :=
    assign held
      (fun context =>
         set_baseStatusMessage None
           (set_executionStartTime None
              (set_currentResponse (Some response)
                 (set_isRunning false context)))) this in
  let preview (this : manager) : manager * list effect :=
    match modifiedContent response with
    | Some modified =>
        if negb (String.eqb modified "") && negb (String.eqb (trim modified) "")
           && run_hasEditor run then
          if autoAcceptChecked ui then (this, [ApplyChangesToEditor modified])
          else (showPreview modified (run_notePath run) ui this, [])
        else (this, [])
    | None => (this, [])
    end in
  let push (ok withLines : bool) (this : manager) : manager :=
    assign held
      (fun context =>
         set_history
           (history context ++
              [mkHistoryItem (run_prompt run) (today ui) ok
                 (run_notePath run) (Some response)
                 (match run_kind run with
                  | Regular => currentRequest context
                  | Approval => Some (run_request run)
                  end)
                 (if withLines then Some (outputLines context) else None)
                 withLines])
           context) this in
  if success response then
    let this := push true true this in
    let saved :=
      match run_kind run, run_file run with
      | Regular, Some path => [SaveContext path (run_vaultPath run)]
      | Approval, Some path => [SaveContext path (basePath ui)]
      | _, None => []
      end in
    let '(this, effects) := preview this in
    (this, saved ++ effects)
  else
    match run_kind run with
    | Regular => (push false false this, [])
    | Approval => (this, [])
    end.

(** The [catch] of the run handler, when the awaited run rejects. *)
Definition abandon (run : PendingRun) (this : manager) : manager :=
  match run_kind run with
  | Regular =>
      assign (run_context run)
        (fun context =>
           set_baseStatusMessage None
             (set_executionStartTime None
                (set_isRunning false context))) this
  | Approval => this
  end.

(** *** The view over time *)

(** The manager and the handlers suspended at their [await]. *)
Record state : Type := mkState {
  st_manager : manager;
  st_inflight : list PendingRun
}.

(** One turn of the event loop: a click on Run, Cancel or Approve (with
    the view as it is then), a line delivered to the callback of the
    [i]-th pending run, or the end of that run (resolved with a response,
    or rejected). *)
Inductive event : Type :=
| ClickRun (ui : UI)
| ClickCancel (ui : UI)
| ClickApprove (ui : UI)
| Line (i : nat) (text : string) (isStreaming : streaming)
       (isAssistantMessage : bool) (activity : option AgentStep)
| Resolved (i : nat) (response : ClaudeCodeResponse) (ui : UI)
| Rejected (i : nat).

Definition started (out : Outcome) (inflight : list PendingRun) : state :=
  mkState (out_manager out)
    (inflight ++ match out_pending out with
                 | Some run => [run]
                 | None => []
                 end).

(** The view a click finds is given with the click: between two turns the
    user may have typed or switched notes, so nothing is assumed about how
    it relates to the view an earlier handler left. *)
Definition step (s : state) (e : event) : state :=
  match e with
  | ClickRun ui =>
      started (handleRunClaudeCode ui (st_manager s)) (st_inflight s)
  | ClickCancel ui =>
      started (handleCancel ui (st_manager s)) (st_inflight s)
  | ClickApprove ui =>
      started (handleApprovePermission ui (st_manager s)) (st_inflight s)
  | Line i text isStreaming isAssistantMessage activity =>
      match st_inflight s !! i with
      | Some run =>
          mkState (appendOutputToNote (run_notePath run) text isStreaming
                     isAssistantMessage activity (st_manager s))
                  (st_inflight s)
      | None => s
      end
  | Resolved i response ui =>
      match st_inflight s !! i with
      | Some run =>
          mkState (resume run response ui (st_manager s)).1
                  (delete i (st_inflight s))
      | None => s
      end
  | Rejected i =>
      match st_inflight s !! i with
      | Some run =>
          mkState (abandon run (st_manager s)) (delete i (st_inflight s))
      | None => s
      end
  end.

Definition runTrace (this : manager) (trace : list event) : state :=
  foldl step (mkState this []) trace.

(** The number of runs, among [runs], that hold the context of [key]. *)
Definition holding (key : string) (runs : list PendingRun) : nat :=
  length (filter (fun run => run_context run = key) runs).

(** The number of runs in flight that hold the context of [key]. *)
Definition inFlight (key : string) (s : state) : nat :=
  holding key (st_inflight s).

(** Runs started by the run handler and ended by their own completion:
    no cancellation, no approval retry. *)
Definition gated (e : event) : bool :=
  match e with
  | ClickRun _ | Line _ _ _ _ _ | Resolved _ _ _ | Rejected _ => true
  | ClickCancel _ | ClickApprove _ => false
  end.

(** The invariant sentence under test: whatever happens, no context has
    two runs in flight. *)
Definition atMostOneInFlight : Prop :=
  forall (this : manager) (trace : list event) (key : string),
    inFlight key (runTrace this trace) <= 1.

(** The running flag of the context under [key]; a key without a context
    has no run. *)
Definition flag (key : string) (this : manager) : bool :=
  match contexts this !! key with
  | Some context => isRunning context
  | None => false
  end.

(** [contexts.has(key)]. *)
Definition has (key : string) (this : manager) : bool :=
  bool_decide (is_Some (contexts this !! key)).

(** Every context with a run in flight has its flag up, and none has two
    runs in flight. *)
Definition flagged (s : state) : Prop :=
  forall key : string,
    inFlight key s <= Nat.b2n (flag key (st_manager s)).

(** A view on the note [note.md], open in an editor, with a prompt. *)
Definition sampleUI (prompt : string) : UI :=
  mkUI "note.md" None prompt "/vault" ".obsidian" (Some "note.md")
    [mkMarkdownView (Some "note.md") (Some (mkEditor "" "body"))]
    false false false "" "/vault/.obsidian/claude-code-sessions/0"
    "Processing" 0 "2026-01-01T00:00:00.000Z".

(** A response that asks for a permission. *)
Definition permissionResponse : ClaudeCodeResponse :=
  mkResponse true None (Some "May I edit note.md?") None (Some true) [] None.

(** A first run on [note.md] ends with a permission request; a second run
    is requested and is in flight. *)
Definition beforeApproval : list event :=
  [ClickRun (sampleUI "first");
   Resolved 0 permissionResponse (sampleUI "");
   ClickRun (sampleUI "go")].

Definition sampleSettings : ClaudeCodeSettings :=
  mkSettings claude "" true "" "" true "" "" true 300 false true false
    "" "" "" "" "en".

End View.

(* ===================================================================== *)
(** ** Session store: metadata, linked notes and session ids
       (core/session-manager.ts) *)
(* ===================================================================== *)

Module SessionStore.
Import View.

Record LinkedNote : Type := mkLinkedNote {
  ln_path : string;
  ln_title : string;
  ln_linkedAt : string;
  ln_isPrimary : bool
}.

(** [linkedNotes], [messageCount] and the two legacy fields may be missing
    from a file written by an earlier version. *)
Record SessionMetadata : Type := mkSessionMetadata {
  sessionName : string;
  isStandalone : bool;
  linkedNotes : option (list LinkedNote);
  meta_backend : BackendType;
  lastUsed : string;
  createdAt : string;
  messageCount : option Z;
  meta_notePath : option string;
  meta_noteTitle : option string
}.

(** What [session_meta.json] of a session directory holds. *)
Inductive metadataFile : Type :=
| Unreadable
| Metadata (metadata : SessionMetadata).

(** The metadata files that exist, by session directory. *)
Abbreviation metadataStore := (gmap string metadataFile).

(** [n.isPrimary = v]. *)
Definition set_isPrimary (v : bool) (n : LinkedNote) : LinkedNote :=
  mkLinkedNote (ln_path n) (ln_title n) (ln_linkedAt n) v.

(** [n.linkedAt = v]. *)
Definition set_linkedAt (v : string) (n : LinkedNote) : LinkedNote :=
  mkLinkedNote (ln_path n) (ln_title n) v (ln_isPrimary n).

(** [notes.findIndex(n => n.path === notePath)]. *)
Fixpoint findIndex (notePath : string) (notes : list LinkedNote) : option nat :=
  match notes with
  | [] => None
  | n :: rest =>
      if String.eqb (ln_path n) notePath then Some 0
      else S <$> findIndex notePath rest
  end.

(** [notes.find(n => n.isPrimary) || notes[0]]. *)
Definition primaryOrFirst (notes : list LinkedNote) : option LinkedNote :=
  match List.find ln_isPrimary notes with
  | Some n => Some n
  | None => head notes
  end.

(** The number of notes marked primary. *)
Definition primaryCount (notes : list LinkedNote) : nat :=
  length (List.filter ln_isPrimary notes).

Section Host.

(** [path.basename(p, '.md')]. *)
Variable basename_md : string -> string.

(** The linked notes after [addLinkedNote]. *)
Definition linkNote (notePath : string) (isPrimary : bool) (now : string)
    (notes : list LinkedNote) : list LinkedNote :=
  match findIndex notePath notes with
  | Some existingIndex =>
      let notes := alter (set_linkedAt now) existingIndex notes in
      if isPrimary then
        alter (set_isPrimary true) existingIndex
          (set_isPrimary false <$> notes)
      else notes
  | None =>
      let notes := if isPrimary then set_isPrimary false <$> notes
                   else notes in
      notes ++ [mkLinkedNote notePath (basename_md notePath) now isPrimary]
  end.

(** [now] is the clock reading of the call.  A missing or unreadable
    metadata file is reported on the console and left as it is. *)
Definition addLinkedNote (sessionDir notePath : string) (isPrimary : bool)
    (now : string) (fs : metadataStore) : metadataStore :=
  match fs !! sessionDir with
  | None | Some Unreadable => fs
  | Some (Metadata metadata) =>
      let notes := linkNote notePath isPrimary now
                     (default [] (linkedNotes metadata)) in
      let rename := isPrimary || (length notes =? 1) in
      let primaryNote := primaryOrFirst notes in
      <[sessionDir :=
          Metadata
            (mkSessionMetadata
               (if rename then basename_md notePath else sessionName metadata)
               (if rename then false else isStandalone metadata)
               (Some notes)
               (meta_backend metadata) (lastUsed metadata)
               (createdAt metadata) (messageCount metadata)
               (match primaryNote with
                | Some n => Some (ln_path n)
                | None => meta_notePath metadata
                end)
               (match primaryNote with
                | Some n => Some (ln_title n)
                | None => meta_noteTitle metadata
                end))]> fs
  end.

(** The migration of a file without [linkedNotes], as [saveSessionMetadata]
    does it ([keepName] = [true]) and as [getSessionMetadata] does it. *)
Definition migrate (keepName : bool) (metadata : SessionMetadata)
  : SessionMetadata :=
  match linkedNotes metadata with
  | Some _ => metadata
  | None =>
      let legacyPath := nonEmpty (meta_notePath metadata) in
      let title := orString (meta_noteTitle metadata)
                     (Some (basename_md (default "" (meta_notePath metadata)))) in
      mkSessionMetadata
        (default "Untitled Session"
           (orString (meta_noteTitle metadata)
              (if keepName
               then orString (Some (sessionName metadata))
                      (Some "Untitled Session")
               else Some "Untitled Session")))
        (negb legacyPath)
        (Some (if legacyPath
               then [mkLinkedNote (default "" (meta_notePath metadata))
                       (default "" title) (createdAt metadata) true]
               else []))
        (meta_backend metadata) (lastUsed metadata) (createdAt metadata)
        (messageCount metadata) (meta_notePath metadata)
        (meta_noteTitle metadata)
  end.

(** [now] is the clock reading, [localeNow] the text of
    [new Date().toLocaleString()].  An unreadable file is reported on the
    console and left as it is. *)
Definition saveSessionMetadata (sessionDir : string) (notePath : option string)
    (backend : BackendType) (now localeNow : string) (fs : metadataStore)
  : metadataStore :=
  match fs !! sessionDir with
  | Some Unreadable => fs
  | Some (Metadata metadata) =>
      let metadata :=
        mkSessionMetadata (sessionName metadata) (isStandalone metadata)
          (linkedNotes metadata) (meta_backend metadata) now
          (createdAt metadata)
          (Some (default 0%Z (messageCount metadata) + 1)%Z)
          (meta_notePath metadata) (meta_noteTitle metadata) in
      <[sessionDir := Metadata (migrate true metadata)]> fs
  | None =>
      let noteTitle :=
        if nonEmpty notePath then Some (basename_md (default "" notePath))
        else None in
      <[sessionDir :=
          Metadata
            (mkSessionMetadata
               (default ("Session " +:+ localeNow)
                  (orString noteTitle (Some ("Session " +:+ localeNow))))
               (negb (nonEmpty notePath))
               (Some (if nonEmpty notePath
                      then [mkLinkedNote (default "" notePath)
                              (default "" noteTitle) now true]
                      else []))
               backend now now (Some 1%Z)
               (orString notePath None) (orString noteTitle None))]> fs
  end.

Definition getSessionMetadata (sessionDir : string) (fs : metadataStore)
  : option SessionMetadata :=
  match fs !! sessionDir with
  | Some (Metadata metadata) => Some (migrate false metadata)
  | Some Unreadable | None => None
  end.

(** The rewriting of one metadata for a renamed file: the new metadata,
    and whether anything was updated (only then is the file written). *)
Definition renameIn (oldPath newPath : string) (metadata : SessionMetadata)
  : SessionMetadata * bool :=
  let legacy :=
    match meta_notePath metadata with
    | Some p => String.eqb p oldPath
    | None => false
    end in
  let renameNote (n : LinkedNote) : LinkedNote :=
    if String.eqb (ln_path n) oldPath
    then mkLinkedNote newPath (basename_md newPath) (ln_linkedAt n)
           (ln_isPrimary n)
    else n in
  let notes := fmap (fmap renameNote) (linkedNotes metadata) in
  let linked :=
    existsb (fun n => String.eqb (ln_path n) oldPath)
            (default [] (linkedNotes metadata)) in
  let primaryNote := notes ≫= List.find ln_isPrimary in
  (mkSessionMetadata
     (match primaryNote with
      | Some n => if String.eqb (ln_path n) newPath then ln_title n
                  else sessionName metadata
      | None => sessionName metadata
      end)
     (isStandalone metadata) notes (meta_backend metadata)
     (lastUsed metadata) (createdAt metadata) (messageCount metadata)
     (if legacy then Some newPath else meta_notePath metadata)
     (if legacy then Some (basename_md newPath) else meta_noteTitle metadata),
   legacy || linked).

(** One turn of the loop of [updateSessionPaths] over the session
    directories. *)
Definition renameOne (oldPath newPath : string)
    (acc : metadataStore * nat) (sessionDir : string) : metadataStore * nat :=
  match acc.1 !! sessionDir with
  | Some (Metadata metadata) =>
      let '(metadata', updated) := renameIn oldPath newPath metadata in
      if updated then (<[sessionDir := Metadata metadata']> acc.1, S acc.2)
      else acc
  | Some Unreadable | None => acc
  end.

(** [sessionDirs] is the listing of the sessions directory: the paths of
    its sub-directories. *)
Definition updateSessionPaths (sessionDirs : list string)
    (oldPath newPath : string) (fs : metadataStore) : metadataStore * nat :=
  foldl (renameOne oldPath newPath) (fs, 0) sessionDirs.

(** A sequence of calls of [saveSessionMetadata] on one session directory,
    each with its clock reading and locale text. *)
Definition saveSessionMetadataAll (sessionDir : string)
    (notePath : option string) (backend : BackendType)
    (calls : list (string * string)) (fs : metadataStore) : metadataStore :=
  foldl (fun fs call =>
           saveSessionMetadata sessionDir notePath backend call.1 call.2 fs)
        fs calls.

End Host.

(** The loop of [getLastAssistantResponse] and [getLastUserPrompt] over the
    loaded history: the content of the last message of the role whose
    content is not empty. *)
Definition lastContent (role : string)
    (history : list SessionManager.Message) : option string :=
  SessionManager.content <$>
    List.find (fun m => String.eqb (SessionManager.role m) role
                        && negb (String.eqb (SessionManager.content m) ""))
              (rev history).

(** [history] is the array [loadConversationHistory] has returned. *)
Definition getLastAssistantResponse (history : list SessionManager.Message)
  : option string := lastContent "assistant" history.

Definition getLastUserPrompt (history : list SessionManager.Message)
  : option string := lastContent "user" history.

(** Whether a metadata names a path, in its legacy field or among its
    linked notes. *)
Definition mentions (notePath : string) (metadata : SessionMetadata) : bool :=
  match meta_notePath metadata with
  | Some p => String.eqb p notePath
  | None => false
  end
  || existsb (fun n => String.eqb (ln_path n) notePath)
             (default [] (linkedNotes metadata)).

(** Whether the metadata file of a session directory names a path. *)
Definition stale (notePath : string) (fs : metadataStore)
    (sessionDir : string) : bool :=
  match fs !! sessionDir with
  | Some (Metadata metadata) => mentions notePath metadata
  | Some Unreadable | None => false
  end.

(** The linked notes of a stored metadata keep to the layout the store
    relies on: no path twice, at most one primary note. *)
Definition wellLinked (metadata : SessionMetadata) : Prop :=
  forall notes, linkedNotes metadata = Some notes ->
    NoDup (ln_path <$> notes) /\ primaryCount notes <= 1.

Definition allWellLinked (fs : metadataStore) : Prop :=
  forall sessionDir metadata,
    fs !! sessionDir = Some (Metadata metadata) -> wellLinked metadata.

(** A store with one note-based session. *)
Definition sampleMetadata : SessionMetadata :=
  mkSessionMetadata "a" false (Some [mkLinkedNote "a.md" "a" "t0" true])
    claude "t0" "t0" (Some 1%Z) (Some "a.md") (Some "a").

Definition sampleStore : metadataStore := {["s" := Metadata sampleMetadata]}.

(** *** Session ids *)

(** [`session_id_${backend}.txt`]. *)
Definition sessionIdFile (backend : BackendType) : string :=
  "session_id_" +:+
  match backend with claude => "claude" | opencode => "opencode" end +:+
  ".txt".

(** The session id files, by session directory and file name. *)
Abbreviation idStore := (gmap (string * string) string).

Record SessionInfo : Type := mkSessionInfo {
  info_sessionDir : string;
  info_sessionId : option string;
  isNewSession : bool;
  sessionHash : string
}.

Section Ids.

Variable md5 : string -> string.

(** [path.join(vaultPath, configDir, 'claude-code-sessions', hash)]. *)
Variable sessionPath : string -> string -> string -> string.

(** [unique] is the text hashed for a standalone session (clock and
    random number).  Creating the directory is left out. *)
Definition getSessionInfo (notePath : option string)
    (vaultPath configDir : string) (backend : BackendType) (unique : string)
    (ids : idStore) : SessionInfo :=
  let sessionHash :=
    if nonEmpty notePath then md5 (default "" notePath) else md5 unique in
  let sessionDir := sessionPath vaultPath configDir sessionHash in
  match ids !! (sessionDir, sessionIdFile backend) with
  | Some content =>
      let sessionId := trim content in
      mkSessionInfo sessionDir (Some sessionId)
        (String.eqb sessionId "") sessionHash
  | None => mkSessionInfo sessionDir None true sessionHash
  end.

Definition saveSessionId (sessionDir sessionId : string)
    (backend : BackendType) (ids : idStore) : idStore :=
  <[(sessionDir, sessionIdFile backend) := sessionId]> ids.

End Ids.

(** A session id as a file may hold it: after a byte order mark, and
    followed by a no-break space and a line feed. *)
Definition paddedSessionId : string :=
  String "239" (String "187" (String "191"
    ("ses_2" +:+ String "194" (String "160" (String "010" ""))))).

End SessionStore.

(* ===================================================================== *)
(** ** The parser of a finished run's output (core/response-parser.ts) *)
(* ===================================================================== *)

Module ResponseParser.

(** The usage object built from a [result] or [step_finish] line; the
    fields are whatever values the line holds. *)
Record TokenUsage : Type := mkTokenUsage {
  inputTokens : value;
  outputTokens : value;
  totalTokens : value
}.

Record ParsedOutput : Type := mkParsedOutput {
  assistantText : string;
  tokenUsage : option TokenUsage
}.

(** The two variables of [parseOutput] before the first line. *)
Definition initial : ParsedOutput := mkParsedOutput "" None.

(** The body of the [try] block: it reads and assigns the two variables,
    and what it has assigned by the time it throws stays assigned. *)
Definition body (A : Type) : Type := ParsedOutput -> result A * ParsedOutput.

#[export] Instance body_ret : MRet body :=
  fun A a out => (Ok a, out).

#[export] Instance body_bind : MBind body :=
  fun A B k m out =>
    match m out with
    | (Ok a, out') => k a out'
    | (Throw e, out') => (Throw e, out')
    end.

(** An expression that may throw. *)
Definition eval {A : Type} (r : result A) : body A := fun out => (r, out).

Section Host.

Variable JSON_parse : string -> result value.

(** The text a value becomes when it is appended to a string. *)
Variable toText : value -> string.

(** [a + b]. *)
Variable add : value -> value -> value.

(** [assistantText += v]. *)
Definition appendText (v : string) : body unit :=
  fun out => (Ok tt, mkParsedOutput (assistantText out +:+ v) (tokenUsage out)).

(** [tokenUsage = { inputTokens: i || 0, outputTokens: o || 0,
    totalTokens: (i || 0) + (o || 0) }]. *)
Definition setUsage (i o : value) : body unit :=
  fun out =>
    (Ok tt,
     mkParsedOutput (assistantText out)
       (Some (mkTokenUsage (or_else i (JNum 0)) (or_else o (JNum 0))
                (add (or_else i (JNum 0)) (or_else o (JNum 0)))))).


(** The loop over the content blocks of an assistant message. *)
Fixpoint collectBlocks (blocks : list value) : body unit :=
  match blocks with
  | [] => mret tt
  | block :: rest =>
      ty ← eval (get block "type");
      _ ← (if is_str ty "text" then
             text ← eval (get block "text");
             appendText (toText text +:+ "
")
           else mret tt);
      collectBlocks rest
  end.

Definition onEvent (event : value) : body unit :=
  ty ← eval (get event "type");
  _ ← (if is_str ty "stream_event" then
         event_type ← eval (get event "event_type");
         if is_str event_type "content_block_delta" then
           delta ← eval (get event "delta");
           if is_str (get_opt delta "type") "text_delta" then
             text ← eval (get delta "text");
             if truthy text then appendText (toText text) else mret tt
           else mret tt
         else mret tt
       else mret tt);
  _ ← (if is_str ty "assistant" then
         message ← eval (get event "message");
         let content := get_opt message "content" in
         if truthy content then
           blocks ← eval (iterate content);
           collectBlocks blocks
         else mret tt
       else mret tt);
  _ ← (if is_str ty "result" then
         usage ← eval (get event "usage");
         if truthy usage then
           input_tokens ← eval (get usage "input_tokens");
           output_tokens ← eval (get usage "output_tokens");
           setUsage input_tokens output_tokens
         else mret tt
       else mret tt);
  _ ← (if is_str ty "text" then
         part ← eval (get event "part");
         let text := get_opt part "text" in
         if truthy text then appendText (toText text) else mret tt
       else mret tt);
  (if is_str ty "step_finish" then
     part ← eval (get event "part");
     let tokens := get_opt part "tokens" in
     if truthy tokens then
       input ← eval (get tokens "input");
       output ← eval (get tokens "output");
       setUsage input output
     else mret tt
   else mret tt).

(** One turn of the loop over the output lines: a line that is not JSON,
    or whose handling throws, is skipped from the throw on. *)
Definition onLine (out : ParsedOutput) (line : string) : ParsedOutput :=
  match JSON_parse line with
  | Ok event => (onEvent event out).2
  | Throw _ => out
  end.

(** The two variables after the loop. *)
Definition collect (outputLines : list string) (out : ParsedOutput)
  : ParsedOutput :=
  foldl onLine out outputLines.

Definition parseOutput (outputLines : list string) : ParsedOutput :=
  let out := collect outputLines initial in
  mkParsedOutput (View.trim (assistantText out)) (tokenUsage out).

End Host.

(** The event types [parseOutput] looks at. *)
Definition handledTypes : list string :=
  ["stream_event"; "assistant"; "result"; "text"; "step_finish"].

(** [a] followed by [b]: the text of both, the usage of the later one
    that has one. *)
Definition followedBy (a b : ParsedOutput) : ParsedOutput :=
  mkParsedOutput (assistantText a +:+ assistantText b)
    (match tokenUsage b with
     | Some usage => Some usage
     | None => tokenUsage a
     end).





(** An instance of the string conversion for lines whose texts are
    strings, which it leaves as they are. *)
Definition textOf (v : value) : string :=
  match v with
  | JStr s => s
  | _ => ""
  end.

(** An instance of the addition that computes nothing: the sum is kept as
    the pair of its operands. *)
Definition symbolicAdd (a b : value) : value := JArr [a; b].

(** A decoder for the lines of one short OpenCode run, each line named
    rather than spelled out; any other text is not JSON. *)
Definition decode (line : string) : result value :=
  if String.eqb line "text" then
    Ok (JObj [("type", JStr "text"); ("part", JObj [("text", JStr "hi")])])
  else if String.eqb line "tool_use" then
    Ok (JObj [("type", JStr "tool_use"); ("part", JObj [("tool", JStr "ls")])])
  else if String.eqb line "step_finish" then
    Ok (JObj [("type", JStr "step_finish");
              ("part", JObj [("tokens", JObj [("input", JNum 5);
                                              ("output", JNum 2)])])])
  else Throw SyntaxError.

End ResponseParser.

(* ===================================================================== *)
(** ** The output lines of a run (ui/view.ts) *)
(* ===================================================================== *)

Module ViewRuns.
Import View.

(** One call of the line callback the run handler hands to the runner. *)
Record OutputLine : Type := mkOutputLine {
  line_text : string;
  line_isStreaming : streaming;
  line_isAssistantMessage : bool;
  line_activity : option AgentStep
}.

(** The callback of the [i]-th pending run, called once per line. *)
Definition lineEvents (i : nat) (lines : list OutputLine) : list event :=
  (fun line => Line i (line_text line) (line_isStreaming line)
                 (line_isAssistantMessage line) (line_activity line))
  <$> lines.

(** A run on [note.md] of one output line ends with a permission request,
    and the approval is clicked: the approval run is in flight, on the
    array the history item of the first run holds. *)
Definition duringApproval : list event :=
  [ClickRun (sampleUI "first");
   Line 0 "one" NotStreaming false None;
   Resolved 0 permissionResponse (sampleUI "");
   ClickApprove (sampleUI "")].

End ViewRuns.

(* ===================================================================== *)
(** ** Context manager: the remaining operations
       (managers/note-context-manager.ts) *)
(* ===================================================================== *)

Module NoteContextManagerOps.
Import NoteContextManager.

Definition hasContext (notePath : string) (this : manager) : bool :=
  bool_decide (is_Some (contexts this !! notePath)).

(** The entries a [for ... of] loop over the map visits.  A JavaScript
    [Map] keeps insertion order, which the model does not record: the list
    is taken in the map's own order, and what is stated about the loops
    below does not depend on it. *)
Definition entries (this : manager) : list (string * NoteContext) :=
  map_to_list (contexts this).

(** The counting loop of [getRunningCount]. *)
Definition countRunning (this : manager) : nat :=
  foldl (fun count kv => if isRunning kv.2 then S count else count)
        0 (entries this).

(** The collecting loop of [getRunningNotePaths]. *)
Definition getRunningNotePaths (this : manager) : list string :=
  foldl (fun running kv => if isRunning kv.2 then running ++ [kv.1]
                           else running)
        [] (entries this).

Definition set_runner (v : ClaudeCodeRunner) (context : NoteContext)
  : NoteContext :=
  mkNoteContext (history context) (sessionId context)
    (currentResponse context) (currentRequest context)
    (outputLines context) (agentSteps context) v (isRunning context)
    (runButton context) (cancelButton context) (waitingForResponse context)
    (selectedModel context) (lastPrompt context)
    (pendingPreviewContent context) (originalPreviewContent context)
    (currentResultText context) (executionStartTime context)
    (baseStatusMessage context).

Section Host.

(** The runner's own [updateSettings] (the runner class is not among the
    sources), as a function of the runner. *)
Variable runner_updateSettings :
  ClaudeCodeSettings -> ClaudeCodeRunner -> ClaudeCodeRunner.

Definition updateSettings (newSettings : ClaudeCodeSettings) (this : manager)
  : manager :=
  mkManager
    ((fun context =>
        set_runner (runner_updateSettings newSettings (runner context)) context)
     <$> contexts this)
    newSettings (dataDir this).

Variable md5 : string -> string.
Variable path_join : string -> string -> string.

(** The order in which the loop of [saveAllContexts] visits the keys. *)
Variable keysOf : gmap string NoteContext -> list string.

(** [now notePath] is the clock reading taken when that context is
    saved. *)
Definition saveAllContexts (vaultPath : string) (now : string -> string)
    (this : manager) (fs : disk) : disk :=
  foldl (fun fs notePath =>
           saveContext md5 path_join notePath vaultPath (now notePath) this fs)
        fs (keysOf (contexts this)).

End Host.

End NoteContextManagerOps.

(* ===================================================================== *)
(** ** Contexts, roots and hosts to run the code on *)
(* ===================================================================== *)

Module Samples.
Import NoteContextManager View.

(** A context after one finished run of two output lines, in a session of
    the backend: the history item holds the context's array. *)
Definition usedContext : NoteContext :=
  mkNoteContext
    [mkHistoryItem "go" "2026-01-01T00:00:00.000Z" true "note.md"
       (Some permissionResponse) None (Some ["one"; "two"]) true]
    (Some "ses_1") (Some permissionResponse) None ["one"; "two"]
    [mkAgentStep "R" "Reading" "note.md" "read" (Some 1%Z) (Some 2%Z)]
    (mkRunner sampleSettings) false
    None None None None (Some "go") (Some "new body") (Some "body")
    None None None.

(** A manager with that context under [note.md] and a longer one under
    [other.md]. *)
Definition usedManager : manager :=
  with_contexts
    {[ "note.md" := usedContext;
       "other.md" := set_sessionId (Some "ses_2")
                       (set_outputLines ["a"; "b"; "c"] usedContext) ]}
    (create sampleSettings "contexts").

(** The host functions of the samples: a digest that keeps its argument
    readable, [path.join] with a slash, and a listing in the order of the
    directory map. *)
Definition sample_md5 (text : string) : string := "h" +:+ text.

Definition sample_join (a b : string) : string := a +:+ "/" +:+ b.

Definition sample_readdir (dir : gmap string contextFile) : list string :=
  (map_to_list dir).*1.

(** A root that already holds the file of another note, and a file that
    records [other.md] outside the directory of its hash. *)
Definition usedDisk : disk :=
  {[ "/vault/contexts" :=
       {[ "hthird.md" := Parsed (dataToSave "third.md" usedContext "t0");
          "moved" := Parsed (dataToSave "other.md" usedContext "t0");
          "broken" := Unparsable ]} ]}.

(** A root with a copy of the context of [note.md], made before its run,
    in a directory that the listing names after the one of the key's
    hash. *)
Definition staleDisk : disk :=
  {[ "/vault/contexts" :=
       {[ "0copy" := Parsed (dataToSave "note.md"
                               (createNewContext
                                  (create sampleSettings "contexts"))
                               "t0") ]} ]}.

End Samples.

(* ===================================================================== *)
(** ** Runs of an adapter over the lines of a stream *)
(* ===================================================================== *)

Module AdapterRuns.

(** The answer is an [init] event. *)
Definition isInit (r : result (option StandardEvent)) : bool :=
  match r with
  | Ok (Some e) => match type e with
                   | init => true
                   | _ => false
                   end
  | Ok None | Throw _ => false
  end.

(** The number of [init] events among the answers of a run. *)
Fixpoint initCount (answers : list (result (option StandardEvent))) : nat :=
  match answers with
  | [] => 0
  | r :: rest => (if isInit r then 1 else 0) + initCount rest
  end.

(** A value that has properties to read: anything but [undefined] and
    [null]. *)
Definition readable (v : value) : bool :=
  match v with
  | JUndefined | JNull => false
  | _ => true
  end.

End AdapterRuns.

(* ===================================================================== *)
(** * Properties *)
(* ===================================================================== *)

(** ** The adapters *)

Module OpenCodeFacts.
Import OpenCode.





(** A completed tool call is reported as its result, a pending one as its
    start. *)
Example opencode_tool_use_completed :
  fst (parseEvent create
         (JObj [("type", JStr "tool_use"); ("sessionID", JStr "abc");
                ("part", JObj [("tool", JStr "read");
                               ("state", JObj [("status", JStr "completed");
                                               ("output", JStr "ok")])])]))
  = Ok (Some (with_sessionId (JStr "abc")
               (with_toolOutput (JStr "ok")
                 (with_toolName (JStr "read") (Events.event tool_result))))).
Proof. reflexivity. Qed.

Example opencode_tool_use_pending :
  fst (parseEvent create
         (JObj [("type", JStr "tool_use");
                ("part", JObj [("state", JObj [("status", JStr "running")])])]))
  = Ok (Some (with_toolName (JStr "unknown") (Events.event tool_start))).
Proof. reflexivity. Qed.

(** [null] is no object: reading its [type] throws. *)
Example opencode_null_throws :
  parseEvent create JNull = (Throw TypeError, create).
Proof. reflexivity. Qed.

(** C2.  Whatever the adapter went through before, after [reset()] the
    three lines [step_start] (session "abc"), [text] ("hi") and
    [step_finish] (tokens 5 in, 2 out), parsed in this order, give
    exactly three events and no null: an [init] event whose session id
    is "abc", a [text] event whose text is "hi" and whose streaming flag
    is [true], and a [step_complete] event whose token counts are input
    5 and output 2 (with cost 0 and cached 0, the adapter's defaults). *)
Theorem opencode_scenario_normalized (this : OpenCodeBackend) :
  fst (parseAll (reset this) [line_step_start; line_text; line_step_finish])
  = [ Ok (Some (with_sessionId (JStr "abc") (Events.event init)));
      Ok (Some (with_isStreaming (JBool true)
                 (with_text (JStr "hi") (Events.event text_))));
      Ok (Some (with_tokens (Some (mkTokens (JNum 5) (JNum 2) (JNum 0)))
                 (with_cost (JNum 0) (Events.event step_complete)))) ].
Proof. reflexivity. Qed.



End OpenCodeFacts.

Module ClaudeFacts.
Import Claude.

Section WithStringify.

Variable JSON_stringify : value -> value.

Lemma get_defined (block : value) (k : string) :
  block <> JNull -> block <> JUndefined ->
  get block k = Ok (get_opt block k).
Proof. destruct block; simpl; congruence. Qed.

(** The loop stops at the first block that stands for an event. *)
Lemma parseContentBlocks_first (blocks : list value) :
  Forall (fun b => b <> JNull /\ b <> JUndefined) blocks ->
  parseContentBlocks blocks = Ok (head (omap blockEvent blocks)).
Proof.
  induction 1 as [|block rest [Hnull Hundef] _ IH]; [reflexivity|].
  cbn [parseContentBlocks omap list_omap].
  rewrite !(get_defined block) by assumption. cbn [mbind result_bind].
  unfold blockEvent.
  destruct (is_str (get_opt block "type") "thinking"
            && truthy (get_opt block "text")); [reflexivity|].
  destruct (is_str (get_opt block "type") "text"
            && truthy (get_opt block "text")); [reflexivity|].
  destruct (is_str (get_opt block "type") "tool_use"
            && truthy (get_opt block "name")); [reflexivity|].
  exact IH.
Qed.

(** C4, as the adapter has it.  An assistant line whose message carries
    an array of content blocks (none of them null) is answered with one
    event only: the event of the first block, in order, that is a
    thinking or text block with non-empty text or a tool_use block with
    a non-empty name; the line is answered with null when no block is
    of that kind.  Blocks after that first one give no event. *)
Theorem claude_assistant_first_block
    (fields msg : list (string * value)) (blocks : list value) :
  assoc "type" fields = JStr "assistant" ->
  assoc "message" fields = JObj msg ->
  assoc "content" msg = JArr blocks ->
  Forall (fun b => b <> JNull /\ b <> JUndefined) blocks ->
  parseEvent JSON_stringify (JObj fields)
  = Ok (head (omap blockEvent blocks)).
Proof.
  intros Hty Hmsg Hcontent Hblocks.
  unfold parseEvent. cbn [get mbind result_bind]. rewrite Hty.
  cbn [is_str String.eqb Ascii.eqb Bool.eqb].
  unfold parseAssistantEvent. cbn [get mbind result_bind].
  rewrite Hmsg. cbn [get_opt]. rewrite Hcontent.
  cbn [truthy negb iterate mbind result_bind].
  apply parseContentBlocks_first, Hblocks.
Qed.

End WithStringify.

(** C4, as stated, fails: on [line_two_blocks] the adapter answers with
    the thinking event alone, and the text block, which stands for an
    event of its own, gives none. *)
Lemma claude_assistant_later_block_dropped :
  ~ exists JSON_stringify, every_block_has_its_event JSON_stringify.
Proof.
  intros [JSON_stringify Hall].
  specialize (Hall line_two_blocks
    [("content",
      JArr [JObj [("type", JStr "thinking"); ("text", JStr "t")];
            JObj [("type", JStr "text"); ("text", JStr "a")]])]
    [JObj [("type", JStr "thinking"); ("text", JStr "t")];
     JObj [("type", JStr "text"); ("text", JStr "a")]]
    (JObj [("type", JStr "text"); ("text", JStr "a")])
    (with_text (JStr "a") (Events.event text_))
    eq_refl eq_refl eq_refl).
  assert (Hin : JObj [("type", JStr "text"); ("text", JStr "a")]
                ∈ [JObj [("type", JStr "thinking"); ("text", JStr "t")];
                   JObj [("type", JStr "text"); ("text", JStr "a")]])
    by (apply list_elem_of_further, list_elem_of_here).
  specialize (Hall Hin eq_refl). discriminate Hall.
Qed.

(** The adapter does throw on shapes it trusts: a null content block. *)
Example claude_null_block_throws :
  parseEvent (fun _ => JUndefined)
    (JObj [("type", JStr "assistant");
           ("message", JObj [("content", JArr [JNull])])])
  = Throw TypeError.
Proof. reflexivity. Qed.

Lemma claude_assistant_first_block_witness :
  parseEvent (fun _ => JUndefined) (JObj line_two_blocks)
  = Ok (Some (with_text (JStr "t") (Events.event thinking))).
Proof.
  apply (claude_assistant_first_block (fun _ => JUndefined) line_two_blocks
           [("content",
             JArr [JObj [("type", JStr "thinking"); ("text", JStr "t")];
                   JObj [("type", JStr "text"); ("text", JStr "a")]])]
           [JObj [("type", JStr "thinking"); ("text", JStr "t")];
            JObj [("type", JStr "text"); ("text", JStr "a")]]
           eq_refl eq_refl eq_refl).
  repeat constructor; discriminate.
Defined.

End ClaudeFacts.

Module AdapterFacts.

(** C6.  For either adapter, a decoded JSON object whose [type] is not
    one of the types the adapter's [switch] names is answered with null:
    the call does not throw, and it leaves the adapter as it was. *)
Theorem unrecognized_event_is_null
    (JSON_stringify : value -> value) (this : OpenCode.OpenCodeBackend)
    (fields : list (string * value)) :
  (OpenCode.recognized (assoc "type" fields) = false ->
   OpenCode.parseEvent this (JObj fields) = (Ok None, this))
  /\ (Claude.recognized (assoc "type" fields) = false ->
      Claude.parseEvent JSON_stringify (JObj fields) = Ok None).
Proof.
  split; intros Hrec.
  - unfold OpenCode.recognized in Hrec.
    repeat (apply orb_false_elim in Hrec as [Hrec ?]).
    unfold OpenCode.parseEvent. cbn [get].
    by repeat match goal with H : is_str _ _ = false |- _ => rewrite H; clear H end.
  - unfold Claude.recognized in Hrec.
    repeat (apply orb_false_elim in Hrec as [Hrec ?]).
    unfold Claude.parseEvent. cbn [get mbind result_bind].
    by repeat match goal with H : is_str _ _ = false |- _ => rewrite H; clear H end.
Qed.

Lemma unrecognized_event_is_null_witness :
  let fields := [("type", JStr "heartbeat"); ("part", JNull)] in
  OpenCode.parseEvent OpenCode.create (JObj fields) = (Ok None, OpenCode.create)
  /\ Claude.parseEvent (fun _ => JUndefined) (JObj fields) = Ok None.
Proof.
  pose proof (unrecognized_event_is_null (fun _ => JUndefined) OpenCode.create
                [("type", JStr "heartbeat"); ("part", JNull)]) as [Ho Hc].
  split; [apply Ho | apply Hc]; reflexivity.
Defined.

End AdapterFacts.

(** ** The context manager *)

Module NoteContextManagerFacts.
Import NoteContextManager.

(** C9.  For a key that has a context, [clearHistory] leaves the history,
    the output lines and the agent steps of that context empty, and so does
    a second call right after the first; the second call changes nothing
    more.  The method has no failing path: it is a total function of the
    manager. *)
Theorem clearHistory_twice
    (this : manager) (notePath : string) (context : NoteContext) :
  contexts this !! notePath = Some context ->
  let once := clearHistory notePath this in
  let twice := clearHistory notePath once in
  (exists c1, contexts once !! notePath = Some c1
              /\ history c1 = [] /\ outputLines c1 = [] /\ agentSteps c1 = [])
  /\ (exists c2, contexts twice !! notePath = Some c2
                 /\ history c2 = [] /\ outputLines c2 = [] /\ agentSteps c2 = [])
  /\ twice = once.
Proof.
  intros Hctx once twice.
  assert (Honce : contexts once !! notePath = Some (cleared context)).
  { subst once. unfold clearHistory. rewrite Hctx. simpl.
    apply lookup_insert_eq. }
  assert (Htwice : twice = once).
  { subst twice. unfold clearHistory at 1. rewrite Honce.
    subst once. unfold clearHistory. rewrite Hctx.
    unfold with_contexts; simpl. f_equal.
    apply insert_insert_eq. }
  split; [|split].
  - exists (cleared context). by rewrite Honce.
  - exists (cleared context). by rewrite Htwice, Honce.
  - exact Htwice.
Qed.

Lemma clearHistory_twice_witness :
  let this := Samples.usedManager in
  let once := clearHistory "note.md" this in
  let twice := clearHistory "note.md" once in
  history Samples.usedContext <> []
  /\ outputLines Samples.usedContext <> []
  /\ agentSteps Samples.usedContext <> []
  /\ (exists c1, contexts once !! "note.md" = Some c1
                 /\ history c1 = [] /\ outputLines c1 = []
                 /\ agentSteps c1 = [])
  /\ (exists c2, contexts twice !! "note.md" = Some c2
                 /\ history c2 = [] /\ outputLines c2 = []
                 /\ agentSteps c2 = [])
  /\ twice = once.
Proof.
  intros this once twice.
  split; [discriminate|]. split; [discriminate|]. split; [discriminate|].
  refine (clearHistory_twice this "note.md" Samples.usedContext _).
  vm_compute. reflexivity.
Defined.

(** C10.  [clearHistory(key)] leaves the manager's settings and data
    directory alone and leaves every context under another key as it was.
    When the key has a context, the context it has afterwards agrees with
    the one before on the session id, the running flag, the runner, the
    pending preview pair and every other field except the history, the
    output lines and the agent steps; when the key has none, the manager
    is returned as it was, with no context created. *)
Theorem clearHistory_frame (this : manager) (notePath : string) :
  settings (clearHistory notePath this) = settings this
  /\ dataDir (clearHistory notePath this) = dataDir this
  /\ (forall other : string, other <> notePath ->
        contexts (clearHistory notePath this) !! other
        = contexts this !! other)
  /\ match contexts this !! notePath with
     | Some before =>
         exists after,
           contexts (clearHistory notePath this) !! notePath = Some after
           /\ sessionId after = sessionId before
           /\ currentResponse after = currentResponse before
           /\ currentRequest after = currentRequest before
           /\ runner after = runner before
           /\ isRunning after = isRunning before
           /\ runButton after = runButton before
           /\ cancelButton after = cancelButton before
           /\ waitingForResponse after = waitingForResponse before
           /\ selectedModel after = selectedModel before
           /\ lastPrompt after = lastPrompt before
           /\ pendingPreviewContent after = pendingPreviewContent before
           /\ originalPreviewContent after = originalPreviewContent before
           /\ currentResultText after = currentResultText before
           /\ executionStartTime after = executionStartTime before
           /\ baseStatusMessage after = baseStatusMessage before
     | None => clearHistory notePath this = this
     end.
Proof.
  unfold clearHistory.
  destruct (contexts this !! notePath) as [before|] eqn:Hctx; simpl.
  - repeat split; try done.
    + intros other Hne. by apply lookup_insert_ne.
    + exists (cleared before). rewrite lookup_insert_eq. by repeat split.
  - repeat split; done.
Qed.

Lemma clearHistory_frame_witness :
  let st := mkSettings claude "" true "" "" true "" "" true 300 false
              true false "" "" "" "" "en" in
  let this := (getContext "b.md" (getContext "a.md" (create st "contexts")).2).2 in
  contexts (clearHistory "a.md" this) !! "b.md" = contexts this !! "b.md".
Proof.
  intros st this.
  apply (clearHistory_frame this "a.md"). discriminate.
Defined.

Section Host.

Variable md5 : string -> string.
Variable path_join : string -> string -> string.
Variable readdirSync : gmap string contextFile -> list string.

(** The listing names every entry of the directory (in some order). *)
Hypothesis readdirSync_complete :
  forall (dir : gmap string contextFile) (name : string),
    is_Some (dir !! name) -> name ∈ readdirSync dir.

Lemma loadOne_settings dir this noteHash :
  settings (loadOne dir this noteHash) = settings this.
Proof. unfold loadOne. by repeat case_match. Qed.

(** Once the key holds the context rebuilt from [data], later turns that
    can only write that same context keep it. *)
Lemma load_keeps dir (notePath : string) (data : SessionData)
    (names : list string) : forall this : manager,
  (forall noteHash d, dir !! noteHash = Some (Parsed d) ->
                      usablePath d = Some notePath -> d = data) ->
  contexts this !! notePath = Some (reconstruct this data) ->
  contexts (foldl (loadOne dir) this names) !! notePath
  = Some (reconstruct this data).
Proof.
  induction names as [|noteHash rest IH]; intros this Hsame Hctx; [done|].
  simpl.
  assert (Hrec : reconstruct (loadOne dir this noteHash) data = reconstruct this data).
  { unfold reconstruct. by rewrite loadOne_settings. }
  rewrite <- Hrec. apply IH; [exact Hsame|]. rewrite Hrec.
  unfold loadOne.
  destruct (dir !! noteHash) as [[| |d]|] eqn:Hdir; try done.
  destruct (usablePath d) as [p|] eqn:Hp; [|done]. simpl.
  destruct (decide (p = notePath)) as [->|Hne].
  - rewrite (Hsame noteHash d Hdir Hp). apply lookup_insert_eq.
  - by rewrite lookup_insert_ne.
Qed.

(** A listed directory that holds [data] under the key's name loads it. *)
Lemma load_finds dir (notePath noteHash : string) (data : SessionData)
    (names : list string) : forall this : manager,
  (forall h d, dir !! h = Some (Parsed d) ->
               usablePath d = Some notePath -> d = data) ->
  dir !! noteHash = Some (Parsed data) ->
  usablePath data = Some notePath ->
  noteHash ∈ names ->
  contexts (foldl (loadOne dir) this names) !! notePath
  = Some (reconstruct this data).
Proof.
  induction names as [|name rest IH]; intros this Hsame Hdir Hp Hin.
  - by apply elem_of_nil in Hin.
  - simpl.
    assert (Hrec : reconstruct (loadOne dir this name) data = reconstruct this data).
    { unfold reconstruct. by rewrite loadOne_settings. }
    rewrite <- Hrec.
    destruct (decide (name = noteHash)) as [->|Hne].
    + apply load_keeps; [exact Hsame|]. rewrite Hrec.
      unfold loadOne. rewrite Hdir, Hp. simpl. apply lookup_insert_eq.
    + apply IH; try done.
      apply elem_of_cons in Hin as [Heq|Hin]; [congruence|done].
Qed.

Lemma unshared_twice (items : list SessionHistoryItem) :
  unshared <$> (unshared <$> items) = unshared <$> items.
Proof. rewrite <- list_fmap_compose. by apply list_fmap_ext. Qed.

Lemma usablePath_recorded data notePath :
  usablePath data = Some notePath -> data_notePath data = Some notePath.
Proof.
  unfold usablePath. destruct (data_notePath data) as [p|]; [|done].
  destruct (String.eqb p ""); congruence.
Qed.

(** C5, as the manager has it.  Take a key other than the empty string
    and a root in which no file outside the key's own note directory
    records that key (other files, misfiled or unreadable ones included,
    may be there).  Then [saveContext(key, root)] followed by
    [loadContexts(root)], in the same manager or in the one of the next
    start, leaves under that key a context with the history (as JSON
    carries it), the output lines and the session id of the saved one,
    hence with the same history length, output-line count and session
    id. *)
Theorem save_load_round_trip
    (this that : manager) (fs : disk) (notePath vaultPath now : string)
    (saved : NoteContext) :
  notePath <> "" ->
  dataDir that = dataDir this ->
  contexts this !! notePath = Some saved ->
  recordedUnderHashOnly md5 notePath
    (default ∅ (fs !! path_join vaultPath (dataDir this))) ->
  exists loaded : NoteContext,
    contexts (loadContexts path_join readdirSync vaultPath
                (saveContext md5 path_join notePath vaultPath now this fs) that)
      !! notePath = Some loaded
    /\ history loaded = unshared <$> history saved
    /\ outputLines loaded = outputLines saved
    /\ sessionId loaded = sessionId saved
    /\ length (history loaded) = length (history saved)
    /\ length (outputLines loaded) = length (outputLines saved).
Proof.
  intros Hkey Hdir Hctx Hfiled.
  set (data := dataToSave notePath saved now).
  exists (reconstruct that data).
  split; [|by cbn; rewrite unshared_twice, length_fmap].
  unfold loadContexts, saveContext. rewrite Hctx, Hdir. cbn zeta.
  rewrite lookup_insert_eq.
  set (dir := default ∅ (fs !! path_join vaultPath (dataDir this))) in *.
  assert (Hp : usablePath data = Some notePath).
  { unfold usablePath, data. simpl.
    destruct (String.eqb_spec notePath ""); [contradiction|done]. }
  apply (load_finds _ notePath (md5 notePath)).
  - intros h d Hh Hd.
    destruct (decide (h = md5 notePath)) as [->|Hne].
    + rewrite lookup_insert_eq in Hh. by injection Hh as <-.
    + rewrite lookup_insert_ne in Hh by done.
      apply usablePath_recorded in Hd.
      by destruct Hne; apply (Hfiled h d).
  - apply lookup_insert_eq.
  - exact Hp.
  - apply readdirSync_complete. rewrite lookup_insert_eq. by eexists.
Qed.

End Host.

Lemma loadOne_unusable dir (that : manager) (names : list string) :
  (forall h d, dir !! h = Some (Parsed d) -> usablePath d = None) ->
  foldl (loadOne dir) that names = that.
Proof.
  intros Hnone. induction names as [|h rest IH]; [done|]. simpl.
  assert (Hstep : loadOne dir that h = that).
  { unfold loadOne. destruct (dir !! h) as [[| |d]|] eqn:Hh; try done.
    by rewrite (Hnone h d Hh). }
  by rewrite Hstep.
Qed.

Lemma sample_readdir_complete
    (dir : gmap string contextFile) (name : string) :
  is_Some (dir !! name) -> name ∈ Samples.sample_readdir dir.
Proof.
  intros [f Hf]. apply list_elem_of_fmap.
  exists (name, f). split; [done|]. by apply elem_of_map_to_list.
Qed.

(** C5, as stated, fails in two ways.  At the empty key (the key of the
    view before any note is active) the saved file records an empty note
    path, which [loadContexts] passes over, so the manager of the next
    start has no context under that key, whatever the host functions are.
    And at a key of which the root holds a stale copy in another
    directory, listed later, the copy is what ends up under the key: the
    history of one item and the two output lines of the saved context
    come back empty, and its session id is gone. *)
Lemma save_load_not_reproduced :
  (~ exists md5 path_join readdirSync, roundTrips md5 path_join readdirSync)
  /\ exists loaded : NoteContext,
       contexts (loadContexts Samples.sample_join Samples.sample_readdir
                   "/vault"
                   (saveContext Samples.sample_md5 Samples.sample_join
                      "note.md" "/vault" "t1" Samples.usedManager
                      Samples.staleDisk)
                   (create View.sampleSettings "contexts"))
         !! "note.md" = Some loaded
       /\ length (history Samples.usedContext) = 1
       /\ length (history loaded) = 0
       /\ length (outputLines Samples.usedContext) = 2
       /\ length (outputLines loaded) = 0
       /\ sessionId Samples.usedContext = Some "ses_1"
       /\ sessionId loaded = None.
Proof.
  split.
  - intros (md5 & path_join & readdirSync & Hround).
    set (st := mkSettings claude "" true "" "" true "" "" true 300 false
                 true false "" "" "" "" "en").
    set (that := create st "contexts").
    set (this := (getContext "" that).2).
    destruct (Hround this that ∅ "" "/vault" "2026-01-01T00:00:00.000Z"
                (createNewContext that) eq_refl)
      as (loaded & Hloaded & _).
    + subst this. unfold getContext, that, create. simpl.
      rewrite lookup_empty. simpl. apply lookup_insert_eq.
    + unfold loadContexts, saveContext in Hloaded.
      assert (Hthis : contexts this !! "" = Some (createNewContext that)).
      { subst this. unfold getContext, that, create. simpl.
        rewrite lookup_empty. simpl. apply lookup_insert_eq. }
      rewrite Hthis in Hloaded. cbn zeta in Hloaded.
      change (dataDir that) with (dataDir this) in Hloaded.
      rewrite lookup_insert_eq in Hloaded.
      rewrite loadOne_unusable in Hloaded.
      * subst that. unfold create in Hloaded. simpl in Hloaded.
        by rewrite lookup_empty in Hloaded.
      * intros h d Hh.
        destruct (decide (h = md5 "")) as [->|Hne].
        -- rewrite lookup_insert_eq in Hh. by injection Hh as <-.
        -- rewrite lookup_insert_ne in Hh by done. rewrite lookup_empty in Hh.
           simpl in Hh. by rewrite lookup_empty in Hh.
  - eexists. split; [vm_compute; reflexivity|]. vm_compute. done.
Qed.

Lemma save_load_round_trip_witness :
  let that := create View.sampleSettings "contexts" in
  exists loaded : NoteContext,
    contexts (loadContexts Samples.sample_join Samples.sample_readdir "/vault"
                (saveContext Samples.sample_md5 Samples.sample_join
                   "note.md" "/vault" "t1" Samples.usedManager
                   Samples.usedDisk) that)
      !! "note.md" = Some loaded
    /\ history loaded = unshared <$> history Samples.usedContext
    /\ outputLines loaded = ["one"; "two"]
    /\ sessionId loaded = Some "ses_1"
    /\ length (history loaded) = 1
    /\ length (outputLines loaded) = 2.
Proof.
  intros that.
  refine (save_load_round_trip Samples.sample_md5 Samples.sample_join
            Samples.sample_readdir sample_readdir_complete
            Samples.usedManager that Samples.usedDisk "note.md" "/vault" "t1"
            Samples.usedContext _ _ _ _).
  - discriminate.
  - reflexivity.
  - vm_compute. reflexivity.
  - intros h d Hh Hd.
    revert Hh Hd. unfold Samples.usedDisk.
    change (Samples.sample_join "/vault" (dataDir Samples.usedManager))
      with "/vault/contexts".
    rewrite lookup_singleton_eq. cbn [default from_option id].
    intros Hh Hd.
    destruct (decide (h = "hthird.md")) as [->|H1].
    { rewrite lookup_insert_eq in Hh. injection Hh as <-. discriminate Hd. }
    rewrite lookup_insert_ne in Hh by done.
    destruct (decide (h = "moved")) as [->|H2].
    { rewrite lookup_insert_eq in Hh. injection Hh as <-. discriminate Hd. }
    rewrite lookup_insert_ne in Hh by done.
    apply lookup_singleton_Some in Hh as [_ Hh]. discriminate Hh.
Defined.

End NoteContextManagerFacts.

(** ** The rolling conversation history *)

Module SessionManagerFacts.
Import SessionManager.

Lemma sliceLast_length {A : Type} (n : nat) (history : list A) :
  length (sliceLast n history) <= n.
Proof. unfold sliceLast. rewrite length_drop. lia. Qed.

(** Truncating, appending and truncating again keeps what truncating the
    whole sequence once keeps. *)
Lemma sliceLast_app {A : Type} (n : nat) (older newer : list A) :
  sliceLast n (sliceLast n older ++ newer) = sliceLast n (older ++ newer).
Proof.
  unfold sliceLast.
  rewrite <- (drop_app_le older newer) by lia.
  rewrite drop_drop. f_equal.
  rewrite length_drop, !length_app. lia.
Qed.

(** One call on a session directory whose file is absent or holds an
    array. *)
Lemma saveConversationHistory_stored
    (sessionDir userPrompt assistantResponse nowUser nowAssistant : string)
    (fs : store) (existing : list Message) :
  existingHistory sessionDir fs = Some existing ->
  saveConversationHistory sessionDir userPrompt assistantResponse
    nowUser nowAssistant fs
  = Ok (<[sessionDir :=
            Stored (sliceLast 20
                      (existing ++ [mkMessage "user" userPrompt nowUser;
                                    mkMessage "assistant" assistantResponse
                                      nowAssistant]))]> fs).
Proof.
  unfold existingHistory, saveConversationHistory. intros Hex.
  assert (Hcut : forall l : list Message,
            (if 20 <? length l then sliceLast 20 l else l) = sliceLast 20 l).
  { intros l. unfold sliceLast. destruct (Nat.ltb_spec 20 (length l)); [done|].
    replace (length l - 20) with 0 by lia. done. }
  destruct (fs !! sessionDir) as [[| |history]|]; try discriminate;
    injection Hex as <-; cbn [mbind result_bind];
    rewrite Hcut, <- app_assoc; reflexivity.
Qed.

(** C8, amended.  On a session directory whose history file is absent or
    holds an array of messages (what the function itself writes), every
    call of [saveConversationHistory] succeeds,
    appends the user message and then the assistant message, and keeps the
    last 20 messages of the result.  Hence after any sequence of one or
    more calls the stored history is the last 20 messages of everything
    that was there and everything that was appended, in order: at most 20
    messages, and the most recent ones.  The history files of the other
    session directories are not touched. *)
Theorem conversation_history_capped
    (sessionDir : string) (rest : list Exchange) :
  forall (fs : store) (existing : list Message) (call : Exchange),
  existingHistory sessionDir fs = Some existing ->
  exists fs' : store,
    saveExchanges sessionDir (call :: rest) fs = Ok fs'
    /\ fs' !! sessionDir
       = Some (Stored (sliceLast 20
                         (existing ++ flat_map exchangeMessages (call :: rest))))
    /\ length (loadConversationHistory sessionDir fs') <= 20
    /\ forall other : string, other <> sessionDir -> fs' !! other = fs !! other.
Proof.
  induction rest as [|next rest IH]; intros fs existing call Hex.
  - eexists. cbn [saveExchanges].
    rewrite (saveConversationHistory_stored _ _ _ _ _ _ _ Hex).
    cbn [mbind result_bind]. split; [reflexivity|].
    unfold loadConversationHistory. rewrite lookup_insert_eq.
    split; [reflexivity|]. split; [apply sliceLast_length|].
    intros other Hne. by rewrite lookup_insert_ne.
  - cbn [saveExchanges].
    rewrite (saveConversationHistory_stored _ _ _ _ _ _ _ Hex).
    cbn [mbind result_bind].
    set (fs1 := <[sessionDir := _]> fs).
    destruct (IH fs1 (sliceLast 20 (existing ++ exchangeMessages call)) next)
      as (fs' & Hrun & Hstored & Hlen & Hother).
    { unfold existingHistory, fs1. by rewrite lookup_insert_eq. }
    exists fs'. split; [exact Hrun|]. split; [|split; [exact Hlen|]].
    + rewrite Hstored. do 2 f_equal.
      rewrite sliceLast_app.
      change (flat_map exchangeMessages (call :: next :: rest))
        with (exchangeMessages call ++ flat_map exchangeMessages (next :: rest)).
      by rewrite app_assoc.
    + intros other Hne. rewrite (Hother other Hne).
      unfold fs1. by rewrite lookup_insert_ne.
Qed.

(** C8, as stated, fails on a session directory whose history file is not
    JSON (or is JSON but no array): the call logs the error and throws it
    again, and nothing is appended. *)
Lemma save_on_corrupt_history_throws :
  ~ alwaysAppends
  /\ saveConversationHistory "u" "q" "a" "t1" "t2" usedStore
     = Throw SyntaxError.
Proof.
  split; [|reflexivity].
  intros Hall.
  destruct (Hall "u" "q" "a" "t1" "t2" usedStore) as (fs' & Hsave & _).
  discriminate Hsave.
Qed.

Lemma conversation_history_capped_witness :
  exists fs' : store,
    saveExchanges "s" (exchange "a" :: tenMore) usedStore = Ok fs'
    /\ loadConversationHistory "s" fs' = flat_map exchangeMessages tenMore
    /\ length (loadConversationHistory "s" usedStore
               ++ flat_map exchangeMessages (exchange "a" :: tenMore)) = 23
    /\ length (loadConversationHistory "s" fs') = 20
    /\ fs' !! "u" = Some NotJSON.
Proof.
  destruct (conversation_history_capped "s" tenMore usedStore
              [mkMessage "assistant" "hello" "t0"] (exchange "a") eq_refl)
    as (fs' & Hrun & Hstored & Hlen & Hother).
  exists fs'. split; [exact Hrun|].
  unfold loadConversationHistory at 1 3. rewrite Hstored.
  split; [vm_compute; reflexivity|]. split; [reflexivity|].
  split; [vm_compute; reflexivity|].
  rewrite Hother by discriminate. reflexivity.
Defined.

End SessionManagerFacts.

(** ** The process spawner *)

Module ProcessSpawnerFacts.
Import ProcessSpawner.

Example parseEnvOutput_lines :
  map_to_list (parseEnvOutput "A=1
B=x=y
=skipped
novalue
A=2")
  = map_to_list ({["A" := "2"; "B" := "x=y"]} : gmap string string).
Proof. vm_compute. reflexivity. Qed.

(** The search stops at the first directory of PATH that has the file. *)
Example resolveClaudePath_on_path :
  resolveClaudePath
    (mkHost false ∅ "/home/u" (fun _ _ => ExecFailure)
       (fun p => String.eqb p "/opt/bin/claude")
       (fun p => String.prefix "/" p)
       (fun a b => a +:+ "/" +:+ b) (fun p => p))
    {["PATH" := "/usr/bin::/opt/bin:/bin"]} "claude"
  = "/opt/bin/claude".
Proof. vm_compute. reflexivity. Qed.

Lemma assignVar_other (key value name : string) (env : gmap string string) :
  name <> key -> assignVar key value env !! name = env !! name.
Proof.
  intros Hne. unfold assignVar. case_match; [done|].
  by rewrite lookup_insert_ne.
Qed.

(** A variable no non-empty override names keeps its value. *)
Lemma applyCustomEnvVars_other (custom : option (list (string * string)))
    (shellEnv : gmap string string) (name : string) :
  name ∉ overridden (mkSpawnConfig "" [] "" custom) ->
  applyCustomEnvVars custom shellEnv !! name = shellEnv !! name.
Proof.
  unfold overridden, applyCustomEnvVars. simpl.
  destruct custom as [entries|]; [|done].
  revert shellEnv. induction entries as [|[k v] entries IH]; intros shellEnv Hnot;
    [done|].
  cbn [foldl]. simpl.
  rewrite filter_cons in Hnot. simpl in Hnot.
  destruct (String.eqb_spec v "") as [->|Hv].
  - rewrite decide_False in Hnot by (intros H; by apply H).
    by apply IH.
  - rewrite decide_True in Hnot by done.
    rewrite fmap_cons in Hnot. simpl in Hnot.
    apply not_elem_of_cons in Hnot as [Hne Hnot].
    rewrite IH by done. by apply assignVar_other.
Qed.




End ProcessSpawnerFacts.

(** ** The run handler and the running flag *)

Module ViewFacts.
Import NoteContextManager View.

Example trim_both_ends : trim "  two words
" = "two words".
Proof. reflexivity. Qed.

(** Without a prompt the run handler starts nothing. *)
Example run_needs_prompt :
  out_effects (handleRunClaudeCode (sampleUI "   ")
                 (create sampleSettings "contexts"))
  = [Notice "notice.enterPrompt"].
Proof. vm_compute. reflexivity. Qed.

Lemma getContext_existing (key : string) (this : manager) (context : NoteContext) :
  contexts this !! key = Some context ->
  getContext key this = (context, this).
Proof. unfold getContext. by intros ->. Qed.

Lemma getContext_lookup (key : string) (this : manager) :
  contexts (getContext key this).2 !! key = Some (getContext key this).1.
Proof.
  unfold getContext. destruct (contexts this !! key) eqn:Hk; simpl; [done|].
  apply lookup_insert_eq.
Qed.

Lemma flag_getContext (key k : string) (this : manager) :
  flag key (getContext k this).2 = flag key this.
Proof.
  unfold flag, getContext.
  destruct (contexts this !! k) eqn:Hk; simpl; [done|].
  destruct (decide (k = key)) as [->|Hne].
  - by rewrite lookup_insert_eq, Hk.
  - by rewrite lookup_insert_ne.
Qed.

Lemma flag_held (k : string) (this : manager) :
  flag k (getContext k this).2 = isRunning (getContext k this).1.
Proof. unfold flag. by rewrite getContext_lookup. Qed.

Lemma has_getContext (key k : string) (this : manager) :
  has key (getContext k this).2 = has key this || bool_decide (key = k).
Proof.
  unfold has, getContext.
  destruct (contexts this !! k) eqn:Hk; simpl.
  - case_bool_decide as Hkey; simpl; [done|].
    case_bool_decide as Heq; [|done]. subst. by destruct Hkey.
  - destruct (decide (k = key)) as [->|Hne].
    + rewrite lookup_insert_eq, Hk.
      rewrite (bool_decide_eq_true_2 (key = key)) by done.
      rewrite orb_true_r. by apply bool_decide_eq_true_2.
    + rewrite lookup_insert_ne by done.
      rewrite (bool_decide_eq_false_2 (key = k)) by congruence.
      by rewrite orb_false_r.
Qed.

(** Assignments that leave the flag alone. *)
Lemma flag_assign (key k : string) (f : NoteContext -> NoteContext)
    (this : manager) :
  (forall context, isRunning (f context) = isRunning context) ->
  flag key (assign k f this) = flag key this.
Proof.
  intros Hf. unfold flag, assign. simpl. rewrite lookup_alter.
  case_decide; [|done]. subst.
  destruct (contexts this !! key); simpl; [apply Hf|done].
Qed.

Lemma has_assign (key k : string) (f : NoteContext -> NoteContext)
    (this : manager) :
  has key (assign k f this) = has key this.
Proof.
  unfold has, assign. simpl. rewrite lookup_alter.
  case_decide; [|done]. subst.
  by destruct (contexts this !! key).
Qed.

Lemma flag_update (key k : string) (f : NoteContext -> NoteContext)
    (this : manager) :
  (forall context, isRunning (f context) = isRunning context) ->
  flag key (update k f this) = flag key this.
Proof.
  intros Hf. unfold update.
  pose proof (flag_getContext key k this) as Hflag.
  pose proof (getContext_lookup k this) as Hlook.
  destruct (getContext k this) as [context this1]. simpl in *.
  rewrite <- Hflag. unfold flag. simpl.
  destruct (decide (k = key)) as [->|Hne].
  - by rewrite lookup_insert_eq, Hlook, Hf.
  - by rewrite lookup_insert_ne.
Qed.

Lemma has_update (key k : string) (f : NoteContext -> NoteContext)
    (this : manager) :
  has key (update k f this) = has key this || bool_decide (key = k).
Proof.
  unfold update.
  pose proof (has_getContext key k this) as Hhas.
  pose proof (getContext_lookup k this) as Hlook.
  destruct (getContext k this) as [context this1]. simpl in *.
  rewrite <- Hhas. unfold has. simpl.
  destruct (decide (k = key)) as [->|Hne].
  - rewrite lookup_insert_eq, Hlook. by rewrite !bool_decide_eq_true_2.
  - by rewrite lookup_insert_ne.
Qed.

(** Raising the flag of a context that exists. *)
Lemma flag_raise (key k : string) (this : manager) :
  flag key (assign k (set_isRunning true) this)
  = if decide (key = k) then has k this else flag key this.
Proof.
  unfold flag, has, assign. simpl. rewrite lookup_alter.
  destruct (decide (key = k)) as [->|Hne].
  - rewrite decide_True by done.
    by destruct (contexts this !! k).
  - by rewrite decide_False by congruence.
Qed.

(** Lowering the flag, whatever else is assigned with it. *)
Lemma flag_lower (key k : string) (f : NoteContext -> NoteContext)
    (this : manager) :
  (forall context, isRunning (f context) = false) ->
  flag key (assign k f this)
  = if decide (key = k) then false else flag key this.
Proof.
  intros Hf. unfold flag, assign. simpl. rewrite lookup_alter.
  destruct (decide (key = k)) as [->|Hne].
  - rewrite decide_True by done.
    destruct (contexts this !! k); simpl; [apply Hf|done].
  - by rewrite decide_False by congruence.
Qed.

Lemma flag_updateCurrentNoteLabel (key : string) (ui : UI) (this : manager) :
  flag key (updateCurrentNoteLabel ui this) = flag key this.
Proof.
  unfold updateCurrentNoteLabel.
  repeat case_match; rewrite ?flag_getContext; done.
Qed.

Lemma has_updateCurrentNoteLabel (key : string) (ui : UI) (this : manager) :
  has key this = true -> has key (updateCurrentNoteLabel ui this) = true.
Proof.
  unfold updateCurrentNoteLabel. intros Hhas.
  repeat case_match; rewrite ?has_getContext, ?Hhas; done.
Qed.

Lemma flag_hidePreview (key : string) (ui : UI) (this : manager) :
  flag key (hidePreview ui this) = flag key this.
Proof. unfold hidePreview. by apply flag_update. Qed.

Lemma flag_showLastPrompt (key prompt : string) (ui : UI) (this : manager) :
  flag key (showLastPrompt prompt ui this) = flag key this.
Proof. unfold showLastPrompt. by apply flag_update. Qed.

Lemma flag_startElapsedTimeTracking (key base : string) (ui : UI)
    (this : manager) :
  flag key (startElapsedTimeTracking base ui this) = flag key this.
Proof. unfold startElapsedTimeTracking. by apply flag_update. Qed.

Lemma flag_showPreview (key modified forNotePath : string) (ui : UI)
    (this : manager) :
  flag key (showPreview modified forNotePath ui this) = flag key this.
Proof. unfold showPreview. by apply flag_update. Qed.

Lemma flag_appendOutputToNote (key notePath text : string)
    (isStreaming : streaming) (isAssistantMessage : bool)
    (activity : option AgentStep) (this : manager) :
  flag key (appendOutputToNote notePath text isStreaming isAssistantMessage
              activity this) = flag key this.
Proof.
  unfold appendOutputToNote. apply flag_update. intros context.
  destruct isStreaming, isAssistantMessage, activity; reflexivity.
Qed.

Lemma has_update_keeps (key k : string) (f : NoteContext -> NoteContext)
    (this : manager) :
  has key this = true -> has key (update k f this) = true.
Proof. intros Hhas. by rewrite has_update, Hhas. Qed.

Lemma has_held (k : string) (this : manager) :
  has k (getContext k this).2 = true.
Proof. rewrite has_getContext. rewrite (bool_decide_eq_true_2 (k = k)) by done.
       apply orb_true_r. Qed.

(** Rewriting the flag of a key through the writes of a handler. *)
Ltac flag_through :=
  repeat first
    [ rewrite flag_updateCurrentNoteLabel
    | rewrite flag_hidePreview
    | rewrite flag_showLastPrompt
    | rewrite flag_startElapsedTimeTracking
    | rewrite flag_showPreview
    | rewrite flag_appendOutputToNote
    | rewrite flag_getContext
    | rewrite flag_assign by (intros; reflexivity) ].

Ltac has_through :=
  repeat first
    [ apply has_updateCurrentNoteLabel
    | apply has_update_keeps
    | rewrite has_assign ].

(** What the run handler does to the flags: it raises the flag of the
    context it holds when it starts a run, which it does only when that
    flag is down, and it changes no other flag. *)
Lemma handleRunClaudeCode_flags (ui : UI) (this : manager) (key : string) :
  let out := handleRunClaudeCode ui this in
  match out_pending out with
  | Some run =>
      run_context run = currentNotePath ui
      /\ flag (currentNotePath ui) this = false
      /\ flag key (out_manager out)
         = if decide (key = currentNotePath ui) then true else flag key this
  | None => flag key (out_manager out) = flag key this
  end.
Proof.
  intros out. subst out.
  set (P := fun out : Outcome =>
    match out_pending out with
    | Some run =>
        run_context run = currentNotePath ui
        /\ flag (currentNotePath ui) this = false
        /\ flag key (out_manager out)
           = if decide (key = currentNotePath ui) then true else flag key this
    | None => flag key (out_manager out) = flag key this
    end).
  change (P (handleRunClaudeCode ui this)).
  unfold handleRunClaudeCode.
  pose proof (flag_held (currentNotePath ui) this) as Hheld.
  pose proof (flag_getContext key (currentNotePath ui) this) as Hflag.
  pose proof (flag_getContext (currentNotePath ui) (currentNotePath ui) this)
    as Hflag'.
  pose proof (has_held (currentNotePath ui) this) as Hhas.
  destruct (getContext (currentNotePath ui) this) as [context this1].
  simpl in Hheld, Hflag, Hflag', Hhas.
  destruct (isRunning context) eqn:Hrun; [exact Hflag|].
  cbv zeta.
  repeat case_match; subst P; cbn beta; simpl; try exact Hflag;
    (split; [reflexivity|]); (split; [congruence|]);
    flag_through; rewrite flag_raise;
    (case_decide; [|by flag_through]);
    unfold hidePreview, showLastPrompt, startElapsedTimeTracking;
    has_through; exact Hhas.
Qed.

Lemma flag_resume (key : string) (run : PendingRun)
    (response : ClaudeCodeResponse) (ui : UI) (this : manager) :
  flag key (resume run response ui this).1
  = if decide (key = run_context run) then false else flag key this.
Proof.
  unfold resume. cbv zeta.
  assert (Hlower : forall m,
    flag key (assign (run_context run)
                (fun context =>
                   set_baseStatusMessage None
                     (set_executionStartTime None
                        (set_currentResponse (Some response)
                           (set_isRunning false context)))) m)
    = if decide (key = run_context run) then false else flag key m)
    by (intros m; by apply flag_lower).
  repeat case_match; simplify_eq; simpl; flag_through; apply Hlower.
Qed.

Lemma flag_abandon (key : string) (run : PendingRun) (this : manager) :
  flag key (abandon run this)
  = match run_kind run with
    | Regular => if decide (key = run_context run) then false
                 else flag key this
    | Approval => flag key this
    end.
Proof.
  unfold abandon. destruct (run_kind run); [|done]. by apply flag_lower.
Qed.

(** Taking one run out of the list takes one out of its context's count. *)
Lemma holding_delete (key : string) (runs : list PendingRun) :
  forall (i : nat) (run : PendingRun),
  runs !! i = Some run ->
  holding key runs
  = holding key (delete i runs)
    + (if decide (run_context run = key) then 1 else 0).
Proof.
  induction runs as [|r runs IH]; intros [|i] run Hi; try done.
  - injection Hi as ->. unfold holding. simpl. rewrite filter_cons.
    case_decide; simpl; [by rewrite Nat.add_1_r | by rewrite Nat.add_0_r].
  - simpl in Hi. change (delete (S i) (r :: runs)) with (r :: delete i runs).
    specialize (IH i run Hi). unfold holding in *.
    rewrite !filter_cons.
    destruct (decide (run_context r = key)); cbn [length]; by rewrite IH.
Qed.

Lemma holding_started (key : string) (out : Outcome)
    (runs : list PendingRun) :
  inFlight key (started out runs)
  = holding key runs
    + match out_pending out with
      | Some run => if decide (run_context run = key) then 1 else 0
      | None => 0
      end.
Proof.
  unfold inFlight, holding, started. simpl. rewrite filter_app, length_app.
  destruct (out_pending out) as [run|]; [|done].
  rewrite filter_cons. by case_decide.
Qed.

(** The flags keep covering the runs in flight through every turn that is
    a run request, a line, or the end of a run. *)
Lemma step_flagged (s : state) (e : event) :
  gated e = true -> flagged s -> flagged (step s e).
Proof.
  intros Hgated Hinv key. specialize (Hinv key). unfold inFlight in Hinv.
  destruct e as [ui|ui|ui|i text isStreaming isAssistant activity
                |i response ui|i]; try discriminate; simpl.
  - rewrite holding_started.
    pose proof (handleRunClaudeCode_flags ui (st_manager s) key) as Hrun.
    cbv zeta in Hrun.
    destruct (out_pending (handleRunClaudeCode ui (st_manager s))) as [run|].
    + destruct Hrun as (Hctx & Hdown & Hflag).
      unfold started. simpl. rewrite Hflag, Hctx.
      destruct (decide (key = currentNotePath ui)) as [->|Hne].
      * rewrite decide_True by done. rewrite Hdown in Hinv. simpl in *. lia.
      * rewrite decide_False by congruence. lia.
    + unfold started. simpl. rewrite Hrun. lia.
  - destruct (st_inflight s !! i) as [run|]; [|exact Hinv].
    unfold inFlight. simpl. by rewrite flag_appendOutputToNote.
  - destruct (st_inflight s !! i) as [run|] eqn:Hi; [|exact Hinv].
    unfold inFlight. simpl. rewrite flag_resume.
    rewrite (holding_delete key _ i run Hi) in Hinv.
    destruct (decide (key = run_context run)) as [->|Hne].
    + rewrite decide_True in Hinv by done.
      destruct (flag (run_context run) (st_manager s)); simpl in *; lia.
    + lia.
  - destruct (st_inflight s !! i) as [run|] eqn:Hi; [|exact Hinv].
    unfold inFlight. simpl. rewrite flag_abandon.
    rewrite (holding_delete key _ i run Hi) in Hinv.
    destruct (run_kind run); [|lia].
    destruct (decide (key = run_context run)) as [->|Hne].
    + rewrite decide_True in Hinv by done.
      destruct (flag (run_context run) (st_manager s)); simpl in *; lia.
    + lia.
Qed.

Lemma trace_flagged (trace : list event) : forall s : state,
  forallb gated trace = true -> flagged s -> flagged (foldl step s trace).
Proof.
  induction trace as [|e trace IH]; intros s Hgated Hinv; [exact Hinv|].
  simpl in Hgated. apply andb_true_iff in Hgated as [He Htrace].
  simpl. apply IH; [exact Htrace|]. by apply step_flagged.
Qed.

(** The gate of the run handler.  A click on Run for a context whose
    running flag is set is answered with the "already processing" notice
    and nothing else: no run is started, and the view and the manager,
    with all its contexts, are as before.  Hence, as long as runs are
    started by the run handler and end by their own completion (resolved
    or rejected), no context has more than one run in flight. *)
Theorem run_gate :
  (forall (ui : UI) (this : manager) (context : NoteContext),
     contexts this !! currentNotePath ui = Some context ->
     isRunning context = true ->
     handleRunClaudeCode ui this
     = mkOutcome ui this [Notice "notice.alreadyProcessing"] None)
  /\ (forall (this : manager) (trace : list event) (key : string),
        forallb gated trace = true ->
        inFlight key (runTrace this trace) <= 1).
Proof.
  split.
  - intros ui this context Hctx Hrun. unfold handleRunClaudeCode.
    rewrite (getContext_existing _ _ _ Hctx). by rewrite Hrun.
  - intros this trace key Hgated.
    assert (Hinv : flagged (runTrace this trace)).
    { apply trace_flagged; [exact Hgated|].
      intros k. unfold inFlight, holding. simpl. lia. }
    specialize (Hinv key).
    destruct (flag key (st_manager (runTrace this trace))); simpl in Hinv; lia.
Qed.

Lemma run_gate_witness :
  let this := (runTrace (create sampleSettings "contexts")
                 [ClickRun (sampleUI "go")]).(st_manager) in
  handleRunClaudeCode (sampleUI "again") this
  = mkOutcome (sampleUI "again") this [Notice "notice.alreadyProcessing"] None
  /\ inFlight "note.md"
       (runTrace (create sampleSettings "contexts")
          [ClickRun (sampleUI "go"); ClickRun (sampleUI "again");
           Line 0 "text" NotStreaming false None]) <= 1.
Proof.
  intros this. destruct run_gate as [Hreject Hone]. split.
  - eapply Hreject; vm_compute; reflexivity.
  - apply Hone. reflexivity.
Defined.

(** C1 against the approval handler.  On [note.md], a first run ends with
    a permission request (which brings up the approval buttons), a second
    run is requested and is in flight with the context's flag up, and the
    approval button is clicked.  The run handler would answer "already
    processing" in that state; the approval handler gives no such notice
    and calls the runner again, so the context has two runs in flight and
    the at-most-one sentence fails. *)
Theorem approve_bypasses_gate :
  let s := runTrace (create sampleSettings "contexts") beforeApproval in
  flag "note.md" (st_manager s) = true
  /\ inFlight "note.md" s = 1
  /\ out_effects (handleRunClaudeCode (sampleUI "again") (st_manager s))
     = [Notice "notice.alreadyProcessing"]
  /\ (exists request,
        out_effects (handleApprovePermission (sampleUI "") (st_manager s))
        = [RunnerRun "note.md" request])
  /\ inFlight "note.md" (step s (ClickApprove (sampleUI ""))) = 2
  /\ ~ atMostOneInFlight.
Proof.
  assert (Htwo :
    inFlight "note.md"
      (runTrace (create sampleSettings "contexts")
         (beforeApproval ++ [ClickApprove (sampleUI "")])) = 2)
    by (vm_compute; reflexivity).
  cbv zeta.
  split; [vm_compute; reflexivity|].
  split; [vm_compute; reflexivity|].
  split; [vm_compute; reflexivity|].
  split; [eexists; vm_compute; reflexivity|].
  split; [vm_compute; reflexivity|].
  intros Hone.
  specialize (Hone (create sampleSettings "contexts")
                (beforeApproval ++ [ClickApprove (sampleUI "")]) "note.md").
  rewrite Htwo in Hone. lia.
Qed.

(** After a cancellation the flag is down while the handler of the
    cancelled run is still suspended at its [await]; a new request then
    passes the gate. *)
Remark rerun_after_cancel :
  let s := runTrace (create sampleSettings "contexts")
             [ClickRun (sampleUI "go"); ClickCancel (sampleUI "")] in
  flag "note.md" (st_manager s) = false
  /\ length (st_inflight s) = 1
  /\ length (st_inflight (step s (ClickRun (sampleUI "again")))) = 2.
Proof.
  cbv zeta. split; [vm_compute; reflexivity|].
  split; vm_compute; reflexivity.
Qed.

End ViewFacts.

(** ** More on the adapters *)

Module AdapterRunFacts.
Import AdapterRuns.

(** Running the result monad in a hypothesis that fixes the answer. *)
Ltac answer H :=
  unfold mret, result_ret, mbind, result_bind, fmap, result_fmap in H;
  simpl in H; simplify_eq; simpl.

Lemma get_readable (v : value) (k : string) :
  readable v = true -> get v k = Ok (get_opt v k).
Proof. by destruct v. Qed.

Lemma truthy_readable (v : value) : truthy v = true -> readable v = true.
Proof. by destruct v. Qed.

(** X1.  The OpenCode adapter reads no property of a value it has not
    tested: on every decoded line other than [null] (objects of any shape,
    arrays, strings, numbers, booleans) [parseEvent] returns an event or
    null and does not throw, whatever the adapter's state. *)
Theorem opencode_parseEvent_total
    (this : OpenCode.OpenCodeBackend) (rawEvent : value) :
  readable rawEvent = true ->
  exists answer, fst (OpenCode.parseEvent this rawEvent) = Ok answer.
Proof.
  intros Hread. unfold OpenCode.parseEvent.
  rewrite (get_readable _ _ Hread).
  destruct (is_str _ "step_start").
  { unfold OpenCode.parseStepStartEvent.
    destruct (negb _); simpl; [|by eexists].
    rewrite (get_readable _ _ Hread). by eexists. }
  destruct (is_str _ "text").
  { unfold OpenCode.parseTextEvent. simpl.
    rewrite !(get_readable _ _ Hread). cbn [mbind result_bind].
    destruct (negb _); simpl; by eexists. }
  destruct (is_str _ "tool_use").
  { unfold OpenCode.parseToolUseEvent. simpl.
    rewrite !(get_readable _ _ Hread). cbn [mbind result_bind].
    destruct (truthy (get_opt rawEvent "part")) eqn:Hpart; simpl; [|by eexists].
    rewrite !(get_readable _ _ (truthy_readable _ Hpart)).
    cbn [mbind result_bind].
    destruct (truthy (get_opt (get_opt rawEvent "part") "state")) eqn:Hstate;
      simpl; [|by eexists].
    rewrite !(get_readable _ _ (truthy_readable _ Hstate)).
    cbn [mbind result_bind].
    destruct (is_str _ "completed"); simpl; by eexists. }
  destruct (is_str _ "step_finish"); [|by eexists].
  unfold OpenCode.parseStepFinishEvent. simpl.
  rewrite !(get_readable _ _ Hread). cbn [mbind result_bind].
  destruct (truthy (get_opt (get_opt rawEvent "part") "tokens")) eqn:Htok.
  - rewrite !(get_readable _ _ (truthy_readable _ Htok)). simpl. by eexists.
  - simpl. by eexists.
Qed.

Lemma opencode_parseEvent_total_witness :
  exists answer,
    fst (OpenCode.parseEvent OpenCode.create
           (JObj [("type", JStr "tool_use"); ("part", JNum 7)])) = Ok answer.
Proof.
  apply (opencode_parseEvent_total OpenCode.create
           (JObj [("type", JStr "tool_use"); ("part", JNum 7)])).
  reflexivity.
Defined.

(** X2.  The Claude adapter can throw on assistant lines only (a content
    that cannot be iterated, a null block): on every decoded line other
    than [null] whose [type] is not ["assistant"], [parseEvent] returns an
    event or null. *)
Theorem claude_parseEvent_throws_on_assistant_only
    (JSON_stringify : value -> value) (rawEvent : value) :
  readable rawEvent = true ->
  is_str (get_opt rawEvent "type") "assistant" = false ->
  exists answer, Claude.parseEvent JSON_stringify rawEvent = Ok answer.
Proof.
  intros Hread Hty. unfold Claude.parseEvent.
  rewrite (get_readable _ _ Hread). cbn [mbind result_bind]. rewrite Hty.
  destruct (is_str _ "system").
  { unfold Claude.parseSystemEvent.
    rewrite !(get_readable _ _ Hread). cbn [mbind result_bind].
    destruct (is_str _ "init"); by eexists. }
  destruct (is_str _ "tool_use").
  { unfold Claude.parseToolUseEvent.
    rewrite !(get_readable _ _ Hread). cbn [mbind result_bind].
    destruct (_ && _); [by eexists|].
    destruct (is_str _ "result"); by eexists. }
  destruct (is_str _ "result").
  { unfold Claude.parseResultEvent.
    rewrite !(get_readable _ _ Hread). cbn [mbind result_bind].
    destruct (truthy (get_opt rawEvent "usage")) eqn:Husage.
    - rewrite !(get_readable _ _ (truthy_readable _ Husage)). by eexists.
    - by eexists. }
  destruct (is_str _ "stream_event"); [|by eexists].
  unfold Claude.parseStreamEvent.
  rewrite !(get_readable _ _ Hread). cbn [mbind result_bind].
  destruct (truthy (get_opt rawEvent "event")) eqn:Hev; simpl; [|by eexists].
  rewrite !(get_readable _ _ (truthy_readable _ Hev)). cbn [mbind result_bind].
  repeat (case_match; try by eexists).
Qed.

Lemma claude_parseEvent_throws_on_assistant_only_witness :
  exists answer,
    Claude.parseEvent (fun _ => JUndefined)
      (JObj [("type", JStr "result"); ("usage", JArr [])]) = Ok answer.
Proof.
  apply (claude_parseEvent_throws_on_assistant_only (fun _ => JUndefined)
           (JObj [("type", JStr "result"); ("usage", JArr [])]));
    reflexivity.
Defined.

(** One call: an [init] answer needs the flag down and raises it, and a
    raised flag stays up. *)
Lemma opencode_parseEvent_init
    (this : OpenCode.OpenCodeBackend) (rawEvent : value) :
  (isInit (fst (OpenCode.parseEvent this rawEvent)) = true ->
   OpenCode.hasSeenInit this = false
   /\ OpenCode.hasSeenInit (snd (OpenCode.parseEvent this rawEvent)) = true)
  /\ (OpenCode.hasSeenInit this = true ->
      OpenCode.hasSeenInit (snd (OpenCode.parseEvent this rawEvent)) = true).
Proof.
  unfold OpenCode.parseEvent.
  destruct (get rawEvent "type") as [ty|]; [|by split].
  destruct (is_str ty "step_start").
  { unfold OpenCode.parseStepStartEvent.
    destruct (OpenCode.hasSeenInit this) eqn:Hseen; simpl; rewrite ?Hseen;
      by split. }
  destruct (is_str ty "text").
  { simpl. split; [|done]. unfold OpenCode.parseTextEvent.
    destruct (get rawEvent "part"); simpl; [|done].
    destruct (negb _); simpl; [done|].
    destruct (get rawEvent "sessionID"); done. }
  destruct (is_str ty "tool_use").
  { simpl. split; [|done]. unfold OpenCode.parseToolUseEvent.
    repeat (first [ destruct (get _ _); cbn [mbind result_bind]
                  | destruct (negb _) | destruct (is_str _ _) ];
            simpl; try done). }
  destruct (is_str ty "step_finish"); [|by split].
  simpl. split; [|done]. unfold OpenCode.parseStepFinishEvent.
  repeat (first [ destruct (get _ _); cbn [mbind result_bind]
                | destruct (truthy _) ]; simpl; try done).
Qed.

Lemma opencode_initCount_bound (rawEvents : list value) :
  forall this : OpenCode.OpenCodeBackend,
  initCount (fst (OpenCode.parseAll this rawEvents))
  <= (if OpenCode.hasSeenInit this then 0 else 1).
Proof.
  induction rawEvents as [|ev rest IH]; intros this; simpl.
  - destruct (OpenCode.hasSeenInit this); lia.
  - pose proof (opencode_parseEvent_init this ev) as [Hinit Hkeep].
    destruct (OpenCode.parseEvent this ev) as [r this1]. simpl in *.
    specialize (IH this1).
    destruct (OpenCode.parseAll this1 rest) as [rs this2]. simpl in *.
    destruct (isInit r).
    + destruct (Hinit eq_refl) as [Hdown Hup]. rewrite Hdown.
      rewrite Hup in IH. lia.
    + destruct (OpenCode.hasSeenInit this) eqn:Hseen.
      * rewrite (Hkeep eq_refl) in IH. lia.
      * destruct (OpenCode.hasSeenInit this1); lia.
Qed.

(** X3.  Whatever lines a run brings after [reset()] (malformed and
    throwing ones included), the OpenCode adapter answers with at most one
    [init] event over the whole run. *)
Theorem opencode_at_most_one_init
    (this : OpenCode.OpenCodeBackend) (rawEvents : list value) :
  initCount (fst (OpenCode.parseAll (OpenCode.reset this) rawEvents)) <= 1.
Proof. apply (opencode_initCount_bound rawEvents (OpenCode.reset this)). Qed.

(** X4.  The OpenCode mapping, read off an answer.  Every event the
    adapter returns has one of five tags, fixed by the line's [type]: a
    [text] event comes from a [text] line, always carries the streaming
    flag and a non-empty text; a tool event comes from a [tool_use] line,
    is a [tool_result] exactly when the part's state has status
    ["completed"], and always names a tool (["unknown"] by default);
    [step_complete] comes from [step_finish] and [init] from
    [step_start].  The adapter never returns [thinking], [error] or block
    events. *)
Theorem opencode_mapping
    (this this' : OpenCode.OpenCodeBackend) (rawEvent : value)
    (e : StandardEvent) :
  OpenCode.parseEvent this rawEvent = (Ok (Some e), this') ->
  let ty := get_opt rawEvent "type" in
  let part := get_opt rawEvent "part" in
  match type e with
  | init => is_str ty "step_start" = true
  | text_ =>
      is_str ty "text" = true
      /\ isStreaming e = JBool true
      /\ text e = get_opt part "text" /\ truthy (text e) = true
  | tool_start =>
      is_str ty "tool_use" = true
      /\ is_str (get_opt (get_opt part "state") "status") "completed" = false
      /\ truthy (toolName e) = true
  | tool_result =>
      is_str ty "tool_use" = true
      /\ is_str (get_opt (get_opt part "state") "status") "completed" = true
      /\ truthy (toolName e) = true
  | step_complete => is_str ty "step_finish" = true
  | thinking | error | block_start | block_end => False
  end.
Proof.
  intros Hparse. cbv zeta. unfold OpenCode.parseEvent in Hparse.
  destruct (readable rawEvent) eqn:Hread; [|by destruct rawEvent].
  rewrite (get_readable _ _ Hread) in Hparse.
  assert (Hname : forall v, truthy (or_else v (JStr "unknown")) = true).
  { intros v. unfold or_else. by destruct (truthy v) eqn:Hv. }
  destruct (is_str _ "step_start") eqn:H1.
  { unfold OpenCode.parseStepStartEvent in Hparse.
    destruct (negb _); [|done].
    rewrite (get_readable _ _ Hread) in Hparse. answer Hparse; by rewrite ?H1, ?H2, ?H3, ?H4. }
  destruct (is_str _ "text") eqn:H2.
  { unfold OpenCode.parseTextEvent in Hparse.
    rewrite !(get_readable _ _ Hread) in Hparse. cbn [mbind result_bind] in Hparse.
    destruct (truthy (get_opt (get_opt rawEvent "part") "text")) eqn:Htext;
      simpl in Hparse; [|done].
    answer Hparse; by rewrite ?H1, ?H2, ?H3, ?H4. }
  destruct (is_str _ "tool_use") eqn:H3.
  { unfold OpenCode.parseToolUseEvent in Hparse.
    rewrite !(get_readable _ _ Hread) in Hparse. cbn [mbind result_bind] in Hparse.
    destruct (truthy (get_opt rawEvent "part")) eqn:Hpart; simpl in Hparse;
      [|done].
    rewrite !(get_readable _ _ (truthy_readable _ Hpart)) in Hparse.
    cbn [mbind result_bind] in Hparse.
    destruct (truthy (get_opt (get_opt rawEvent "part") "state")) eqn:Hstate;
      simpl in Hparse.
    - rewrite !(get_readable _ _ (truthy_readable _ Hstate)) in Hparse.
      cbn [mbind result_bind] in Hparse.
      destruct (is_str _ "completed") eqn:Hdone; answer Hparse;
        by rewrite Hname.
    - answer Hparse. rewrite Hname. repeat split.
      by destruct (get_opt (get_opt rawEvent "part") "state"). }
  destruct (is_str _ "step_finish") eqn:H4; [|done].
  unfold OpenCode.parseStepFinishEvent in Hparse.
  rewrite !(get_readable _ _ Hread) in Hparse. cbn [mbind result_bind] in Hparse.
  destruct (truthy (get_opt (get_opt rawEvent "part") "tokens")) eqn:Htok.
  - rewrite !(get_readable _ _ (truthy_readable _ Htok)) in Hparse.
    answer Hparse; by rewrite ?H1, ?H2, ?H3, ?H4.
  - answer Hparse; by rewrite ?H1, ?H2, ?H3, ?H4.
Qed.

Lemma opencode_mapping_witness :
  is_str (JStr "tool_use") "tool_use" = true
  /\ is_str (JStr "completed") "completed" = true
  /\ truthy (JStr "unknown") = true.
Proof.
  exact (opencode_mapping OpenCode.create OpenCode.create
           (JObj [("type", JStr "tool_use");
                  ("part", JObj [("state", JObj [("status", JStr "completed")])])])
           (with_sessionId JUndefined
              (with_toolOutput JUndefined
                 (with_toolInput JUndefined
                    (with_toolName (JStr "unknown") (Events.event tool_result)))))
           eq_refl).
Defined.

(** X5.  [extractSessionId] of the Claude adapter returns either [null]
    or a non-empty id, and an id only for the line that [parseEvent] turns
    into the [init] event carrying that same id. *)
Theorem claude_session_id_is_init
    (JSON_stringify : value -> value) (rawEvent : value) :
  readable rawEvent = true ->
  exists sid,
    Claude.extractSessionId rawEvent = Ok sid
    /\ (sid = JNull \/ truthy sid = true)
    /\ (sid <> JNull ->
        exists e, Claude.parseEvent JSON_stringify rawEvent = Ok (Some e)
                  /\ type e = init /\ Events.sessionId e = sid).
Proof.
  intros Hread. unfold Claude.extractSessionId, Claude.parseEvent.
  rewrite !(get_readable _ _ Hread). cbn [mbind result_bind].
  destruct (is_str (get_opt rawEvent "type") "system") eqn:Hsys; simpl.
  - unfold Claude.parseSystemEvent.
    rewrite !(get_readable _ _ Hread). cbn [mbind result_bind].
    destruct (is_str (get_opt rawEvent "subtype") "init"); simpl.
    + unfold or_else.
      destruct (truthy (get_opt rawEvent "session_id")) eqn:Hsid.
      * eexists. split; [done|]. split; [by right|].
        intros _. eexists. by repeat split.
      * eexists. split; [done|]. split; [by left|]. done.
    + eexists. split; [done|]. split; [by left|]. done.
  - eexists. split; [done|]. split; [by left|]. done.
Qed.

Lemma claude_session_id_is_init_witness :
  exists sid,
    Claude.extractSessionId
      (JObj [("type", JStr "system"); ("subtype", JStr "init");
             ("session_id", JStr "s-1")]) = Ok sid
    /\ (sid = JNull \/ truthy sid = true)
    /\ (sid <> JNull ->
        exists e, Claude.parseEvent (fun _ => JUndefined)
                    (JObj [("type", JStr "system"); ("subtype", JStr "init");
                           ("session_id", JStr "s-1")]) = Ok (Some e)
                  /\ type e = init /\ Events.sessionId e = sid).
Proof.
  apply (claude_session_id_is_init (fun _ => JUndefined)). reflexivity.
Defined.

(** X6.  [extractSessionId] of the OpenCode adapter looks at the
    top-level [sessionID] only, whatever the line's type: it returns that
    id when it is non-empty and [null] otherwise (also when the id sits in
    the part only); and the [init] event of a first [step_start] line
    carries the extracted id. *)
Theorem opencode_session_id
    (this : OpenCode.OpenCodeBackend) (rawEvent : value) :
  readable rawEvent = true ->
  let sessionID := get_opt rawEvent "sessionID" in
  OpenCode.extractSessionId rawEvent
  = Ok (if truthy sessionID then sessionID else JNull)
  /\ (truthy sessionID = true ->
      is_str (get_opt rawEvent "type") "step_start" = true ->
      exists e, fst (OpenCode.parseEvent (OpenCode.reset this) rawEvent)
                = Ok (Some e)
                /\ type e = init /\ Events.sessionId e = sessionID).
Proof.
  intros Hread. cbn zeta. unfold OpenCode.extractSessionId, OpenCode.parseEvent.
  rewrite !(get_readable _ _ Hread). cbn [mbind result_bind]. unfold or_else.
  split; [done|].
  intros Hsid ->. unfold OpenCode.parseStepStartEvent. simpl.
  rewrite (get_readable _ _ Hread). eexists. by repeat split.
Qed.

Lemma opencode_session_id_witness :
  OpenCode.extractSessionId OpenCode.line_step_start = Ok (JStr "abc")
  /\ OpenCode.extractSessionId OpenCode.line_text = Ok JNull
  /\ exists e, fst (OpenCode.parseEvent (OpenCode.reset OpenCode.create)
                      OpenCode.line_step_start) = Ok (Some e)
               /\ type e = init /\ Events.sessionId e = JStr "abc".
Proof.
  destruct (opencode_session_id OpenCode.create OpenCode.line_step_start
              eq_refl) as [Hid Hinit].
  destruct (opencode_session_id OpenCode.create OpenCode.line_text eq_refl)
    as [Hnull _].
  split; [exact Hid|]. split; [exact Hnull|].
  apply Hinit; reflexivity.
Defined.

(** What the block loop can return: an event without streaming flag,
    with a non-empty text or tool name. *)
Lemma parseContentBlocks_answer (blocks : list value) (e : StandardEvent) :
  Claude.parseContentBlocks blocks = Ok (Some e) ->
  isStreaming e = JUndefined
  /\ match type e with
     | text_ | thinking => truthy (text e) = true
     | tool_start => truthy (toolName e) = true
     | _ => False
     end.
Proof.
  induction blocks as [|block rest IH]; intros Hloop; [done|].
  cbn [Claude.parseContentBlocks] in Hloop.
  destruct (readable block) eqn:Hread; [|by destruct block].
  rewrite !(get_readable _ _ Hread) in Hloop.
  cbn [mbind result_bind] in Hloop.
  destruct (truthy (get_opt block "text")) eqn:Htext;
    destruct (is_str (get_opt block "type") "thinking");
    destruct (is_str (get_opt block "type") "text");
    simpl in Hloop; try (by answer Hloop);
    destruct (truthy (get_opt block "name")) eqn:Hname;
    destruct (is_str (get_opt block "type") "tool_use");
    simpl in Hloop; try (by apply IH); by answer Hloop.
Qed.

(** X7.  The Claude mapping, read off an answer.  [init] comes from a
    [system] line of subtype [init]; [step_complete] from a [result]
    line; block events from [stream_event] lines, a [block_start] only
    for a text or thinking block.  A [text] or [thinking] event has a
    non-empty text, and carries the streaming flag exactly when it comes
    from a [stream_event] line (from an [assistant] line it has none).  A
    tool event always names a tool.  The adapter never returns an [error]
    event. *)
Theorem claude_mapping
    (JSON_stringify : value -> value) (rawEvent : value) (e : StandardEvent) :
  Claude.parseEvent JSON_stringify rawEvent = Ok (Some e) ->
  let ty := get_opt rawEvent "type" in
  match type e with
  | init =>
      is_str ty "system" = true
      /\ is_str (get_opt rawEvent "subtype") "init" = true
  | text_ | thinking =>
      truthy (text e) = true
      /\ ((is_str ty "stream_event" = true /\ isStreaming e = JBool true)
          \/ (is_str ty "assistant" = true /\ isStreaming e = JUndefined))
  | tool_start =>
      truthy (toolName e) = true
      /\ (is_str ty "tool_use" = true \/ is_str ty "assistant" = true)
  | tool_result =>
      truthy (toolName e) = true /\ is_str ty "tool_use" = true
      /\ is_str (get_opt rawEvent "subtype") "result" = true
  | step_complete => is_str ty "result" = true
  | block_start =>
      is_str ty "stream_event" = true
      /\ (blockType e = JStr "text" \/ blockType e = JStr "thinking")
  | block_end => is_str ty "stream_event" = true
  | error => False
  end.
Proof.
  intros Hparse. cbv zeta. unfold Claude.parseEvent in Hparse.
  destruct (readable rawEvent) eqn:Hread; [|by destruct rawEvent].
  rewrite (get_readable _ _ Hread) in Hparse. cbn [mbind result_bind] in Hparse.
  assert (Hname : forall v, truthy (or_else v (JStr "unknown")) = true).
  { intros v. unfold or_else. by destruct (truthy v) eqn:Hv. }
  destruct (is_str _ "system") eqn:H1.
  { unfold Claude.parseSystemEvent in Hparse.
    rewrite !(get_readable _ _ Hread) in Hparse.
    cbn [mbind result_bind] in Hparse.
    destruct (is_str _ "init") eqn:Hinit; by answer Hparse. }
  destruct (is_str _ "assistant") eqn:H2.
  { unfold Claude.parseAssistantEvent in Hparse.
    rewrite !(get_readable _ _ Hread) in Hparse.
    cbn [mbind result_bind] in Hparse.
    destruct (negb _); [done|].
    destruct (iterate _) as [blocks|]; [|done].
    cbn [mbind result_bind] in Hparse.
    destruct (parseContentBlocks_answer _ _ Hparse) as [Hstream Hkind].
    destruct (type e); try done; split; try done; by right. }
  destruct (is_str _ "tool_use") eqn:H3.
  { unfold Claude.parseToolUseEvent in Hparse.
    rewrite !(get_readable _ _ Hread) in Hparse.
    cbn [mbind result_bind] in Hparse.
    destruct (_ && _).
    - answer Hparse. rewrite Hname. split; [done|by left].
    - destruct (is_str _ "result") eqn:Hres; answer Hparse.
      by rewrite Hname. }
  destruct (is_str _ "result") eqn:H4.
  { unfold Claude.parseResultEvent in Hparse.
    rewrite !(get_readable _ _ Hread) in Hparse.
    cbn [mbind result_bind] in Hparse.
    destruct (truthy (get_opt rawEvent "usage")) eqn:Husage.
    - rewrite !(get_readable _ _ (truthy_readable _ Husage)) in Hparse.
      by answer Hparse.
    - by answer Hparse. }
  destruct (is_str _ "stream_event") eqn:H5; [|done].
  unfold Claude.parseStreamEvent in Hparse.
  rewrite !(get_readable _ _ Hread) in Hparse.
  cbn [mbind result_bind] in Hparse.
  destruct (truthy (get_opt rawEvent "event")) eqn:Hev; simpl in Hparse; [|done].
  rewrite !(get_readable _ _ (truthy_readable _ Hev)) in Hparse.
  cbn [mbind result_bind] in Hparse.
  destruct (is_str _ "content_block_delta").
  { destruct (truthy (get_opt (get_opt (get_opt rawEvent "event") "delta") "text"))
      eqn:Htext;
      destruct (is_str _ "text_delta"); destruct (is_str _ "thinking_delta");
      answer Hparse; try done; rewrite ?Htext; split; try done; by left. }
  destruct (is_str _ "content_block_start").
  { destruct (get_opt (get_opt (get_opt rawEvent "event") "content_block") "type")
      as [| |b|q|s|xs|fs] eqn:Hblock; simpl in Hparse; try done.
    destruct (String.eqb_spec s "text") as [->|Hs1]; simpl in Hparse.
    - answer Hparse. split; [done|by left].
    - destruct (String.eqb_spec s "thinking") as [->|Hs2]; answer Hparse.
      split; [done|by right]. }
  destruct (is_str _ "content_block_stop"); by answer Hparse.
Qed.

Lemma claude_mapping_witness :
  truthy (JStr "partial") = true
  /\ ((is_str (JStr "stream_event") "stream_event" = true
       /\ JBool true = JBool true)
      \/ (is_str (JStr "stream_event") "assistant" = true
          /\ JBool true = JUndefined)).
Proof.
  exact (claude_mapping (fun _ => JUndefined)
           (JObj [("type", JStr "stream_event");
                  ("event", JObj [("type", JStr "content_block_delta");
                                  ("delta", JObj [("type", JStr "text_delta");
                                                  ("text", JStr "partial")])])])
           (with_isStreaming (JBool true)
              (with_text (JStr "partial") (Events.event text_)))
           eq_refl).
Defined.

End AdapterRunFacts.

(** ** More on the context manager *)

Module NoteContextManagerOpsFacts.
Import NoteContextManager NoteContextManagerOps.

(** X8.  [getContext] creates a context on the first access to a key and
    never again: an existing context is returned with the manager as it
    is; a created one is idle and empty, with no session id and a runner
    built on the manager's settings; in both cases a second call returns
    the same context and changes nothing, and no other key is touched. *)
Theorem getContext_lazy (notePath : string) (this : manager) :
  let '(context, this1) := getContext notePath this in
  getContext notePath this1 = (context, this1)
  /\ hasContext notePath this1 = true
  /\ (forall other, other <> notePath ->
        contexts this1 !! other = contexts this !! other)
  /\ match contexts this !! notePath with
     | Some existing => context = existing /\ this1 = this
     | None =>
         isRunning context = false /\ history context = []
         /\ outputLines context = [] /\ agentSteps context = []
         /\ sessionId context = None
         /\ runner context = mkRunner (settings this)
     end.
Proof.
  unfold getContext, hasContext.
  destruct (contexts this !! notePath) as [existing|] eqn:Hk; simpl.
  - rewrite Hk. split; [done|]. split; [by rewrite bool_decide_eq_true_2|].
    by split.
  - rewrite lookup_insert_eq. split; [done|].
    split; [by rewrite bool_decide_eq_true_2|].
    split; [|done]. intros other Hne. by rewrite lookup_insert_ne.
Qed.

Lemma getContext_lazy_witness :
  let this := create View.sampleSettings "contexts" in
  contexts (getContext "a.md" this).2 !! "b.md" = contexts this !! "b.md".
Proof.
  intros this. pose proof (getContext_lazy "a.md" this) as H.
  destruct (getContext "a.md" this) as [context this1].
  destruct H as (_ & _ & Hother & _). apply Hother. discriminate.
Defined.

Lemma running_loops (l : list (string * NoteContext)) :
  forall (running : list string) (count : nat),
  length running = count ->
  length (foldl (fun running kv => if isRunning kv.2 then running ++ [kv.1]
                                   else running) running l)
  = foldl (fun count kv => if isRunning kv.2 then S count else count) count l.
Proof.
  induction l as [|[k c] l IH]; intros running count Hlen; [done|].
  simpl. apply IH. destruct (isRunning c); [|done].
  rewrite length_app. simpl. lia.
Qed.

Lemma running_paths_elem (l : list (string * NoteContext)) (key : string) :
  forall running : list string,
  key ∈ foldl (fun running kv => if isRunning kv.2 then running ++ [kv.1]
                                 else running) running l
  <-> key ∈ running \/ exists c, (key, c) ∈ l /\ isRunning c = true.
Proof.
  induction l as [|[k c] l IH]; intros running; simpl.
  - split; [by left|]. intros [H|(c & Hin & _)]; [done|].
    by apply elem_of_nil in Hin.
  - rewrite IH. split.
    + intros [Hin|(c' & Hin & Hrun)].
      * destruct (isRunning c) eqn:Hc; [|by left].
        apply elem_of_app in Hin as [Hin|Hin]; [by left|].
        apply list_elem_of_singleton in Hin as ->. right. exists c.
        split; [apply list_elem_of_here|done].
      * right. exists c'. split; [by apply list_elem_of_further|done].
    + intros [Hin|(c' & Hin & Hrun)].
      * left. destruct (isRunning c); [|done]. apply elem_of_app. by left.
      * apply elem_of_cons in Hin as [Heq|Hin].
        -- injection Heq as -> ->. left. rewrite Hrun.
           apply elem_of_app. right. by apply list_elem_of_singleton.
        -- right. by exists c'.
Qed.

Lemma running_paths_NoDup (l : list (string * NoteContext)) :
  forall running : list string,
  NoDup (running ++ l.*1) ->
  NoDup (foldl (fun running kv => if isRunning kv.2 then running ++ [kv.1]
                                  else running) running l).
Proof.
  induction l as [|[k c] l IH]; intros running Hnodup; simpl.
  - by rewrite app_nil_r in Hnodup.
  - simpl in Hnodup. apply IH. destruct (isRunning c).
    + by rewrite <- app_assoc.
    + apply NoDup_app in Hnodup as (Hr & Hdisj & Hl).
      apply NoDup_cons in Hl as [Hk Hl].
      apply NoDup_app. split; [done|]. split; [|done].
      intros x Hx Hx'. apply (Hdisj x Hx). by apply list_elem_of_further.
Qed.

(** X9.  The two polling functions agree: [getRunningNotePaths] lists
    exactly the keys whose context has its running flag set, each once,
    and [getRunningCount] is the length of that list. *)
Theorem running_paths_and_count (this : manager) :
  countRunning this = length (getRunningNotePaths this)
  /\ NoDup (getRunningNotePaths this)
  /\ forall key : string,
       key ∈ getRunningNotePaths this
       <-> exists context, contexts this !! key = Some context
                           /\ isRunning context = true.
Proof.
  unfold countRunning, getRunningNotePaths, entries.
  split; [symmetry; by apply running_loops|].
  assert (Helem : forall key,
    key ∈ foldl (fun running kv => if isRunning kv.2 then running ++ [kv.1]
                                   else running) [] (map_to_list (contexts this))
    <-> exists context, contexts this !! key = Some context
                        /\ isRunning context = true).
  { intros key. rewrite running_paths_elem. split.
    - intros [Hin|(c & Hin & Hrun)]; [by apply elem_of_nil in Hin|].
      exists c. split; [by apply elem_of_map_to_list|done].
    - intros (c & Hk & Hrun). right. exists c.
      split; [by apply elem_of_map_to_list|done]. }
  split; [|exact Helem].
  apply running_paths_NoDup. simpl. apply NoDup_fst_map_to_list.
Qed.

Section Host.

Variable md5 : string -> string.
Variable path_join : string -> string -> string.
Variable readdirSync : gmap string contextFile -> list string.
Variable keysOf : gmap string NoteContext -> list string.
Variable runner_updateSettings :
  ClaudeCodeSettings -> ClaudeCodeRunner -> ClaudeCodeRunner.

(** X10.  [loadContexts] never brings back a running context: every
    context found in the manager afterwards is either the one that was
    there before or one rebuilt from a file, and a rebuilt one sits under
    a non-empty key, is idle and has no current request or response.  The
    manager's settings and data directory are kept, and a root without a
    contexts directory leaves the manager as it is. *)
Theorem loadContexts_restores_idle
    (vaultPath : string) (fs : disk) (this : manager) :
  let loaded := loadContexts path_join readdirSync vaultPath fs this in
  settings loaded = settings this
  /\ dataDir loaded = dataDir this
  /\ (fs !! path_join vaultPath (dataDir this) = None -> loaded = this)
  /\ forall key context,
       contexts loaded !! key = Some context ->
       contexts this !! key = Some context
       \/ (key <> "" /\ isRunning context = false
           /\ currentRequest context = None
           /\ currentResponse context = None).
Proof.
  cbv zeta. unfold loadContexts.
  destruct (fs !! path_join vaultPath (dataDir this)) as [dir|]; [|by auto].
  assert (Hfold : forall names that,
    settings (foldl (loadOne dir) that names) = settings that
    /\ dataDir (foldl (loadOne dir) that names) = dataDir that).
  { induction names as [|h names IH]; intros that; [done|]. simpl.
    destruct (IH (loadOne dir that h)) as [-> ->].
    unfold loadOne. by repeat case_match. }
  destruct (Hfold (readdirSync dir) this) as [Hs Hd].
  split; [done|]. split; [done|]. split; [done|].
  assert (Hinv : forall names that,
    (forall key c, contexts that !! key = Some c ->
       contexts this !! key = Some c
       \/ (key <> "" /\ isRunning c = false /\ currentRequest c = None
           /\ currentResponse c = None)) ->
    forall key c, contexts (foldl (loadOne dir) that names) !! key = Some c ->
       contexts this !! key = Some c
       \/ (key <> "" /\ isRunning c = false /\ currentRequest c = None
           /\ currentResponse c = None)).
  { induction names as [|h names IH]; intros that Hthat; [exact Hthat|].
    simpl. apply IH. intros key c. unfold loadOne.
    destruct (dir !! h) as [[| |data]|]; try apply Hthat.
    destruct (usablePath data) as [p|] eqn:Hp; [|apply Hthat]. simpl.
    destruct (decide (p = key)) as [->|Hne].
    - rewrite lookup_insert_eq. intros [= <-]. right. split; [|done].
      unfold usablePath in Hp. destruct (data_notePath data) as [q|]; [|done].
      destruct (String.eqb_spec q ""); [done|]. congruence.
    - rewrite lookup_insert_ne by done. apply Hthat. }
  apply Hinv. by left.
Qed.

(** X11.  [saveContext] writes one file and nothing else: the context
    file of the key's hash directory, under the contexts directory of the
    given root, holds the key and the context's durable fields, and every
    other file of the disk is as before; for a key without a context the
    disk is left as it is. *)
Theorem saveContext_writes_one_file
    (notePath vaultPath now : string) (this : manager) (fs : disk) :
  let fs' := saveContext md5 path_join notePath vaultPath now this fs in
  let contextsDir := path_join vaultPath (dataDir this) in
  match contexts this !! notePath with
  | None => fs' = fs
  | Some context =>
      (exists dir, fs' !! contextsDir = Some dir
         /\ dir !! md5 notePath
            = Some (Parsed (dataToSave notePath context now))
         /\ forall noteHash, noteHash <> md5 notePath ->
              dir !! noteHash = default ∅ (fs !! contextsDir) !! noteHash)
      /\ forall other, other <> contextsDir -> fs' !! other = fs !! other
  end.
Proof.
  cbv zeta. unfold saveContext.
  destruct (contexts this !! notePath) as [context|]; [|done].
  split.
  - eexists. split; [apply lookup_insert_eq|].
    split; [apply lookup_insert_eq|].
    intros noteHash Hne. by rewrite lookup_insert_ne.
  - intros other Hne. by rewrite lookup_insert_ne.
Qed.

(** X12.  [updateSettings] replaces the manager's settings and hands the
    new settings to the runner of every context; it changes no other field
    of any context and neither adds nor removes one.  A context created
    afterwards gets a runner built on the new settings. *)
Theorem updateSettings_broadcast
    (newSettings : ClaudeCodeSettings) (this : manager) :
  let this' := updateSettings runner_updateSettings newSettings this in
  settings this' = newSettings
  /\ dataDir this' = dataDir this
  /\ (forall key,
        contexts this' !! key
        = (fun context =>
             set_runner (runner_updateSettings newSettings (runner context))
               context) <$> contexts this !! key)
  /\ (forall key context',
        contexts this' !! key = Some context' ->
        exists context,
          contexts this !! key = Some context
          /\ runner context' = runner_updateSettings newSettings (runner context)
          /\ history context' = history context
          /\ sessionId context' = sessionId context
          /\ outputLines context' = outputLines context
          /\ agentSteps context' = agentSteps context
          /\ isRunning context' = isRunning context
          /\ currentRequest context' = currentRequest context
          /\ currentResponse context' = currentResponse context
          /\ pendingPreviewContent context' = pendingPreviewContent context
          /\ originalPreviewContent context' = originalPreviewContent context)
  /\ (forall key, contexts this !! key = None ->
        runner (getContext key this').1 = mkRunner newSettings).
Proof.
  cbv zeta. unfold updateSettings. simpl.
  split; [done|]. split; [done|].
  split; [intros key; apply lookup_fmap|]. split.
  - intros key context'. rewrite lookup_fmap.
    destruct (contexts this !! key) as [context|]; [|done].
    intros [= <-]. exists context. by repeat split.
  - intros key Hnone. unfold getContext. simpl.
    by rewrite lookup_fmap, Hnone.
Qed.

End Host.

Lemma loadContexts_restores_idle_witness :
  loadContexts (fun a b => a +:+ "/" +:+ b) (fun dir => (map_to_list dir).*1)
    "/vault" ∅ (create View.sampleSettings "contexts")
  = create View.sampleSettings "contexts".
Proof.
  apply (loadContexts_restores_idle (fun a b => a +:+ "/" +:+ b)
           (fun dir => (map_to_list dir).*1) "/vault" ∅
           (create View.sampleSettings "contexts")).
  apply lookup_empty.
Defined.

Lemma saveContext_writes_one_file_witness :
  saveContext (fun s => "h" +:+ s) (fun a b => a +:+ "/" +:+ b)
    "gone.md" "/vault" "t0" (create View.sampleSettings "contexts") ∅
  = ∅.
Proof.
  exact (saveContext_writes_one_file (fun s => "h" +:+ s)
           (fun a b => a +:+ "/" +:+ b) "gone.md" "/vault" "t0"
           (create View.sampleSettings "contexts") ∅).
Defined.

Lemma updateSettings_broadcast_witness :
  runner (getContext "new.md"
            (updateSettings (fun s _ => mkRunner s) View.sampleSettings
               (create View.sampleSettings "contexts"))).1
  = mkRunner View.sampleSettings.
Proof.
  apply (updateSettings_broadcast (fun s _ => mkRunner s) View.sampleSettings
           (create View.sampleSettings "contexts")).
  apply lookup_empty.
Defined.

Section SaveAll.

Variable md5 : string -> string.
Variable path_join : string -> string -> string.
Variable readdirSync : gmap string contextFile -> list string.
Variable keysOf : gmap string NoteContext -> list string.

(** The directory listing names every entry, and the loop over the map
    visits every key. *)
Hypothesis readdirSync_complete :
  forall (dir : gmap string contextFile) (name : string),
    is_Some (dir !! name) -> name ∈ readdirSync dir.
Hypothesis keysOf_complete :
  forall (m : gmap string NoteContext) (key : string),
    is_Some (m !! key) -> key ∈ keysOf m.

Lemma saveContext_keeps_layout
    (key notePath vaultPath now : string) (this : manager) (fs : disk) :
  recordedUnderHashOnly md5 key
    (default ∅ (fs !! path_join vaultPath (dataDir this))) ->
  recordedUnderHashOnly md5 key
    (default ∅ (saveContext md5 path_join notePath vaultPath now this fs
                  !! path_join vaultPath (dataDir this))).
Proof.
  intros Hfiled. unfold saveContext.
  destruct (contexts this !! notePath) as [context|]; [|done].
  cbv zeta. rewrite lookup_insert_eq. simpl. intros h d Hh Hd.
  destruct (decide (h = md5 notePath)) as [->|Hne].
  - rewrite lookup_insert_eq in Hh. injection Hh as <-. simpl in Hd. congruence.
  - rewrite lookup_insert_ne in Hh by done. by apply (Hfiled h d).
Qed.

(** After the loop, no stale copy of the key has appeared and every
    visited key has its file, provided no two keys of the manager share a
    hash. *)
Lemma saveAll_files (vaultPath : string) (now : string -> string)
    (this : manager) (key : string) (keys : list string) :
  (forall k1 k2, is_Some (contexts this !! k1) ->
     is_Some (contexts this !! k2) -> md5 k1 = md5 k2 -> k1 = k2) ->
  forall fs : disk,
  recordedUnderHashOnly md5 key
    (default ∅ (fs !! path_join vaultPath (dataDir this))) ->
  let fs' :=
    foldl (fun fs notePath =>
             saveContext md5 path_join notePath vaultPath (now notePath) this fs)
          fs keys in
  recordedUnderHashOnly md5 key
    (default ∅ (fs' !! path_join vaultPath (dataDir this)))
  /\ forall k saved,
       contexts this !! k = Some saved -> k ∈ keys ->
       default ∅ (fs' !! path_join vaultPath (dataDir this)) !! md5 k
       = Some (Parsed (dataToSave k saved (now k))).
Proof.
  intros Hinj. induction keys as [|x keys IH] using rev_ind; intros fs Hfiled.
  - simpl. split; [done|]. intros k saved _ Hin. by apply elem_of_nil in Hin.
  - cbv zeta. rewrite foldl_app. simpl.
    destruct (IH fs Hfiled) as [Hlayout Hfiles]. cbv zeta in Hlayout, Hfiles.
    set (fs1 := foldl _ fs keys) in *.
    split; [by apply saveContext_keeps_layout|].
    intros k saved Hkey Hin.
    destruct (decide (x = k)) as [->|Hne].
    + unfold saveContext. rewrite Hkey. cbv zeta.
      rewrite lookup_insert_eq. simpl. apply lookup_insert_eq.
    + apply elem_of_app in Hin as [Hin|Hin];
        [|apply list_elem_of_singleton in Hin; congruence].
      unfold saveContext.
      destruct (contexts this !! x) as [cx|] eqn:Hx; [|by apply Hfiles].
      cbv zeta. rewrite lookup_insert_eq. simpl.
      rewrite lookup_insert_ne; [by apply Hfiles|].
      intros Heq. apply Hne. apply Hinj; [by rewrite Hx|by rewrite Hkey|done].
Qed.

(** X13.  Shutdown and restart.  Take a manager no two keys of which
    share a hash, one of its keys other than the empty string, and a root
    in which no file outside that key's own note directory records the
    key.  After [saveAllContexts(root)], [loadContexts(root)] in the
    manager of the next start restores under that key a context with the
    saved history (as JSON carries it), output lines, agent steps, session
    id and pending preview pair; the restored context is idle. *)
Theorem saveAll_load_round_trip
    (this that : manager) (fs : disk) (vaultPath : string)
    (now : string -> string) (key : string) (saved : NoteContext) :
  dataDir that = dataDir this ->
  recordedUnderHashOnly md5 key
    (default ∅ (fs !! path_join vaultPath (dataDir this))) ->
  (forall k1 k2, is_Some (contexts this !! k1) ->
     is_Some (contexts this !! k2) -> md5 k1 = md5 k2 -> k1 = k2) ->
  key <> "" ->
  contexts this !! key = Some saved ->
  exists loaded : NoteContext,
    contexts (loadContexts path_join readdirSync vaultPath
                (saveAllContexts md5 path_join keysOf vaultPath now this fs)
                that) !! key = Some loaded
    /\ history loaded = unshared <$> history saved
    /\ outputLines loaded = outputLines saved
    /\ agentSteps loaded = agentSteps saved
    /\ sessionId loaded = sessionId saved
    /\ pendingPreviewContent loaded = pendingPreviewContent saved
    /\ originalPreviewContent loaded = originalPreviewContent saved
    /\ isRunning loaded = false.
Proof.
  intros Hdir Hfiled Hinj Hkey Hctx.
  destruct (saveAll_files vaultPath now this key (keysOf (contexts this)) Hinj
              fs Hfiled) as [Hlayout Hfiles].
  cbv zeta in Hlayout, Hfiles.
  specialize (Hfiles key saved Hctx
                (keysOf_complete _ _ (mk_is_Some _ _ Hctx))).
  unfold saveAllContexts.
  set (fs' := foldl _ fs (keysOf (contexts this))) in *.
  set (data := dataToSave key saved (now key)) in *.
  exists (reconstruct that data).
  split; [|by cbn; rewrite NoteContextManagerFacts.unshared_twice].
  unfold loadContexts. rewrite Hdir.
  destruct (fs' !! path_join vaultPath (dataDir this)) as [dir|] eqn:Hfs;
    simpl in Hfiles, Hlayout; [|by rewrite lookup_empty in Hfiles].
  assert (Hp : usablePath data = Some key).
  { unfold usablePath, data. simpl.
    destruct (String.eqb_spec key ""); [contradiction|done]. }
  apply (NoteContextManagerFacts.load_finds dir key (md5 key)); try done.
  - intros h d Hh Hd.
    apply NoteContextManagerFacts.usablePath_recorded in Hd.
    rewrite (Hlayout h d Hh Hd) in Hh. congruence.
  - apply readdirSync_complete. by rewrite Hfiles.
Qed.

End SaveAll.

Lemma usedDisk_no_stale_copy :
  recordedUnderHashOnly Samples.sample_md5 "note.md"
    (default ∅ (Samples.usedDisk !! "/vault/contexts")).
Proof.
  unfold Samples.usedDisk. rewrite lookup_singleton_eq.
  cbn [default from_option id]. intros h d Hh Hd.
  destruct (decide (h = "hthird.md")) as [->|H1].
  { rewrite lookup_insert_eq in Hh. injection Hh as <-. discriminate Hd. }
  rewrite lookup_insert_ne in Hh by done.
  destruct (decide (h = "moved")) as [->|H2].
  { rewrite lookup_insert_eq in Hh. injection Hh as <-. discriminate Hd. }
  rewrite lookup_insert_ne in Hh by done.
  apply lookup_singleton_Some in Hh as [_ Hh]. discriminate Hh.
Qed.

Lemma saveAll_load_round_trip_witness :
  let that := create View.sampleSettings "contexts" in
  exists loaded : NoteContext,
    contexts (loadContexts Samples.sample_join Samples.sample_readdir "/vault"
                (saveAllContexts Samples.sample_md5 Samples.sample_join
                   (fun m => (map_to_list m).*1) "/vault" (fun _ => "t1")
                   Samples.usedManager Samples.usedDisk)
                that) !! "note.md" = Some loaded
    /\ history loaded = unshared <$> history Samples.usedContext
    /\ outputLines loaded = ["one"; "two"]
    /\ agentSteps loaded = agentSteps Samples.usedContext
    /\ sessionId loaded = Some "ses_1"
    /\ pendingPreviewContent loaded = Some "new body"
    /\ originalPreviewContent loaded = Some "body"
    /\ isRunning loaded = false.
Proof.
  intros that.
  refine (saveAll_load_round_trip Samples.sample_md5 Samples.sample_join
            Samples.sample_readdir (fun m => (map_to_list m).*1) _ _
            Samples.usedManager that Samples.usedDisk "/vault"
            (fun _ => "t1") "note.md" Samples.usedContext _ _ _ _ _).
  - apply NoteContextManagerFacts.sample_readdir_complete.
  - intros m key [c Hc]. apply list_elem_of_fmap.
    exists (key, c). split; [done|]. by apply elem_of_map_to_list.
  - reflexivity.
  - exact usedDisk_no_stale_copy.
  - intros k1 k2 _ _ Heq. by injection Heq.
  - discriminate.
  - vm_compute. reflexivity.
Defined.

End NoteContextManagerOpsFacts.

(* ===================================================================== *)
(** ** Session store: metadata, linked notes and session ids *)
(* ===================================================================== *)

Module SessionStoreFacts.
Import SessionStore.

Lemma findIndex_Some (notePath : string) (notes : list LinkedNote) (i : nat) :
  findIndex notePath notes = Some i ->
  exists n, notes !! i = Some n /\ ln_path n = notePath.
Proof.
  revert i. induction notes as [|n rest IH]; intros i; simpl; [done|].
  destruct (String.eqb_spec (ln_path n) notePath) as [Heq|Hne].
  - intros [= <-]. by exists n.
  - destruct (findIndex notePath rest) as [j|] eqn:Hj; simpl; [|done].
    intros [= <-]. simpl. by apply IH.
Qed.

Lemma findIndex_None (notePath : string) (notes : list LinkedNote) :
  findIndex notePath notes = None -> notePath ∉ ln_path <$> notes.
Proof.
  induction notes as [|n rest IH]; simpl.
  - intros _. apply not_elem_of_nil.
  - destruct (String.eqb_spec (ln_path n) notePath) as [Heq|Hne]; [done|].
    destruct (findIndex notePath rest) eqn:Hj; simpl; [done|].
    intros _. rewrite not_elem_of_cons. split; [congruence|by apply IH].
Qed.

Lemma findIndex_elem (notePath : string) (notes : list LinkedNote) :
  notePath ∈ ln_path <$> notes -> is_Some (findIndex notePath notes).
Proof.
  intros Hin. destruct (findIndex notePath notes) eqn:Hf; [by eexists|].
  by apply findIndex_None in Hf.
Qed.

Lemma primaryCount_reset (notes : list LinkedNote) :
  primaryCount (set_isPrimary false <$> notes) = 0.
Proof. unfold primaryCount. induction notes as [|n rest IH]; simpl; done. Qed.

Lemma paths_reset (notes : list LinkedNote) :
  ln_path <$> (set_isPrimary false <$> notes) = ln_path <$> notes.
Proof. rewrite <- list_fmap_compose. by apply list_fmap_ext. Qed.

Lemma paths_alter (f : LinkedNote -> LinkedNote) (i : nat)
    (notes : list LinkedNote) :
  (forall n, ln_path (f n) = ln_path n) ->
  ln_path <$> alter f i notes = ln_path <$> notes.
Proof.
  intros Hf. revert i. induction notes as [|n rest IH]; intros [|i]; simpl;
    try done.
  - by rewrite Hf.
  - f_equal. apply IH.
Qed.

Lemma primaryCount_alter_linkedAt (now : string) (i : nat)
    (notes : list LinkedNote) :
  primaryCount (alter (set_linkedAt now) i notes) = primaryCount notes.
Proof.
  unfold primaryCount.
  revert i. induction notes as [|n rest IH]; intros [|i]; simpl; try done.
  all: destruct (ln_isPrimary n); simpl; try done.
  - f_equal. exact (IH i).
  - exact (IH i).
Qed.

Lemma primaryCount_app (l k : list LinkedNote) :
  primaryCount (l ++ k) = primaryCount l + primaryCount k.
Proof. unfold primaryCount. by rewrite List.filter_app, length_app. Qed.

Lemma filter_primary_one (i : nat) (notes : list LinkedNote) (n : LinkedNote) :
  notes !! i = Some n ->
  List.filter ln_isPrimary
    (alter (set_isPrimary true) i (set_isPrimary false <$> notes))
  = [set_isPrimary true n].
Proof.
  revert i. induction notes as [|m rest IH]; intros [|i]; simpl; try done.
  - intros [= ->]. f_equal.
    pose proof (primaryCount_reset rest) as H0. unfold primaryCount in H0.
    by apply nil_length_inv.
  - apply IH.
Qed.

Lemma filter_primary_none (notes : list LinkedNote) :
  List.filter ln_isPrimary (set_isPrimary false <$> notes) = [].
Proof.
  pose proof (primaryCount_reset notes) as H0. unfold primaryCount in H0.
  by apply nil_length_inv.
Qed.

Section Host.

Variable basename_md : string -> string.

(** The paths after linking: the note is added at the end unless it is
    already linked; no other path comes or goes. *)
Lemma linkNote_paths (notePath : string) (isPrimary : bool) (now : string)
    (notes : list LinkedNote) :
  ln_path <$> linkNote basename_md notePath isPrimary now notes
  = if decide (notePath ∈ ln_path <$> notes) then ln_path <$> notes
    else (ln_path <$> notes) ++ [notePath].
Proof.
  unfold linkNote. destruct (findIndex notePath notes) as [i|] eqn:Hf.
  - destruct (findIndex_Some _ _ _ Hf) as (n & Hn & Hp).
    rewrite decide_True.
    2:{ apply list_elem_of_fmap. exists n. split; [done|].
        by apply list_elem_of_lookup_2 in Hn. }
    destruct isPrimary.
    + rewrite paths_alter by done. rewrite paths_reset.
      by rewrite paths_alter.
    + by rewrite paths_alter.
  - rewrite decide_False by by apply findIndex_None.
    rewrite fmap_app. simpl. destruct isPrimary; [by rewrite paths_reset|done].
Qed.

(** The primary notes after linking a note as primary: that note alone. *)
Lemma linkNote_primary (notePath : string) (now : string)
    (notes : list LinkedNote) :
  exists n, List.filter ln_isPrimary (linkNote basename_md notePath true now notes) = [n]
            /\ ln_path n = notePath.
Proof.
  unfold linkNote. destruct (findIndex notePath notes) as [i|] eqn:Hf.
  - destruct (findIndex_Some _ _ _ Hf) as (n & Hn & Hp).
    eexists. split.
    + apply filter_primary_one.
      rewrite list_lookup_alter, decide_True, Hn by done. reflexivity.
    + done.
  - eexists. rewrite List.filter_app, filter_primary_none. simpl. done.
Qed.

Lemma linkNote_primaryCount (notePath : string) (isPrimary : bool)
    (now : string) (notes : list LinkedNote) :
  primaryCount notes <= 1 ->
  primaryCount (linkNote basename_md notePath isPrimary now notes) <= 1.
Proof.
  intros Hone. destruct isPrimary.
  - destruct (linkNote_primary notePath now notes) as (n & Hn & _).
    unfold primaryCount. by rewrite Hn.
  - unfold linkNote. destruct (findIndex notePath notes).
    + by rewrite primaryCount_alter_linkedAt.
    + rewrite primaryCount_app. unfold primaryCount at 2. simpl. lia.
Qed.


Lemma last_cons_default {A : Type} (a d : A) (l : list A) :
  List.last (a :: l) d = List.last l a.
Proof.
  revert a d. induction l as [|b l IH]; intros a d; [done|].
  change (List.last (a :: b :: l) d) with (List.last (b :: l) d).
  by rewrite !IH.
Qed.

Lemma find_filter {A : Type} (f : A -> bool) (l : list A) (n : A) :
  List.filter f l = [n] -> List.find f l = Some n.
Proof.
  induction l as [|a l IH]; simpl; [done|].
  destruct (f a); [by intros [= ->]|done].
Qed.

(** X14.  Linking a note as primary to a session whose metadata file can
    be read leaves that note as the only primary one, names the session
    after it, and points the legacy fields at it, whatever the file held
    before. *)
Theorem addLinkedNote_primary (sessionDir notePath now : string)
    (fs : metadataStore) (metadata : SessionMetadata) :
  fs !! sessionDir = Some (Metadata metadata) ->
  exists metadata' notes n,
    getSessionMetadata basename_md sessionDir
      (addLinkedNote basename_md sessionDir notePath true now fs)
    = Some metadata'
    /\ linkedNotes metadata' = Some notes
    /\ List.filter ln_isPrimary notes = [n]
    /\ ln_path n = notePath
    /\ meta_notePath metadata' = Some notePath
    /\ meta_noteTitle metadata' = Some (ln_title n)
    /\ sessionName metadata' = basename_md notePath
    /\ isStandalone metadata' = false.
Proof.
  intros Hfile. unfold addLinkedNote, getSessionMetadata. rewrite Hfile.
  rewrite lookup_insert_eq. cbn [orb].
  destruct (linkNote_primary notePath now (default [] (linkedNotes metadata)))
    as (n & Hn & Hp).
  unfold primaryOrFirst. rewrite (find_filter _ _ _ Hn).
  eexists _, _, n. unfold migrate. cbn [linkedNotes].
  split; [reflexivity|]. cbn.
  split; [reflexivity|]. split; [exact Hn|]. split; [exact Hp|].
  split; [by rewrite Hp|]. done.
Qed.

(** X15.  Linking a note changes the linked paths of the session in one
    way only: the note's path is added at the end unless it is already
    linked; the metadata of every other session is left as it is. *)
Theorem addLinkedNote_paths (sessionDir notePath : string) (isPrimary : bool)
    (now : string) (fs : metadataStore) (metadata : SessionMetadata) :
  fs !! sessionDir = Some (Metadata metadata) ->
  let paths := ln_path <$> default [] (linkedNotes metadata) in
  let fs' := addLinkedNote basename_md sessionDir notePath isPrimary now fs in
  (exists metadata',
     fs' !! sessionDir = Some (Metadata metadata')
     /\ ln_path <$> default [] (linkedNotes metadata')
        = if decide (notePath ∈ paths) then paths else paths ++ [notePath])
  /\ forall other, other <> sessionDir -> fs' !! other = fs !! other.
Proof.
  intros Hfile paths fs'. subst fs'. unfold addLinkedNote. rewrite Hfile.
  split.
  - eexists. rewrite lookup_insert_eq. split; [reflexivity|].
    cbn [linkedNotes default]. apply linkNote_paths.
  - intros other Hne. by rewrite lookup_insert_ne.
Qed.

Lemma migrate_wellLinked (keepName : bool) (metadata : SessionMetadata) :
  wellLinked metadata -> wellLinked (migrate basename_md keepName metadata).
Proof.
  intros Hwell. unfold migrate.
  destruct (linkedNotes metadata) as [l|] eqn:Hl; [done|].
  intros notes. cbn [linkedNotes]. intros [= <-].
  destruct (View.nonEmpty _); cbn.
  - split; [|done]. apply NoDup_singleton.
  - split; [apply NoDup_nil_2|lia].
Qed.

(** X16.  The two writers of the metadata files keep the layout of the
    linked notes: in a store where no session links a path twice or has
    more than one primary note, that still holds after
    [saveSessionMetadata] and after [addLinkedNote]. *)
Theorem writers_keep_wellLinked (sessionDir : string) (fs : metadataStore) :
  allWellLinked fs ->
  (forall notePath backend now localeNow,
     allWellLinked
       (saveSessionMetadata basename_md sessionDir notePath backend now
          localeNow fs))
  /\ (forall notePath isPrimary now,
        allWellLinked
          (addLinkedNote basename_md sessionDir notePath isPrimary now fs)).
Proof.
  intros Hall. split.
  - intros notePath backend now localeNow dir metadata'.
    unfold saveSessionMetadata.
    destruct (fs !! sessionDir) as [[|metadata]|] eqn:Hfile; [by apply Hall| |].
    + destruct (decide (dir = sessionDir)) as [->|Hne].
      * rewrite lookup_insert_eq. intros [= <-].
        apply migrate_wellLinked. exact (Hall _ _ Hfile).
      * rewrite lookup_insert_ne by done. apply Hall.
    + destruct (decide (dir = sessionDir)) as [->|Hne].
      * rewrite lookup_insert_eq. intros [= <-] notes.
        cbn [linkedNotes]. intros [= <-].
        destruct (View.nonEmpty notePath); cbn.
        -- split; [apply NoDup_singleton|done].
        -- split; [apply NoDup_nil_2|lia].
      * rewrite lookup_insert_ne by done. apply Hall.
  - intros notePath isPrimary now dir metadata'. unfold addLinkedNote.
    destruct (fs !! sessionDir) as [[|metadata]|] eqn:Hfile;
      [by apply Hall| |by apply Hall].
    destruct (decide (dir = sessionDir)) as [->|Hne].
    + rewrite lookup_insert_eq. intros [= <-] notes.
      cbn [linkedNotes]. intros [= <-].
      assert (NoDup (ln_path <$> default [] (linkedNotes metadata))
              /\ primaryCount (default [] (linkedNotes metadata)) <= 1)
        as [Hnd Hone].
      { destruct (linkedNotes metadata) as [l|] eqn:Hl.
        - exact (Hall _ _ Hfile l Hl).
        - cbn. split; [apply NoDup_nil_2|lia]. }
      split.
      * rewrite linkNote_paths. case_decide; [done|].
        apply NoDup_app. split; [done|]. split; [|apply NoDup_singleton].
        intros p Hp Hin. apply list_elem_of_singleton in Hin. by subst.
      * by apply linkNote_primaryCount.
    + rewrite lookup_insert_ne by done. apply Hall.
Qed.

Lemma saveSessionMetadataAll_existing (sessionDir : string)
    (notePath : option string) (backend : BackendType)
    (calls : list (string * string)) (fs : metadataStore)
    (metadata : SessionMetadata) (notes : list LinkedNote) :
  fs !! sessionDir = Some (Metadata metadata) ->
  linkedNotes metadata = Some notes ->
  exists metadata',
    saveSessionMetadataAll basename_md sessionDir notePath backend calls fs
      !! sessionDir = Some (Metadata metadata')
    /\ linkedNotes metadata' = Some notes
    /\ createdAt metadata' = createdAt metadata
    /\ meta_backend metadata' = meta_backend metadata
    /\ isStandalone metadata' = isStandalone metadata
    /\ lastUsed metadata' = List.last (calls.*1) (lastUsed metadata)
    /\ (calls <> [] ->
        messageCount metadata'
        = Some (default 0 (messageCount metadata) + Z.of_nat (length calls))%Z).
Proof.
  revert fs metadata. induction calls as [|call rest IH]; intros fs metadata Hfile Hnotes.
  - exists metadata. cbn. done.
  - unfold saveSessionMetadataAll. cbn [foldl].
    set (fs1 := saveSessionMetadata _ _ _ _ _ _ fs).
    assert (exists m1, fs1 !! sessionDir = Some (Metadata m1)
              /\ linkedNotes m1 = Some notes
              /\ createdAt m1 = createdAt metadata
              /\ meta_backend m1 = meta_backend metadata
              /\ isStandalone m1 = isStandalone metadata
              /\ lastUsed m1 = call.1
              /\ messageCount m1
                 = Some (default 0 (messageCount metadata) + 1)%Z)
      as (m1 & Hf1 & Hn1 & Hc1 & Hb1 & Hs1 & Hl1 & Hm1).
    { subst fs1. unfold saveSessionMetadata. rewrite Hfile.
      rewrite lookup_insert_eq. eexists. split; [reflexivity|].
      unfold migrate. cbn [linkedNotes]. rewrite Hnotes. cbn. done. }
    destruct (IH fs1 m1 Hf1 Hn1)
      as (m' & Hf' & Hn' & Hc' & Hb' & Hs' & Hl' & Hm').
    exists m'. split; [exact Hf'|]. split; [exact Hn'|].
    split; [congruence|]. split; [congruence|]. split; [congruence|]. split.
    + rewrite Hl', Hl1. cbn [fmap list_fmap]. by rewrite last_cons_default.
    + intros _. destruct rest as [|next rest'].
      * cbn in Hf'. rewrite Hf1 in Hf'. simplify_eq. rewrite Hm1. cbn.
        f_equal.
      * rewrite Hm' by done. rewrite Hm1. cbn [default].
        apply (f_equal Some). cbn [length]. unfold id. lia.
Qed.

(** X17.  The metadata file counts the calls: after one or more calls of
    [saveSessionMetadata] on a session directory that had no metadata
    file, the file holds the number of calls as message count, the clock
    reading of the first call as creation time and that of the last call
    as time of last use; a note-based session links its note as the one
    primary note, a standalone session links none. *)
Theorem saveSessionMetadata_counts (sessionDir : string)
    (notePath : option string) (backend : BackendType)
    (first : string * string) (later : list (string * string))
    (fs : metadataStore) :
  fs !! sessionDir = None ->
  exists metadata,
    getSessionMetadata basename_md sessionDir
      (saveSessionMetadataAll basename_md sessionDir notePath backend
         (first :: later) fs)
    = Some metadata
    /\ messageCount metadata = Some (Z.of_nat (length (first :: later)))
    /\ createdAt metadata = first.1
    /\ lastUsed metadata = List.last (later.*1) first.1
    /\ meta_backend metadata = backend
    /\ isStandalone metadata = negb (View.nonEmpty notePath)
    /\ linkedNotes metadata
       = Some (if View.nonEmpty notePath
               then [mkLinkedNote (default "" notePath)
                       (basename_md (default "" notePath)) first.1 true]
               else []).
Proof.
  intros Hfile. unfold saveSessionMetadataAll. cbn [foldl].
  set (fs1 := saveSessionMetadata _ _ _ _ _ _ fs).
  assert (exists m1, fs1 !! sessionDir = Some (Metadata m1)
            /\ linkedNotes m1
               = Some (if View.nonEmpty notePath
                       then [mkLinkedNote (default "" notePath)
                               (basename_md (default "" notePath)) first.1 true]
                       else [])
            /\ createdAt m1 = first.1 /\ meta_backend m1 = backend
            /\ lastUsed m1 = first.1 /\ messageCount m1 = Some 1%Z
            /\ isStandalone m1 = negb (View.nonEmpty notePath))
    as (m1 & Hf1 & Hn1 & Hc1 & Hb1 & Hl1 & Hm1 & Hs1).
  { subst fs1. unfold saveSessionMetadata. rewrite Hfile.
    rewrite lookup_insert_eq. eexists. split; [reflexivity|]. cbn.
    destruct (View.nonEmpty notePath); done. }
  destruct (saveSessionMetadataAll_existing sessionDir notePath backend later
              fs1 m1 _ Hf1 Hn1)
    as (m' & Hf' & Hn' & Hc' & Hb' & Hs' & Hl' & Hm').
  unfold saveSessionMetadataAll in Hf'.
  unfold getSessionMetadata. rewrite Hf'. unfold migrate. rewrite Hn'.
  exists m'. split; [reflexivity|].
  split.
  { destruct later as [|next rest].
    - cbn in Hf'. rewrite Hf1 in Hf'. by simplify_eq.
    - rewrite Hm' by done. rewrite Hm1. cbn [default].
      apply (f_equal Some). cbn [length]. unfold id. lia. }
  split; [congruence|]. split; [congruence|]. split; [congruence|].
  split; [congruence|done].
Qed.


Lemma renameIn_updated (oldPath newPath : string) (metadata : SessionMetadata) :
  (renameIn basename_md oldPath newPath metadata).2 = mentions oldPath metadata.
Proof. reflexivity. Qed.

Lemma renameIn_fresh (oldPath newPath : string) (metadata : SessionMetadata) :
  oldPath <> newPath ->
  mentions oldPath (renameIn basename_md oldPath newPath metadata).1 = false.
Proof.
  intros Hne. unfold mentions, renameIn. cbn [fst meta_notePath linkedNotes].
  apply orb_false_iff. split.
  - destruct (meta_notePath metadata) as [p|] eqn:Hp; [|done].
    destruct (String.eqb p oldPath) eqn:Hpo; cbn.
    + apply String.eqb_neq. congruence.
    + exact Hpo.
  - destruct (linkedNotes metadata) as [notes|]; [|done]. cbn.
    induction notes as [|n rest IH]; [done|]. cbn.
    rewrite IH, orb_false_r.
    destruct (String.eqb_spec (ln_path n) oldPath) as [Heq|Hno]; cbn.
    + apply String.eqb_neq. congruence.
    + by apply String.eqb_neq.
Qed.

Lemma renameOne_other (oldPath newPath : string) (acc : metadataStore * nat)
    (sessionDir other : string) :
  other <> sessionDir ->
  (renameOne basename_md oldPath newPath acc sessionDir).1 !! other
  = acc.1 !! other.
Proof.
  intros Hne. unfold renameOne.
  destruct (acc.1 !! sessionDir) as [[|metadata]|]; try done.
  destruct (renameIn _ _ _ _) as [metadata' updated].
  destruct updated; [|done]. cbn. by rewrite lookup_insert_ne.
Qed.

Lemma renameOne_here (oldPath newPath : string) (acc : metadataStore * nat)
    (sessionDir : string) :
  oldPath <> newPath ->
  let acc' := renameOne basename_md oldPath newPath acc sessionDir in
  stale oldPath acc'.1 sessionDir = false
  /\ acc'.2 = acc.2 + (if stale oldPath acc.1 sessionDir then 1 else 0)
  /\ (stale oldPath acc.1 sessionDir = false -> acc' = acc).
Proof.
  intros Hne. cbn zeta. unfold renameOne, stale.
  destruct (acc.1 !! sessionDir) as [[|metadata]|] eqn:Hfile.
  - rewrite Hfile. split; [done|]. split; [lia|done].
  - pose proof (renameIn_updated oldPath newPath metadata) as Hup.
    pose proof (renameIn_fresh oldPath newPath metadata Hne) as Hfresh.
    destruct (renameIn _ _ _ _) as [metadata' updated]. cbn in Hup, Hfresh.
    subst updated. destruct (mentions oldPath metadata) eqn:Hm.
    + cbn. rewrite lookup_insert_eq. split; [done|]. split; [lia|done].
    + rewrite Hfile, Hm. split; [done|]. split; [lia|done].
  - rewrite Hfile. split; [done|]. split; [lia|done].
Qed.

Lemma updateSessionPaths_fold (oldPath newPath : string)
    (sessionDirs : list string) :
  oldPath <> newPath -> NoDup sessionDirs ->
  forall acc : metadataStore * nat,
    let r := foldl (renameOne basename_md oldPath newPath) acc sessionDirs in
    r.2 = acc.2 + length (List.filter (stale oldPath acc.1) sessionDirs)
    /\ (forall d, d ∈ sessionDirs -> stale oldPath r.1 d = false)
    /\ (forall d, d ∉ sessionDirs -> r.1 !! d = acc.1 !! d)
    /\ (forall d, stale oldPath acc.1 d = false -> r.1 !! d = acc.1 !! d).
Proof.
  intros Hne Hnd. induction Hnd as [|d rest Hd Hnd IH]; intros acc; cbn zeta.
  - cbn. split; [lia|]. split; [|done]. intros d Hd. by apply elem_of_nil in Hd.
  - cbn [foldl List.filter].
    set (acc1 := renameOne basename_md oldPath newPath acc d).
    destruct (renameOne_here oldPath newPath acc d Hne)
      as (Hfresh & Hcount & Hsame). fold acc1 in Hfresh, Hcount, Hsame.
    assert (Hother : forall o, o <> d -> acc1.1 !! o = acc.1 !! o).
    { intros o Ho. by apply renameOne_other. }
    destruct (IH acc1) as (Hn & Hin & Hout & Hkeep).
    assert (Hfilter : List.filter (stale oldPath acc1.1) rest
                      = List.filter (stale oldPath acc.1) rest).
    { apply List.filter_ext_in. intros o Ho. unfold stale.
      rewrite Hother; [done|]. intros ->. apply Hd.
      by apply list_elem_of_In. }
    split.
    { rewrite Hn, Hcount, Hfilter.
      destruct (stale oldPath acc.1 d); cbn [length]; lia. }
    split.
    { intros o Ho. apply elem_of_cons in Ho as [->|Ho]; [|by apply Hin].
      unfold stale. rewrite (Hout d Hd). exact Hfresh. }
    split.
    { intros o Ho. apply not_elem_of_cons in Ho as [Hod Ho].
      rewrite (Hout o Ho). by apply Hother. }
    intros o Ho. destruct (decide (o = d)) as [->|Hod].
    + rewrite (Hsame Ho) in *. apply Hkeep. exact Ho.
    + rewrite Hkeep; [by apply Hother|].
      unfold stale. rewrite (Hother o Hod). exact Ho.
Qed.

(** X18.  After a note was renamed, [updateSessionPaths] over a listing
    without repetitions leaves no listed session that names the old path,
    returns the number of listed sessions that named it, and leaves alone
    the files of the sessions that did not name it or are not listed. *)
Theorem updateSessionPaths_renames (sessionDirs : list string)
    (oldPath newPath : string) (fs : metadataStore) :
  oldPath <> newPath -> NoDup sessionDirs ->
  let r := updateSessionPaths basename_md sessionDirs oldPath newPath fs in
  r.2 = length (List.filter (stale oldPath fs) sessionDirs)
  /\ (forall d, d ∈ sessionDirs -> stale oldPath r.1 d = false)
  /\ (forall d, d ∉ sessionDirs \/ stale oldPath fs d = false ->
                r.1 !! d = fs !! d).
Proof.
  intros Hne Hnd. cbn zeta. unfold updateSessionPaths.
  destruct (updateSessionPaths_fold oldPath newPath sessionDirs Hne Hnd (fs, 0))
    as (Hn & Hin & Hout & Hkeep).
  split; [exact Hn|]. split; [exact Hin|].
  intros d [Hd|Hd]; [by apply Hout|by apply Hkeep].
Qed.

End Host.

Lemma addLinkedNote_primary_witness :
  exists metadata' notes n,
    getSessionMetadata (fun p => p) "s"
      (addLinkedNote (fun p => p) "s" "b.md" true "t1" sampleStore)
    = Some metadata'
    /\ linkedNotes metadata' = Some notes
    /\ List.filter ln_isPrimary notes = [n]
    /\ ln_path n = "b.md"
    /\ meta_notePath metadata' = Some "b.md"
    /\ meta_noteTitle metadata' = Some (ln_title n)
    /\ sessionName metadata' = "b.md"
    /\ isStandalone metadata' = false.
Proof.
  apply (addLinkedNote_primary (fun p => p) "s" "b.md" "t1" sampleStore
           sampleMetadata).
  reflexivity.
Defined.

Lemma addLinkedNote_paths_witness :
  (exists metadata',
     addLinkedNote (fun p => p) "s" "b.md" false "t1" sampleStore !! "s"
     = Some (Metadata metadata')
     /\ ln_path <$> default [] (linkedNotes metadata') = ["a.md"; "b.md"])
  /\ forall other, other <> "s" ->
       addLinkedNote (fun p => p) "s" "b.md" false "t1" sampleStore !! other
       = sampleStore !! other.
Proof.
  refine (addLinkedNote_paths (fun p => p) "s" "b.md" false "t1" sampleStore
            sampleMetadata _).
  reflexivity.
Defined.

Lemma sampleStore_wellLinked : allWellLinked sampleStore.
Proof.
  intros dir metadata Hfile. unfold sampleStore in Hfile.
  apply lookup_singleton_Some in Hfile as [_ Hm]. simplify_eq.
  intros notes [= <-]. cbn. split; [apply NoDup_singleton|done].
Qed.

Lemma writers_keep_wellLinked_witness :
  (forall notePath backend now localeNow,
     allWellLinked
       (saveSessionMetadata (fun p => p) "s" notePath backend now localeNow
          sampleStore))
  /\ (forall notePath isPrimary now,
        allWellLinked
          (addLinkedNote (fun p => p) "s" notePath isPrimary now sampleStore)).
Proof.
  apply (writers_keep_wellLinked (fun p => p) "s" sampleStore).
  apply sampleStore_wellLinked.
Defined.

Lemma saveSessionMetadata_counts_witness :
  exists metadata,
    getSessionMetadata (fun p => p) "s"
      (saveSessionMetadataAll (fun p => p) "s" (Some "a.md") claude
         [("t1", "l1"); ("t2", "l2"); ("t3", "l3")] ∅)
    = Some metadata
    /\ messageCount metadata = Some 3%Z
    /\ createdAt metadata = "t1"
    /\ lastUsed metadata = "t3"
    /\ meta_backend metadata = claude
    /\ isStandalone metadata = false
    /\ linkedNotes metadata = Some [mkLinkedNote "a.md" "a.md" "t1" true].
Proof.
  refine (saveSessionMetadata_counts (fun p => p) "s" (Some "a.md") claude
            ("t1", "l1") [("t2", "l2"); ("t3", "l3")] ∅ _).
  reflexivity.
Defined.

Lemma updateSessionPaths_renames_witness :
  let r := updateSessionPaths (fun p => p) ["s"; "u"] "a.md" "c.md"
             sampleStore in
  r.2 = 1
  /\ (forall d, d ∈ ["s"; "u"] -> stale "a.md" r.1 d = false)
  /\ (forall d, d ∉ ["s"; "u"] \/ stale "a.md" sampleStore d = false ->
                r.1 !! d = sampleStore !! d).
Proof.
  refine (updateSessionPaths_renames (fun p => p) ["s"; "u"] "a.md" "c.md"
            sampleStore _ _).
  - discriminate.
  - apply NoDup_cons. split; [|apply NoDup_singleton].
    intros Hin. apply list_elem_of_singleton in Hin. discriminate.
Defined.

Section Ids.

Variable md5 : string -> string.
Variable sessionPath : string -> string -> string -> string.

Lemma sessionIdFile_inj (a b : BackendType) :
  sessionIdFile a = sessionIdFile b -> a = b.
Proof. destruct a, b; vm_compute; congruence. Qed.

(** X19.  A session id saved for a note under one backend is what
    [getSessionInfo] then finds for that note and backend, trimmed, and
    the session counts as new only if nothing is left after trimming;
    what the other backends find for the note is not changed. *)
Theorem saveSessionId_then_getSessionInfo
    (notePath vaultPath configDir sessionId unique : string)
    (backend : BackendType) (ids : idStore) :
  notePath <> "" ->
  let info := getSessionInfo md5 sessionPath (Some notePath) vaultPath
                configDir backend unique ids in
  let ids' := saveSessionId (info_sessionDir info) sessionId backend ids in
  getSessionInfo md5 sessionPath (Some notePath) vaultPath configDir backend
    unique ids'
  = mkSessionInfo (info_sessionDir info) (Some (View.trim sessionId))
      (String.eqb (View.trim sessionId) "") (md5 notePath)
  /\ forall other, other <> backend ->
       getSessionInfo md5 sessionPath (Some notePath) vaultPath configDir
         other unique ids'
       = getSessionInfo md5 sessionPath (Some notePath) vaultPath configDir
           other unique ids.
Proof.
  intros Hne. cbn zeta.
  assert (Hdir : forall b i,
            info_sessionDir (getSessionInfo md5 sessionPath (Some notePath)
                               vaultPath configDir b unique i)
            = sessionPath vaultPath configDir (md5 notePath)).
  { intros b i. unfold getSessionInfo, View.nonEmpty.
    apply String.eqb_neq in Hne. rewrite Hne. cbn.
    by destruct (i !! _). }
  rewrite Hdir. unfold getSessionInfo, saveSessionId, View.nonEmpty.
  apply String.eqb_neq in Hne. rewrite Hne. cbn [negb default].
  split.
  - by rewrite lookup_insert_eq.
  - intros other Hother. rewrite lookup_insert_ne; [done|].
    intros Heq. apply Hother. symmetry.
    exact (sessionIdFile_inj _ _ (f_equal snd Heq)).
Qed.

End Ids.

Lemma saveSessionId_then_getSessionInfo_witness :
  getSessionInfo (fun s => "h" +:+ s) (fun v c h => v +:+ "/" +:+ c +:+ "/" +:+ h)
    (Some "a.md") "/vault" ".obsidian" opencode "u"
    (saveSessionId "/vault/.obsidian/ha.md" paddedSessionId opencode ∅)
  = mkSessionInfo "/vault/.obsidian/ha.md" (Some "ses_2") false "ha.md"
  /\ forall other, other <> opencode ->
       getSessionInfo (fun s => "h" +:+ s)
         (fun v c h => v +:+ "/" +:+ c +:+ "/" +:+ h)
         (Some "a.md") "/vault" ".obsidian" other "u"
         (saveSessionId "/vault/.obsidian/ha.md" paddedSessionId opencode ∅)
       = getSessionInfo (fun s => "h" +:+ s)
           (fun v c h => v +:+ "/" +:+ c +:+ "/" +:+ h)
           (Some "a.md") "/vault" ".obsidian" other "u" ∅.
Proof.
  refine (saveSessionId_then_getSessionInfo (fun s => "h" +:+ s)
            (fun v c h => v +:+ "/" +:+ c +:+ "/" +:+ h)
            "a.md" "/vault" ".obsidian" paddedSessionId "u" opencode ∅ _).
  discriminate.
Defined.

Lemma lastContent_snoc (role : string) (history : list SessionManager.Message)
    (m : SessionManager.Message) :
  lastContent role (history ++ [m])
  = if String.eqb (SessionManager.role m) role
       && negb (String.eqb (SessionManager.content m) "")
    then Some (SessionManager.content m)
    else lastContent role history.
Proof.
  unfold lastContent. rewrite rev_app_distr. cbn.
  by destruct (_ && _).
Qed.

(** X20.  What a saved exchange holds is what the session store then
    gives as the last prompt and the last response: after
    [saveConversationHistory] on a session whose history file is absent
    or an array, [getLastUserPrompt] gives the saved prompt and
    [getLastAssistantResponse] the saved response, when these are not
    empty. *)
Theorem last_exchange_round_trip
    (sessionDir userPrompt assistantResponse nowUser nowAssistant : string)
    (fs : SessionManager.store) (existing : list SessionManager.Message) :
  SessionManager.existingHistory sessionDir fs = Some existing ->
  exists fs',
    SessionManager.saveConversationHistory sessionDir userPrompt
      assistantResponse nowUser nowAssistant fs = Ok fs'
    /\ (userPrompt <> "" ->
        getLastUserPrompt (SessionManager.loadConversationHistory sessionDir fs')
        = Some userPrompt)
    /\ (assistantResponse <> "" ->
        getLastAssistantResponse
          (SessionManager.loadConversationHistory sessionDir fs')
        = Some assistantResponse).
Proof.
  intros Hex. eexists. split.
  { apply (SessionManagerFacts.saveConversationHistory_stored _ _ _ _ _ _ _ Hex). }
  unfold SessionManager.loadConversationHistory. rewrite lookup_insert_eq.
  unfold SessionManager.sliceLast.
  rewrite drop_app_le by (rewrite length_app; cbn; lia).
  set (kept := drop _ existing).
  change [?a; ?b] with ([a] ++ [b]).
  unfold getLastUserPrompt, getLastAssistantResponse.
  split.
  - intros Hne. apply String.eqb_neq in Hne.
    change (kept ++ [SessionManager.mkMessage "user" userPrompt nowUser;
                     SessionManager.mkMessage "assistant" assistantResponse
                       nowAssistant])
      with (kept ++ [SessionManager.mkMessage "user" userPrompt nowUser]
                 ++ [SessionManager.mkMessage "assistant" assistantResponse
                       nowAssistant]).
    rewrite app_assoc, !lastContent_snoc. cbn. by rewrite Hne.
  - intros Hne. apply String.eqb_neq in Hne.
    change (kept ++ [SessionManager.mkMessage "user" userPrompt nowUser;
                     SessionManager.mkMessage "assistant" assistantResponse
                       nowAssistant])
      with (kept ++ [SessionManager.mkMessage "user" userPrompt nowUser]
                 ++ [SessionManager.mkMessage "assistant" assistantResponse
                       nowAssistant]).
    rewrite app_assoc, lastContent_snoc. cbn. by rewrite Hne.
Qed.


Lemma last_exchange_round_trip_witness :
  exists fs',
    SessionManager.saveConversationHistory "s" "question" "answer" "t1" "t2" ∅
    = Ok fs'
    /\ ("question" <> "" ->
        getLastUserPrompt (SessionManager.loadConversationHistory "s" fs')
        = Some "question")
    /\ ("answer" <> "" ->
        getLastAssistantResponse
          (SessionManager.loadConversationHistory "s" fs')
        = Some "answer").
Proof.
  refine (last_exchange_round_trip "s" "question" "answer" "t1" "t2" ∅ [] _).
  reflexivity.
Defined.

End SessionStoreFacts.

(* ===================================================================== *)
(** ** Process spawner: the child's environment and command *)
(* ===================================================================== *)

Module ProcessSpawnerEnvFacts.
Import ProcessSpawner.

Lemma envOr_nonempty (env : gmap string string) (key fallback : string) :
  fallback <> "" -> envOr env key fallback <> "".
Proof.
  intros Hf. unfold envOr. destruct (env !! key) as [v|]; [|done].
  by destruct (String.eqb_spec v "").
Qed.

Lemma envOr_set (env : gmap string string) (key fallback v : string) :
  env !! key = Some v -> v <> "" -> envOr env key fallback = v.
Proof.
  intros Hk Hv. unfold envOr. rewrite Hk.
  by destruct (String.eqb_spec v "").
Qed.

(** X21.  Whatever the host, the shell environment and the custom
    variables are, the child process is started with a UTF-8 setting:
    [PYTHONIOENCODING] is [utf-8], [LANG], [LC_ALL] and [LC_CTYPE] are set
    and not empty, [NODE_OPTIONS] is empty or ends in
    [--input-type=module], and standard input is written as UTF-8. *)
Theorem spawn_forces_utf8 (config : SpawnConfig) (host : Host) :
  let child := spawn config host in
  spawn_env child !! "PYTHONIOENCODING" = Some "utf-8"
  /\ (forall name, name ∈ ["LANG"; "LC_ALL"; "LC_CTYPE"] ->
        exists v, spawn_env child !! name = Some v /\ v <> "")
  /\ (spawn_env child !! "NODE_OPTIONS" = Some ""
      \/ exists v, v <> ""
           /\ spawn_env child !! "NODE_OPTIONS"
              = Some (v +:+ " --input-type=module"))
  /\ stdin_encoding child = "utf8".
Proof.
  cbn zeta. unfold spawn, spawnIn. cbn [spawn_env stdin_encoding].
  set (shellEnv := applyCustomEnvVars _ _). unfold envWithUtf8.
  split; [by rewrite lookup_insert_ne, lookup_insert_eq|].
  split.
  { intros name Hname.
    repeat (apply elem_of_cons in Hname as [->|Hname]);
      [| | |by apply elem_of_nil in Hname].
    - eexists. split.
      + rewrite !lookup_insert_ne by done. apply lookup_insert_eq.
      + by apply envOr_nonempty.
    - eexists. split.
      + rewrite !lookup_insert_ne by done. apply lookup_insert_eq.
      + by apply envOr_nonempty.
    - eexists. split.
      + rewrite !lookup_insert_ne by done. apply lookup_insert_eq.
      + by apply envOr_nonempty. }
  split; [|done].
  rewrite lookup_insert_eq.
  destruct (shellEnv !! "NODE_OPTIONS") as [v|]; [|by left].
  destruct (String.eqb_spec v "") as [->|Hv]; [by left|].
  right. by exists v.
Qed.

Lemma envWithUtf8_kept (shellEnv : gmap string string) (name v : string) :
  shellEnv !! name = Some v -> v <> "" ->
  name <> "PYTHONIOENCODING" -> name <> "NODE_OPTIONS" ->
  envWithUtf8 shellEnv !! name = Some v.
Proof.
  intros Hk Hv Hp Hn. unfold envWithUtf8.
  rewrite !(lookup_insert_ne _ _ name) by done.
  destruct (decide (name = "LC_CTYPE")) as [->|H1].
  { rewrite lookup_insert_eq. f_equal. by apply envOr_set. }
  rewrite lookup_insert_ne by done.
  destruct (decide (name = "LC_ALL")) as [->|H2].
  { rewrite lookup_insert_eq. f_equal. by apply envOr_set. }
  rewrite lookup_insert_ne by done.
  destruct (decide (name = "LANG")) as [->|H3].
  { rewrite lookup_insert_eq. f_equal. by apply envOr_set. }
  by rewrite lookup_insert_ne.
Qed.

Lemma assignVar_set (key value : string) (env : gmap string string) :
  key <> "__proto__" -> assignVar key value env !! key = Some value.
Proof.
  intros Hkey. unfold assignVar. apply String.eqb_neq in Hkey.
  rewrite Hkey. cbn. apply lookup_insert_eq.
Qed.

Lemma applyCustomEnvVars_set (entries : list (string * string))
    (shellEnv : gmap string string) (name v : string) :
  NoDup entries.*1 -> (name, v) ∈ entries -> v <> "" ->
  name <> "__proto__" ->
  applyCustomEnvVars (Some entries) shellEnv !! name = Some v.
Proof.
  revert shellEnv. induction entries as [|[k w] entries IH];
    intros shellEnv Hnd Hin Hv Hname.
  - by apply elem_of_nil in Hin.
  - rewrite fmap_cons in Hnd. apply NoDup_cons in Hnd as [Hk Hnd].
    cbn [applyCustomEnvVars foldl]. cbn [fst snd].
    apply elem_of_cons in Hin as [[= <- <-]|Hin].
    + apply String.eqb_neq in Hv. rewrite Hv.
      change (foldl _ ?e entries) with (applyCustomEnvVars (Some entries) e).
      rewrite (ProcessSpawnerFacts.applyCustomEnvVars_other).
      * by apply assignVar_set.
      * unfold overridden. cbn. intros Hin. apply Hk.
        apply list_elem_of_fmap in Hin as ([k' w'] & -> & Hin).
        apply list_elem_of_filter in Hin as [_ Hin].
        apply list_elem_of_fmap. by exists (k', w').
    + exact (IH _ Hnd Hin Hv Hname).
Qed.

(** X22.  A custom environment variable with a non-empty value reaches the
    child process with that value, over what the shell environment says,
    unless it is one of the two variables the spawner always sets itself
    ([PYTHONIOENCODING], [NODE_OPTIONS]) or is named [__proto__], a name
    under which an assignment to the environment object may set nothing.
    The custom variables are the entries of an object, so no name comes
    twice. *)
Theorem custom_variable_wins (config : SpawnConfig) (host : Host)
    (entries : list (string * string)) (name v : string) :
  customEnvVars config = Some entries ->
  NoDup entries.*1 ->
  (name, v) ∈ entries -> v <> "" ->
  name <> "PYTHONIOENCODING" -> name <> "NODE_OPTIONS" ->
  name <> "__proto__" ->
  spawn_env (spawn config host) !! name = Some v.
Proof.
  intros Hc Hnd Hin Hv Hp Hn Hproto. unfold spawn, spawnIn. cbn [spawn_env].
  rewrite Hc. apply envWithUtf8_kept; try done.
  by apply applyCustomEnvVars_set.
Qed.

Lemma custom_variable_wins_witness :
  spawn_env
    (spawn (mkSpawnConfig "claude" [] "/vault"
              (Some [("ANTHROPIC_API_KEY", "k"); ("LANG", "es_ES.UTF-8")]))
       hostWithClaude) !! "LANG"
  = Some "es_ES.UTF-8".
Proof.
  refine (custom_variable_wins
            (mkSpawnConfig "claude" [] "/vault"
               (Some [("ANTHROPIC_API_KEY", "k"); ("LANG", "es_ES.UTF-8")]))
            hostWithClaude
            [("ANTHROPIC_API_KEY", "k"); ("LANG", "es_ES.UTF-8")]
            "LANG" "es_ES.UTF-8" _ _ _ _ _ _ _); try discriminate.
  - reflexivity.
  - apply NoDup_cons. split; [|apply NoDup_singleton].
    intros Hin. apply list_elem_of_singleton in Hin. discriminate.
  - apply elem_of_cons. right. apply elem_of_cons. by left.
Defined.

Lemma firstExisting_sound (host : Host) (dir resolved : string)
    (exts : list string) (found : string) :
  firstExisting host dir resolved exts = Some found ->
  fs_existsSync host found = true
  /\ exists ext, ext ∈ exts /\ found = path_join host dir (resolved +:+ ext).
Proof.
  induction exts as [|ext rest IH]; cbn; [done|].
  destruct (fs_existsSync host (path_join host dir (resolved +:+ ext))) eqn:Hex.
  - intros [= <-]. split; [done|]. exists ext. split; [left|done].
  - intros Hf. destruct (IH Hf) as (? & e & He & ->).
    split; [done|]. exists e. split; [by right|done].
Qed.

Lemma searchPath_sound (host : Host) (pathDirs : list string) :
  forall resolved : string,
    searchPath host pathDirs resolved = resolved
    \/ (fs_existsSync host (searchPath host pathDirs resolved) = true
        /\ exists dir name ext,
             dir ∈ pathDirs /\ ext ∈ extensions host
             /\ searchPath host pathDirs resolved
                = path_join host dir (name +:+ ext)).
Proof.
  induction pathDirs as [|dir rest IH]; intros resolved; cbn; [by left|].
  destruct (firstExisting host dir resolved (extensions host)) as [found|] eqn:Hf;
    cbn.
  - destruct (firstExisting_sound _ _ _ _ _ Hf) as (Hex & ext & Hext & Hfound).
    destruct (path_isAbsolute host found).
    + right. split; [done|]. exists dir, resolved, ext.
      split; [left|done].
    + destruct (IH found) as [->|(Hex' & d & n & e & Hd & He & Heq)].
      * right. split; [done|]. exists dir, resolved, ext. split; [left|done].
      * right. split; [done|]. exists d, n, e. split; [by right|done].
  - destruct (path_isAbsolute host resolved); [by left|].
    destruct (IH resolved) as [->|(Hex' & d & n & e & Hd & He & Heq)];
      [by left|].
    right. split; [done|]. exists d, n, e. split; [by right|done].
Qed.

(** X23.  The command the child process is started with is either the
    configured path as given (with a leading [~] replaced as
    [String.prototype.replace] replaces it by the home directory), or a
    file that exists, found under a non-empty directory of the PATH the
    child is given (that of the shell environment, or a custom one) with
    one of the platform's extensions; a configured path that is absolute
    once expanded is never searched for. *)
Theorem spawn_command_sound (config : SpawnConfig) (host : Host) :
  let shellEnv := applyCustomEnvVars (customEnvVars config)
                    (getShellEnvironment host) in
  let expanded := expandHome host shellEnv (claudePath config) in
  let command := spawn_command (spawn config host) in
  (command = expanded
   \/ (fs_existsSync host command = true
       /\ exists dir name ext,
            dir ∈ split (getPathSeparator host) (envOr shellEnv "PATH" "")
            /\ dir <> "" /\ ext ∈ extensions host
            /\ command = path_join host dir (name +:+ ext)))
  /\ (path_isAbsolute host expanded = true -> command = expanded).
Proof.
  cbn zeta. unfold spawn, spawnIn. cbn [spawn_command].
  set (shellEnv := applyCustomEnvVars _ _).
  unfold resolveClaudePath.
  destruct (path_isAbsolute host (expandHome host shellEnv (claudePath config)));
    [by split; [left|]|].
  split; [|done].
  destruct (searchPath_sound host
              (filter (fun dir => dir <> "")
                 (split (getPathSeparator host) (envOr shellEnv "PATH" "")))
              (expandHome host shellEnv (claudePath config)))
    as [->|(Hex & d & n & e & Hd & He & Heq)]; [by left|].
  right. split; [done|]. exists d, n, e.
  apply list_elem_of_filter in Hd as [Hne Hd]. done.
Qed.

Example spawn_command_on_path :
  spawn_command (spawn (mkSpawnConfig "claude" [] "/vault" None)
                   hostWithClaude)
  = "/opt/bin/claude".
Proof. vm_compute. reflexivity. Qed.

(** The home directory is a replacement text: its [$$] is one dollar
    sign in the command. *)
Example spawn_command_home :
  spawn_command (spawn (mkSpawnConfig "~/bin/claude" [] "/vault" None)
                   hostWithClaude)
  = "/home/a$b/bin/claude".
Proof. vm_compute. reflexivity. Qed.

Lemma substring_all (s : string) : substring 0 (String.length s) s = s.
Proof. induction s as [|c s IH]; cbn; [done|]. by rewrite IH. Qed.

Lemma indexOf_cut (c : ascii) (s : string) (i : nat) :
  indexOf c s = Some i ->
  s = substring 0 i s
      +:+ String c (substring (i + 1) (String.length s - (i + 1)) s)
  /\ indexOf c (substring 0 i s) = None
  /\ (i <> 0 -> substring 0 i s <> "").
Proof.
  revert i. induction s as [|c' s IH]; intros i; cbn [indexOf]; [done|].
  destruct (Ascii.eqb_spec c' c) as [->|Hne].
  - intros [= <-]. cbn. rewrite Nat.sub_0_r, substring_all. done.
  - destruct (indexOf c s) as [j|] eqn:Hj; cbn; [|done].
    intros [= <-]. destruct (IH j eq_refl) as (Hcut & Hnone & _).
    split; [exact (f_equal (String c') Hcut)|].
    split; [|done].
    apply Ascii.eqb_neq in Hne. cbn. rewrite Hne, Hnone. done.
Qed.

Lemma parseEnvLine_sound (env : gmap string string) (line k v : string) :
  parseEnvLine env line !! k = Some v ->
  env !! k = Some v
  \/ (k <> "" /\ indexOf "="%char k = None /\ line = k +:+ "=" +:+ v).
Proof.
  unfold parseEnvLine.
  destruct (indexOf "="%char line) as [[|idx]|] eqn:Hidx; [by left| |by left].
  destruct (indexOf_cut _ _ _ Hidx) as (Hcut & Hnone & Hkey).
  unfold assignVar. case_match; [by left|].
  destruct (decide (k = substring 0 (S idx) line)) as [->|Hne].
  - rewrite lookup_insert_eq. intros [= <-]. right.
    split; [by apply Hkey|]. split; [done|]. exact Hcut.
  - rewrite lookup_insert_ne by done. by left.
Qed.

(** X24.  Every variable of the parsed shell environment was printed by
    the shell: a binding of [parseEnvOutput] comes from a line
    [name=value] of the output, its name is not empty and holds no [=]
    (the value is all that follows the first [=] of the line). *)
Theorem parseEnvOutput_sound (envOutput name value : string) :
  parseEnvOutput envOutput !! name = Some value ->
  name <> ""
  /\ indexOf "="%char name = None
  /\ (name +:+ "=" +:+ value) ∈ split "010"%char envOutput.
Proof.
  unfold parseEnvOutput.
  assert (Hgen : forall lines env,
            foldl parseEnvLine env lines !! name = Some value ->
            env !! name = Some value
            \/ (name <> "" /\ indexOf "="%char name = None
                /\ (name +:+ "=" +:+ value) ∈ lines)).
  { induction lines as [|line lines IH]; intros env; cbn [foldl]; [by left|].
    intros Hl. destruct (IH _ Hl) as [Hhere|(Hk & Hn & Hin)].
    - destruct (parseEnvLine_sound _ _ _ _ Hhere) as [Henv|(Hk & Hn & ->)];
        [by left|].
      right. split; [done|]. split; [done|]. left.
    - right. split; [done|]. split; [done|]. by right. }
  intros Hl. destruct (Hgen _ _ Hl) as [Hempty|H]; [|exact H].
  by rewrite lookup_empty in Hempty.
Qed.

Lemma parseEnvOutput_sound_witness :
  "PATH" <> ""
  /\ indexOf "="%char "PATH" = None
  /\ "PATH=/usr/bin:/bin" ∈ split "010"%char "HOME=/home/u
PATH=/usr/bin:/bin
TERM".
Proof.
  refine (parseEnvOutput_sound "HOME=/home/u
PATH=/usr/bin:/bin
TERM" "PATH" "/usr/bin:/bin" _).
  vm_compute. reflexivity.
Defined.

End ProcessSpawnerEnvFacts.

(* ===================================================================== *)
(** ** The parser of a finished run's output *)
(* ===================================================================== *)

Module ResponseParserFacts.
Import ResponseParser.



Lemma followedBy_initial_l (out : ParsedOutput) : followedBy initial out = out.
Proof. destruct out as [t [u|]]; reflexivity. Qed.







Section Host.

Variable JSON_parse : string -> result value.
Variable toText : value -> string.
Variable add : value -> value -> value.








Lemma onEvent_unhandled (event : value) (out : ParsedOutput) :
  (forall ty, ty ∈ handledTypes -> is_str (get_opt event "type") ty = false) ->
  (onEvent toText add event out).2 = out.
Proof.
  intros Hty. unfold onEvent, mbind, body_bind, eval.
  destruct (get event "type") as [ty|e] eqn:Hget; [|done].
  assert (Hsame : ty = get_opt event "type").
  { destruct event; cbn in Hget |- *; congruence. }
  subst ty.
  rewrite !Hty by (unfold handledTypes; set_solver).
  done.
Qed.

(** X26.  Lines the parser has no use for leave no trace: a line that is
    not JSON, or that decodes to a value whose [type] is none of the five
    the parser looks at ([null] included), can be taken out of the output
    without changing what [parseOutput] returns. *)
Theorem parseOutput_skips (before after : list string) (line : string) :
  (forall event, JSON_parse line = Ok event ->
     forall ty, ty ∈ handledTypes -> is_str (get_opt event "type") ty = false) ->
  parseOutput JSON_parse toText add (before ++ line :: after)
  = parseOutput JSON_parse toText add (before ++ after).
Proof.
  intros Hline. unfold parseOutput, collect.
  rewrite !foldl_app. cbn [foldl].
  assert (Hskip : forall out, onLine JSON_parse toText add out line = out).
  { intros out. unfold onLine.
    destruct (JSON_parse line) as [event|e] eqn:Hp; [|done].
    apply onEvent_unhandled. by apply Hline. }
  by rewrite Hskip.
Qed.













End Host.

Lemma parseOutput_skips_witness :
  parseOutput decode textOf symbolicAdd
    (["text"] ++ "tool_use" :: ["step_finish"])
  = parseOutput decode textOf symbolicAdd (["text"] ++ ["step_finish"]).
Proof.
  refine (parseOutput_skips decode textOf symbolicAdd ["text"] ["step_finish"]
            "tool_use" _).
  intros event Hevent ty Hty. vm_compute in Hevent.
  injection Hevent as <-. unfold handledTypes in Hty.
  repeat (apply elem_of_cons in Hty as [->|Hty]); try reflexivity.
  by apply elem_of_nil in Hty.
Defined.


End ResponseParserFacts.

(* ===================================================================== *)
(** ** The view: runs in flight, output lines and history *)
(* ===================================================================== *)

Module ViewRunFacts.
Import NoteContextManager View ViewRuns NoteContextManagerOps.

(** X28.  The running indicator covers every run: as long as runs are
    started by the run handler and end by their own completion, a context
    with a run in flight is among the paths [getRunningNotePaths]
    returns. *)
Theorem running_runs_are_listed (this : manager) (trace : list event)
    (key : string) :
  forallb gated trace = true ->
  1 <= inFlight key (runTrace this trace) ->
  key ∈ getRunningNotePaths (st_manager (runTrace this trace)).
Proof.
  intros Hgated Hrun.
  assert (Hinv : flagged (runTrace this trace)).
  { apply ViewFacts.trace_flagged; [exact Hgated|].
    intros k. unfold inFlight, holding. simpl. lia. }
  specialize (Hinv key). unfold flag in Hinv.
  destruct (contexts (st_manager (runTrace this trace)) !! key)
    as [context|] eqn:Hk; [|simpl in Hinv; lia].
  destruct (isRunning context) eqn:Hflag; [|simpl in Hinv; lia].
  unfold getRunningNotePaths.
  apply NoteContextManagerOpsFacts.running_paths_elem. right.
  exists context. split; [|exact Hflag].
  unfold entries. by apply elem_of_map_to_list.
Qed.

Lemma running_runs_are_listed_witness :
  "note.md" ∈ getRunningNotePaths
                (st_manager (runTrace (create sampleSettings "contexts")
                               [ClickRun (sampleUI "go");
                                Line 0 "text" NotStreaming false None])).
Proof.
  refine (running_runs_are_listed (create sampleSettings "contexts")
            [ClickRun (sampleUI "go"); Line 0 "text" NotStreaming false None]
            "note.md" _ _).
  - reflexivity.
  - vm_compute. lia.
Defined.

Lemma appendOutputToNote_context (notePath text : string)
    (isStreaming : streaming) (isAssistantMessage : bool)
    (activity : option AgentStep) (this : manager) :
  let this' := appendOutputToNote notePath text isStreaming
                 isAssistantMessage activity this in
  (exists context',
     contexts this' !! notePath = Some context'
     /\ outputLines context'
        = outputLines (getContext notePath this).1 ++ [text]
     /\ isRunning context' = isRunning (getContext notePath this).1
     /\ history context'
        = pushed text <$> history (getContext notePath this).1)
  /\ forall other, other <> notePath ->
       contexts this' !! other = contexts this !! other.
Proof.
  cbn zeta. unfold appendOutputToNote, update.
  destruct (getContext notePath this) as [context this1] eqn:Hget.
  cbn [fst contexts with_contexts]. split.
  - eexists. rewrite lookup_insert_eq. split; [reflexivity|].
    destruct isStreaming, isAssistantMessage, activity; cbn; done.
  - intros other Hne. rewrite lookup_insert_ne by done.
    unfold getContext in Hget.
    destruct (contexts this !! notePath); simplify_eq; [done|].
    cbn. by rewrite lookup_insert_ne.
Qed.

Lemma pushedAll_cons (text : string) (texts : list string)
    (item : SessionHistoryItem) :
  pushedAll (text :: texts) item = pushedAll texts (pushed text item).
Proof. reflexivity. Qed.

(** An item that does not hold the context's array is not touched; one
    that does gets the lines, and nothing else of it changes. *)
Lemma pushedAll_item (texts : list string) (item : SessionHistoryItem) :
  pushedAll texts item
  = if sharesLines item then
      mkHistoryItem (prompt item) (timestamp item) (item_success item)
        (item_notePath item) (response item) (request item)
        ((fun lines => lines ++ texts) <$> item_outputLines item) true
    else item.
Proof.
  revert item. induction texts as [|text texts IH]; intros item.
  - cbn. destruct item as [? ? ? ? ? ? [lines|] []]; cbn;
      rewrite ?app_nil_r; done.
  - rewrite pushedAll_cons, IH. unfold pushed.
    destruct item as [? ? ? ? ? ? [lines|] []]; cbn;
      rewrite <- ?app_assoc; done.
Qed.

(** X29.  The output lines of a run are kept in order, on the run's note
    and nowhere else: after the callback of a pending run was called for
    a sequence of lines, the context under the run's note path holds the
    output lines it held before (none, if it had to be created) followed
    by the texts of the lines in the order of the calls; its running flag
    is as before, the contexts of other keys are untouched, and the same
    runs are in flight.  Its history has the same items, of which those
    that hold the very array of the context (the items pushed since the
    context was last given a new array, as during an approval run) show
    the new lines as well; when no item holds it, as during a run the run
    handler started, the history is as before. *)
Theorem lines_appended (s : state) (i : nat) (run : PendingRun)
    (lines : list OutputLine) :
  st_inflight s !! i = Some run ->
  let before := (getContext (run_notePath run) (st_manager s)).1 in
  let s' := foldl step s (lineEvents i lines) in
  st_inflight s' = st_inflight s
  /\ (forall other, other <> run_notePath run ->
        contexts (st_manager s') !! other = contexts (st_manager s) !! other)
  /\ (lines <> [] ->
      exists context',
        contexts (st_manager s') !! run_notePath run = Some context'
        /\ outputLines context' = outputLines before ++ (line_text <$> lines)
        /\ isRunning context' = isRunning before
        /\ length (history context') = length (history before)
        /\ (forall (n : nat) (item : SessionHistoryItem),
              history before !! n = Some item ->
              history context' !! n
              = Some (if sharesLines item then
                        mkHistoryItem (prompt item) (timestamp item)
                          (item_success item) (item_notePath item)
                          (response item) (request item)
                          ((fun held => held ++ (line_text <$> lines))
                             <$> item_outputLines item) true
                      else item))
        /\ (Forall (fun item => sharesLines item = false) (history before) ->
            history context' = history before)).
Proof.
  intros Hrun before s'.
  assert (Hgen : forall (lines : list OutputLine) (s : state),
            st_inflight s !! i = Some run ->
            let before := (getContext (run_notePath run) (st_manager s)).1 in
            let s' := foldl step s (lineEvents i lines) in
            st_inflight s' = st_inflight s
            /\ (forall other, other <> run_notePath run ->
                  contexts (st_manager s') !! other
                  = contexts (st_manager s) !! other)
            /\ (lines <> [] ->
                exists context',
                  contexts (st_manager s') !! run_notePath run = Some context'
                  /\ outputLines context'
                     = outputLines before ++ (line_text <$> lines)
                  /\ isRunning context' = isRunning before
                  /\ history context'
                     = pushedAll (line_text <$> lines) <$> history before)).
  { clear. induction lines as [|line rest IH]; intros s Hrun; cbn zeta.
    - cbn. done.
    - cbn [lineEvents fmap list_fmap foldl]. cbn [step]. rewrite Hrun.
      set (this1 := appendOutputToNote _ _ _ _ _ _).
      destruct (appendOutputToNote_context (run_notePath run) (line_text line)
                  (line_isStreaming line) (line_isAssistantMessage line)
                  (line_activity line) (st_manager s))
        as ((c1 & Hc1 & Hlines1 & Hflag1 & Hhist1) & Hother1).
      fold this1 in Hc1, Hother1.
      destruct (IH (mkState this1 (st_inflight s)) Hrun)
        as (Hin & Hother & Hctx).
      change (foldl step (mkState this1 (st_inflight s))
                ((fun line => Line i (line_text line) (line_isStreaming line)
                                (line_isAssistantMessage line)
                                (line_activity line)) <$> rest))
        with (foldl step (mkState this1 (st_inflight s)) (lineEvents i rest)).
      split; [exact Hin|]. split.
      { intros other Hne. rewrite (Hother other Hne). by apply Hother1. }
      intros _. cbn [st_manager] in Hctx, Hother.
      rewrite (ViewFacts.getContext_existing _ _ _ Hc1) in Hctx.
      cbn [fst] in Hctx.
      destruct rest as [|next rest'].
      + exists c1. cbn. split; [exact Hc1|]. done.
      + destruct Hctx as (c' & Hc' & Hl' & Hf' & Hh'); [done|].
        exists c'. split; [exact Hc'|].
        split; [by rewrite Hl', Hlines1, <- app_assoc|].
        split; [congruence|].
        rewrite Hh', Hhist1, <- list_fmap_compose.
        apply list_fmap_ext. intros n item _. reflexivity. }
  destruct (Hgen lines s Hrun) as (Hin & Hother & Hctx).
  split; [exact Hin|]. split; [exact Hother|].
  intros Hne. destruct (Hctx Hne) as (c' & Hc' & Hl' & Hf' & Hh').
  exists c'. split; [exact Hc'|]. split; [exact Hl'|]. split; [exact Hf'|].
  split; [by rewrite Hh', length_fmap|]. split.
  - intros n item Hitem. rewrite Hh', list_lookup_fmap.
    fold before. rewrite Hitem. cbn. by rewrite pushedAll_item.
  - intros Hnone. rewrite Hh'. fold before.
    induction Hnone as [|item rest Hitem _ IH]; [done|].
    cbn. rewrite IH. f_equal. by rewrite pushedAll_item, Hitem.
Qed.

Lemma lines_appended_witness :
  let s := runTrace (create sampleSettings "contexts") duringApproval in
  let lines := [mkOutputLine "two" NotStreaming false None;
                mkOutputLine "three" Streaming true None] in
  let before := (getContext "note.md" (st_manager s)).1 in
  let s' := foldl step s (lineEvents 0 lines) in
  st_inflight s' = st_inflight s
  /\ (forall other, other <> "note.md" ->
        contexts (st_manager s') !! other = contexts (st_manager s) !! other)
  /\ (lines <> [] ->
      exists context',
        contexts (st_manager s') !! "note.md" = Some context'
        /\ outputLines context' = ["one"; "two"; "three"]
        /\ isRunning context' = true
        /\ length (history context') = 1
        /\ (forall (n : nat) (item : SessionHistoryItem),
              history before !! n = Some item ->
              history context' !! n
              = Some (if sharesLines item then
                        mkHistoryItem (prompt item) (timestamp item)
                          (item_success item) (item_notePath item)
                          (response item) (request item)
                          ((fun held => held ++ ["two"; "three"])
                             <$> item_outputLines item) true
                      else item))
        /\ (Forall (fun item => sharesLines item = false) (history before) ->
            history context' = history before)).
Proof.
  intros s lines.
  refine (lines_appended s 0
            (mkPendingRun Approval "note.md" approvalPrompt "note.md"
               (Some "note.md") "/vault" _ true) lines _).
  vm_compute. reflexivity.
Defined.

Lemma showPreview_keeps (modified forNotePath key : string) (ui : UI)
    (this : manager) (context : NoteContext) :
  contexts this !! key = Some context ->
  exists context',
    contexts (showPreview modified forNotePath ui this) !! key = Some context'
    /\ isRunning context' = isRunning context
    /\ history context' = history context.
Proof.
  intros Hk. unfold showPreview, update.
  set (target := if String.eqb forNotePath "" then _ else _).
  destruct (getContext target this) as [c this1] eqn:Hget.
  cbn [contexts with_contexts].
  destruct (decide (target = key)) as [Heq|Hne].
  - rewrite Heq in *. rewrite (ViewFacts.getContext_existing _ _ _ Hk) in Hget.
    simplify_eq. rewrite lookup_insert_eq. eexists. split; [reflexivity|].
    done.
  - rewrite lookup_insert_ne by done. exists context. split; [|done].
    unfold getContext in Hget.
    destruct (contexts this !! target); simplify_eq; [done|].
    cbn. by rewrite lookup_insert_ne.
Qed.

(** X30.  Every regular run that comes back leaves one history item: when
    the awaited run of the run handler resolves, the context the handler
    holds has its running flag down and its history longer by exactly one
    item, which carries the run's prompt and note path, the response and
    its success flag, the request the context then holds, and the output
    lines exactly when the run succeeded. *)
Theorem regular_run_recorded (run : PendingRun) (response : ClaudeCodeResponse)
    (ui : UI) (this : manager) (context : NoteContext) :
  contexts this !! run_context run = Some context ->
  run_kind run = Regular ->
  exists context' item,
    contexts (resume run response ui this).1 !! run_context run
    = Some context'
    /\ isRunning context' = false
    /\ history context' = history context ++ [item]
    /\ prompt item = run_prompt run
    /\ item_notePath item = run_notePath run
    /\ Types.response item = Some response
    /\ item_success item = success response
    /\ request item = currentRequest context
    /\ item_outputLines item
       = if success response then Some (outputLines context) else None.
Proof.
  intros Hk Hkind. unfold resume. rewrite Hkind.
  set (this1 := assign (run_context run) _ this).
  assert (Hk1 : exists c1, contexts this1 !! run_context run = Some c1
                  /\ isRunning c1 = false /\ history c1 = history context
                  /\ currentRequest c1 = currentRequest context
                  /\ outputLines c1 = outputLines context).
  { subst this1. unfold assign. cbn [contexts with_contexts].
    rewrite lookup_alter_eq, Hk. cbn. eexists. split; [reflexivity|]. done. }
  destruct Hk1 as (c1 & Hc1 & Hflag1 & Hhist1 & Hreq1 & Hlines1).
  destruct (success response) eqn:Hok.
  - set (this2 := assign (run_context run) _ this1).
    assert (Hk2 : exists c2 item,
              contexts this2 !! run_context run = Some c2
              /\ isRunning c2 = false
              /\ history c2 = history context ++ [item]
              /\ prompt item = run_prompt run
              /\ item_notePath item = run_notePath run
              /\ Types.response item = Some response
              /\ item_success item = true
              /\ request item = currentRequest context
              /\ item_outputLines item = Some (outputLines context)).
    { subst this2. unfold assign. cbn [contexts with_contexts].
      rewrite lookup_alter_eq, Hc1. cbn. eexists _, _.
      split; [reflexivity|]. cbn. rewrite Hhist1, Hreq1, Hlines1. done. }
    destruct Hk2 as (c2 & item & Hc2 & Hflag2 & Hhist2 & Hitem).
    assert (Hpreview : forall p : manager * list effect,
              (exists c, contexts p.1 !! run_context run = Some c
                 /\ isRunning c = isRunning c2 /\ history c = history c2) ->
              exists context' item0,
                contexts (let '(this, effects) := p in
                          (this, match run_file run with
                                 | Some path =>
                                     [SaveContext path (run_vaultPath run)]
                                 | None => []
                                 end ++ effects)).1 !! run_context run
                = Some context'
                /\ isRunning context' = false
                /\ history context' = history context ++ [item0]
                /\ prompt item0 = run_prompt run
                /\ item_notePath item0 = run_notePath run
                /\ Types.response item0 = Some response
                /\ item_success item0 = true
                /\ request item0 = currentRequest context
                /\ item_outputLines item0 = Some (outputLines context)).
    { intros [m effects] (c & Hc & Hf & Hh). cbn [fst] in *.
      exists c, item. split; [exact Hc|].
      split; [congruence|]. split; [congruence|]. exact Hitem. }
    apply Hpreview.
    destruct (modifiedContent response) as [modified|];
      [|by exists c2].
    destruct (negb (String.eqb modified "") && negb (String.eqb (trim modified) "")
              && run_hasEditor run); [|by exists c2].
    destruct (autoAcceptChecked ui); [by exists c2|].
    cbn [fst]. by apply showPreview_keeps.
  - cbn [fst]. unfold assign. cbn [contexts with_contexts].
    rewrite lookup_alter_eq, Hc1. cbn. eexists _, _.
    split; [reflexivity|]. cbn. rewrite Hhist1, Hreq1. done.
Qed.

Lemma regular_run_recorded_witness :
  let this := st_manager (runTrace (create sampleSettings "contexts")
                            [ClickRun (sampleUI "go")]) in
  let run := mkPendingRun Regular "note.md" "go" "note.md" (Some "note.md")
               "/vault" (mkRequest None "go" None None "/vault" ".obsidian"
                           None false None None) true in
  exists context' item,
    contexts (resume run permissionResponse (sampleUI "") this).1 !! "note.md"
    = Some context'
    /\ isRunning context' = false
    /\ history context'
       = history (getContext "note.md" this).1 ++ [item]
    /\ prompt item = "go"
    /\ item_notePath item = "note.md"
    /\ Types.response item = Some permissionResponse
    /\ item_success item = success permissionResponse
    /\ request item = currentRequest (getContext "note.md" this).1
    /\ item_outputLines item
       = if success permissionResponse
         then Some (outputLines (getContext "note.md" this).1) else None.
Proof.
  intros this run.
  refine (regular_run_recorded run permissionResponse (sampleUI "") this
            (getContext "note.md" this).1 _ _).
  - vm_compute. reflexivity.
  - reflexivity.
Defined.

End ViewRunFacts.
